(** * API de Música: a shallow embedding of the resource handlers

    The development follows the layout of the repository:

    - [app/models.py]: the three table models [Usuario], [Cancion],
      [Favorito], their create/update projections and the pydantic
      validators;
    - the persistence layer the handlers talk to through a SQLModel
      [Session]: [session.get], [session.add]/[session.commit],
      [session.delete], [session.exec(select(...))];
    - [app/routers/usuarios.py], [app/routers/canciones.py],
      [app/routers/favoritos.py]: one Rocq function per handler, taking
      the database state and returning a response and the new state.

    Conventions.  Python [int] is [Z].  A [datetime] is an opaque [Z]
    supplied by the caller (the clock read by [default_factory]).  Text
    is [string], holding the bytes of the UTF-8 encoding; lengths and
    patterns count characters, and case folding is that of the default
    store (SQLite: [lower] and [LIKE] fold the 26 ASCII letters only).  Integers handed to the store are taken to be in its
    range, so [session.get] and [session.exec] are total.  Tables are
    lists of rows in rowid order, the order in which a [select] without
    [ORDER BY] yields them. *)

From Stdlib Require Import ZArith List String Ascii Bool Lia Sorted.
Import ListNotations.

Open Scope string_scope.
Open Scope list_scope.
Open Scope Z_scope.

(** ** Entities ([app/models.py]) *)

Definition datetime := Z.

Module Usuario.
Record t := mk
  { id : Z;
    nombre : string;
    correo : string;
    fecha_registro : datetime }.
End Usuario.

Module Cancion.
Record t := mk
  { id : Z;
    titulo : string;
    artista : string;
    album : string;
    duracion : Z;
    año : Z;
    genero : string;
    fecha_creacion : datetime }.
End Cancion.

Module Favorito.
Record t := mk
  { id : Z;
    id_usuario : Z;
    id_cancion : Z;
    fecha_marcado : datetime }.
End Favorito.

(** [UsuarioCreate], [CancionCreate], [FavoritoCreate]: the base fields. *)
Record UsuarioCreate := mkUsuarioCreate
  { uc_nombre : string; uc_correo : string }.

Record CancionCreate := mkCancionCreate
  { cc_titulo : string; cc_artista : string; cc_album : string;
    cc_duracion : Z; cc_año : Z; cc_genero : string }.

Record FavoritoCreate := mkFavoritoCreate
  { fc_id_usuario : Z; fc_id_cancion : Z }.

(** A field of an update model ([T | None = Field(default=None)]):
    either it was not part of the request body, or it was sent, with a
    value or with an explicit [null].  pydantic records which of the
    two happened in [model_fields_set]. *)
Inductive Campo (A : Type) : Type :=
| NoEnviado
| Enviado (v : option A).
Arguments NoEnviado {A}.
Arguments Enviado {A} v.

Record UsuarioUpdate := mkUsuarioUpdate
  { uu_nombre : Campo string; uu_correo : Campo string }.

Record CancionUpdate := mkCancionUpdate
  { cu_titulo : Campo string; cu_artista : Campo string;
    cu_album : Campo string; cu_duracion : Campo Z;
    cu_año : Campo Z; cu_genero : Campo string }.

(** ** Responses *)

(** The one store exception the handlers mention
    ([sqlalchemy.exc.IntegrityError]). *)
Inductive Excepcion := IntegrityError.

(** What a handler produces: a body with the status code of its route
    decorator, an [HTTPException] it raised, or an exception it let
    escape (the framework answers 500). *)
Inductive Respuesta (A : Type) : Type :=
| Exito (status_code : Z) (cuerpo : A)
| HTTPException (status_code : Z) (detail : string)
| NoControlada (e : Excepcion).
Arguments Exito {A} status_code cuerpo.
Arguments HTTPException {A} status_code detail.
Arguments NoControlada {A} e.

Definition HTTP_200_OK := 200.
Definition HTTP_201_CREATED := 201.
Definition HTTP_204_NO_CONTENT := 204.
Definition HTTP_400_BAD_REQUEST := 400.
Definition HTTP_404_NOT_FOUND := 404.
Definition HTTP_422_UNPROCESSABLE_ENTITY := 422.

(** The error taxonomy of the handlers. *)
Definition es_NotFound {A} (r : Respuesta A) : Prop :=
  exists d, r = HTTPException HTTP_404_NOT_FOUND d.
Definition es_Conflict {A} (r : Respuesta A) : Prop :=
  exists d, r = HTTPException HTTP_400_BAD_REQUEST d.
Definition es_ValidationError {A} (r : Respuesta A) : Prop :=
  exists d, r = HTTPException HTTP_422_UNPROCESSABLE_ENTITY d.

(** ** The persistence layer *)

Record DB := mkDB
  { usuarios : list Usuario.t;
    canciones : list Cancion.t;
    favoritos : list Favorito.t }.

Definition db_vacia : DB := mkDB [] [] [].

(** The key the store assigns to a row inserted with [id=None]: 1 in an
    empty table, otherwise one more than the largest key in use. *)
Definition siguiente_id (ids : list Z) : Z :=
  match ids with
  | [] => 1
  | x :: xs => 1 + fold_right Z.max x xs
  end.

(** [session.get(Model, pk)] *)
Definition get_usuario (db : DB) (pk : Z) : option Usuario.t :=
  find (fun u => Usuario.id u =? pk) (usuarios db).
Definition get_cancion (db : DB) (pk : Z) : option Cancion.t :=
  find (fun c => Cancion.id c =? pk) (canciones db).
Definition get_favorito (db : DB) (pk : Z) : option Favorito.t :=
  find (fun f => Favorito.id f =? pk) (favoritos db).

(** *** Queries: [select(Model).where(and_(...)).offset(n).limit(m)] *)

Record Consulta (C : Type) := mkConsulta
  { q_where : list C;
    q_offset : option Z;
    q_limit : option Z }.
Arguments mkConsulta {C} q_where q_offset q_limit.
Arguments q_where {C} c.
Arguments q_offset {C} c.
Arguments q_limit {C} c.

Definition select_ {C : Type} : Consulta C := mkConsulta [] None None.
Definition where_ {C} (conds : list C) (q : Consulta C) : Consulta C :=
  mkConsulta (q_where q ++ conds) (q_offset q) (q_limit q).
Definition offset_ {C} (n : Z) (q : Consulta C) : Consulta C :=
  mkConsulta (q_where q) (Some n) (q_limit q).
Definition limit_ {C} (n : Z) (q : Consulta C) : Consulta C :=
  mkConsulta (q_where q) (q_offset q) (Some n).

(** [OFFSET n]: a negative offset skips nothing. *)
Definition aplicar_offset {F} (o : option Z) (filas : list F) : list F :=
  match o with
  | None => filas
  | Some n => skipn (Z.to_nat n) filas
  end.

(** [LIMIT n]: a negative limit is no limit. *)
Definition aplicar_limit {F} (o : option Z) (filas : list F) : list F :=
  match o with
  | None => filas
  | Some n => if n <? 0 then filas else firstn (Z.to_nat n) filas
  end.

(** [session.exec(query).all()] over a table, given the meaning of a
    condition on a row. *)
Definition session_exec {F C} (cumple : C -> F -> bool)
    (tabla : list F) (q : Consulta C) : list F :=
  aplicar_limit (q_limit q)
    (aplicar_offset (q_offset q)
       (filter (fun f => forallb (fun c => cumple c f) (q_where q)) tabla)).

(** [session.exec(query).first()] *)
Definition first {F} (filas : list F) : option F := hd_error filas.

(** *** Writes: [session.add] / [setattr] / [session.delete], then
    [session.commit] *)

(** A commit either goes through or raises; when it raises nothing is
    written. *)
Inductive Resultado (A : Type) : Type :=
| Hecho (a : A)
| Lanza (e : Excepcion).
Arguments Hecho {A} a.
Arguments Lanza {A} e.

Definition con_usuarios (db : DB) (l : list Usuario.t) : DB :=
  mkDB l (canciones db) (favoritos db).
Definition con_canciones (db : DB) (l : list Cancion.t) : DB :=
  mkDB (usuarios db) l (favoritos db).
Definition con_favoritos (db : DB) (l : list Favorito.t) : DB :=
  mkDB (usuarios db) (canciones db) l.

(** [correo] carries [unique=True] (models.py, [UsuarioBase]): the
    insert is refused when the value is already stored. *)
Definition add_usuario (db : DB) (nombre correo : string) (ahora : datetime)
    : Resultado (DB * Usuario.t) :=
  if existsb (fun u => (Usuario.correo u =? correo)%string) (usuarios db)
  then Lanza IntegrityError
  else
    let u := Usuario.mk (siguiente_id (map Usuario.id (usuarios db)))
                        nombre correo ahora in
    Hecho (con_usuarios db (usuarios db ++ [u]), u).

(** [Cancion] declares no constraint besides its primary key. *)
Definition add_cancion (db : DB) (c : CancionCreate) (ahora : datetime)
    : Resultado (DB * Cancion.t) :=
  let fila := Cancion.mk (siguiente_id (map Cancion.id (canciones db)))
                (cc_titulo c) (cc_artista c) (cc_album c)
                (cc_duracion c) (cc_año c) (cc_genero c) ahora in
  Hecho (con_canciones db (canciones db ++ [fila]), fila).

(** [Favorito] (models.py, [FavoritoBase] and [Favorito]) declares two
    foreign keys and a primary key and nothing else: no
    [UniqueConstraint], no [__table_args__].  The default store does
    not check foreign keys, so the insert always goes through. *)
Definition add_favorito (db : DB) (id_usuario id_cancion : Z)
    (ahora : datetime) : Resultado (DB * Favorito.t) :=
  let fila := Favorito.mk (siguiente_id (map Favorito.id (favoritos db)))
                id_usuario id_cancion ahora in
  Hecho (con_favoritos db (favoritos db ++ [fila]), fila).

(** An object loaded into the session.  [setattr] on a table model does
    not validate, so an attribute can hold [None] until the commit. *)
Record ObjUsuario := mkObjUsuario
  { ou_id : Z;
    ou_nombre : option string;
    ou_correo : option string;
    ou_fecha_registro : datetime }.

Record ObjCancion := mkObjCancion
  { oc_id : Z;
    oc_titulo : option string;
    oc_artista : option string;
    oc_album : option string;
    oc_duracion : option Z;
    oc_año : option Z;
    oc_genero : option string;
    oc_fecha_creacion : datetime }.

Definition cargar_usuario (u : Usuario.t) : ObjUsuario :=
  mkObjUsuario (Usuario.id u) (Some (Usuario.nombre u))
    (Some (Usuario.correo u)) (Usuario.fecha_registro u).

Definition cargar_cancion (c : Cancion.t) : ObjCancion :=
  mkObjCancion (Cancion.id c) (Some (Cancion.titulo c))
    (Some (Cancion.artista c)) (Some (Cancion.album c))
    (Some (Cancion.duracion c)) (Some (Cancion.año c))
    (Some (Cancion.genero c)) (Cancion.fecha_creacion c).

(** Commit of a modified [Usuario]: every column is [NOT NULL]
    ([nombre: str], [correo: EmailStr]) and [correo] is unique among the
    other rows. *)
Definition update_usuario (db : DB) (o : ObjUsuario)
    : Resultado (DB * Usuario.t) :=
  match ou_nombre o, ou_correo o with
  | Some n, Some c =>
      if existsb (fun u => negb (Usuario.id u =? ou_id o)
                           && (Usuario.correo u =? c)%string) (usuarios db)
      then Lanza IntegrityError
      else
        let fila := Usuario.mk (ou_id o) n c (ou_fecha_registro o) in
        Hecho (con_usuarios db
                 (map (fun u => if Usuario.id u =? ou_id o then fila else u)
                      (usuarios db)),
               fila)
  | _, _ => Lanza IntegrityError
  end.

(** Commit of a modified [Cancion]: every column is [NOT NULL]. *)
Definition update_cancion (db : DB) (o : ObjCancion)
    : Resultado (DB * Cancion.t) :=
  match oc_titulo o, oc_artista o, oc_album o,
        oc_duracion o, oc_año o, oc_genero o with
  | Some t, Some a, Some al, Some d, Some y, Some g =>
      let fila := Cancion.mk (oc_id o) t a al d y g (oc_fecha_creacion o) in
      Hecho (con_canciones db
               (map (fun c => if Cancion.id c =? oc_id o then fila else c)
                    (canciones db)),
             fila)
  | _, _, _, _, _, _ => Lanza IntegrityError
  end.

(** [session.delete(usuario); session.commit()].  The relationship
    [Usuario.favoritos] is declared as
    [Relationship(back_populates="usuario")]: no delete cascade and no
    [passive_deletes].  On deleting the parent the unit of work
    therefore loads the children and blanks their foreign key; the
    column [favorito.id_usuario] is [int], hence [NOT NULL], and the
    flush raises.  Without children the row is deleted. *)
Definition delete_usuario (db : DB) (u : Usuario.t) : Resultado DB :=
  if existsb (fun f => Favorito.id_usuario f =? Usuario.id u) (favoritos db)
  then Lanza IntegrityError
  else Hecho (con_usuarios db
                (filter (fun r => negb (Usuario.id r =? Usuario.id u))
                        (usuarios db))).

(** The same for [Cancion.favoritos] and [favorito.id_cancion]. *)
Definition delete_cancion (db : DB) (c : Cancion.t) : Resultado DB :=
  if existsb (fun f => Favorito.id_cancion f =? Cancion.id c) (favoritos db)
  then Lanza IntegrityError
  else Hecho (con_canciones db
                (filter (fun r => negb (Cancion.id r =? Cancion.id c))
                        (canciones db))).

(** A [Favorito] has no dependants. *)
Definition delete_favorito (db : DB) (f : Favorito.t) : Resultado DB :=
  Hecho (con_favoritos db
           (filter (fun r => negb (Favorito.id r =? Favorito.id f))
                   (favoritos db))).

(** *** Conditions used in [where] *)

Definition lower_ascii (c : ascii) : ascii :=
  let n := N_of_ascii c in
  if ((65 <=? n) && (n <=? 90))%N then ascii_of_N (n + 32) else c.

Fixpoint lower (s : string) : string :=
  match s with
  | EmptyString => EmptyString
  | String c s' => String (lower_ascii c) (lower s')
  end.

(** Text is held as the bytes of its UTF-8 encoding; the store and the
    validation both work on characters.  A character is read as the
    store reads it: a byte below [0xC0] is a character of its own, a
    byte from [0xC0] up opens a character that takes the continuation
    bytes ([0x80] to [0xBF]) that follow it. *)
Definition cabecera (b : ascii) : bool := (192 <=? N_of_ascii b)%N.

Definition continuacion (b : ascii) : bool :=
  ((128 <=? N_of_ascii b) && (N_of_ascii b <=? 191))%N.

Definition es_continuacion (c : string) : bool :=
  match c with
  | String b EmptyString => continuacion b
  | _ => false
  end.

(** The character opened by [cab], given the characters read from what
    follows it. *)
Fixpoint une (cab : string) (cs : list string) : list string :=
  match cs with
  | c :: cs' => if es_continuacion c then une (cab ++ c) cs' else cab :: cs
  | [] => [cab]
  end.

Fixpoint caracteres (s : string) : list string :=
  match s with
  | EmptyString => []
  | String b s' =>
      if cabecera b
      then une (String b EmptyString) (caracteres s')
      else String b EmptyString :: caracteres s'
  end.

(** The [LIKE] operator of the store, on characters: [%] stands for any
    run of characters, [_] for any one character, the 26 ASCII letters
    compare without regard to case; there is no escape character. *)
Fixpoint like_c (patron texto : list string) : bool :=
  match patron with
  | [] => match texto with [] => true | _ :: _ => false end
  | p :: patron' =>
      if (p =? "%")%string
      then (fix resto (t : list string) : bool :=
              like_c patron' t
              || match t with
                 | [] => false
                 | _ :: t' => resto t'
                 end) texto
      else
        match texto with
        | [] => false
        | c :: texto' =>
            ((p =? "_")%string || (lower p =? lower c)%string)
            && like_c patron' texto'
        end
  end.

Definition like (patron texto : string) : bool :=
  like_c (caracteres patron) (caracteres texto).

(** [column.ilike(pattern)] is rendered [lower(column) LIKE
    lower(pattern)]. *)
Definition ilike (texto patron : string) : bool :=
  like (lower patron) (lower texto).

Inductive SinCondicion : Type := .

Definition cumple_nada {F} (c : SinCondicion) (f : F) : bool :=
  match c with end.

Inductive CondCancion : Type :=
| col_ilike (col : Cancion.t -> string) (patron : string)
| año_igual (v : Z).

Definition cumple_cancion (c : CondCancion) (f : Cancion.t) : bool :=
  match c with
  | col_ilike col patron => ilike (col f) patron
  | año_igual v => Cancion.año f =? v
  end.

Inductive CondFavorito : Type :=
| id_usuario_igual (v : Z)
| id_cancion_igual (v : Z).

Definition cumple_favorito (c : CondFavorito) (f : Favorito.t) : bool :=
  match c with
  | id_usuario_igual v => Favorito.id_usuario f =? v
  | id_cancion_igual v => Favorito.id_cancion f =? v
  end.

(** ** Validation ([app/models.py]) *)

(** [len(s)] of a Python string: its number of characters. *)
Definition len (s : string) : Z := Z.of_nat (List.length (caracteres s)).

Definition entre (lo hi v : Z) : bool := (lo <=? v) && (v <=? hi).

(** [CancionBase.validar_año_no_futuro]; [None] stands for the
    [ValueError] it raises. *)
Definition CancionBase_validar_año_no_futuro (año_actual v : Z) : option Z :=
  if v >? año_actual then None else Some v.

(** [CancionUpdate.validar_año_no_futuro], on a value that may be
    [None]. *)
Definition CancionUpdate_validar_año_no_futuro (año_actual : Z)
    (v : option Z) : option (option Z) :=
  match v with
  | Some y => if y >? año_actual then None else Some v
  | None => Some v
  end.

(** The field [año: int = Field(ge=1900, le=2100)] followed by its
    validator. *)
Definition CancionBase_año_valido (año_actual v : Z) : bool :=
  entre 1900 2100 v
  && match CancionBase_validar_año_no_futuro año_actual v with
     | Some _ => true
     | None => false
     end.

Definition CancionCreate_valida (año_actual : Z) (c : CancionCreate) : bool :=
  entre 1 200 (len (cc_titulo c))
  && entre 1 100 (len (cc_artista c))
  && entre 1 200 (len (cc_album c))
  && ((0 <? cc_duracion c) && (cc_duracion c <? 3600))
  && CancionBase_año_valido año_actual (cc_año c)
  && entre 1 50 (len (cc_genero c)).

(** A field declared [T | None]: the constraint binds a value, [None]
    and an absent field pass. *)
Definition campo_valido {A} (ok : A -> bool) (c : Campo A) : bool :=
  match c with
  | Enviado (Some v) => ok v
  | Enviado None => true
  | NoEnviado => true
  end.

(** The field [año: int | None = Field(default=None, ge=1900, le=2100)]
    followed by its validator, which runs on a supplied value. *)
Definition CancionUpdate_año_valido (año_actual : Z) (c : Campo Z) : bool :=
  match c with
  | Enviado v =>
      match v with Some y => entre 1900 2100 y | None => true end
      && match CancionUpdate_validar_año_no_futuro año_actual v with
         | Some _ => true
         | None => false
         end
  | NoEnviado => true
  end.

Definition CancionUpdate_valida (año_actual : Z) (c : CancionUpdate) : bool :=
  campo_valido (fun s => entre 1 200 (len s)) (cu_titulo c)
  && campo_valido (fun s => entre 1 100 (len s)) (cu_artista c)
  && campo_valido (fun s => entre 1 200 (len s)) (cu_album c)
  && campo_valido (fun d => (0 <? d) && (d <? 3600)) (cu_duracion c)
  && CancionUpdate_año_valido año_actual (cu_año c)
  && campo_valido (fun s => entre 1 50 (len s)) (cu_genero c).

(** ** Helpers shared by the handlers *)

(** A parameter with a default value. *)
Definition por_defecto {A} (d : A) (o : option A) : A :=
  match o with Some v => v | None => d end.

(** [if x:] on an optional string and on an optional integer: [None],
    the empty string and zero are false. *)
Definition si_texto (o : option string) : option string :=
  match o with
  | Some s => if (s =? "")%string then None else Some s
  | None => None
  end.

Definition si_entero (o : option Z) : option Z :=
  match o with
  | Some v => if v =? 0 then None else Some v
  | None => None
  end.

(** ** [app/routers/usuarios.py] *)

Definition listar_usuarios (db : DB) (skip limit : option Z)
    : Respuesta (list Usuario.t) :=
  let skip := por_defecto 0 skip in
  let limit := por_defecto 100 limit in
  let limit := if limit >? 100 then 100 else limit in
  let usuarios :=
    session_exec cumple_nada (usuarios db)
      (limit_ limit (offset_ skip select_)) in
  Exito HTTP_200_OK usuarios.

Definition crear_usuario (ahora : datetime) (usuario : UsuarioCreate)
    (db : DB) : Respuesta Usuario.t * DB :=
  match add_usuario db (uc_nombre usuario) (uc_correo usuario) ahora with
  | Hecho (db', db_usuario) => (Exito HTTP_201_CREATED db_usuario, db')
  | Lanza IntegrityError =>
      (HTTPException HTTP_400_BAD_REQUEST
         "El correo electrónico ya está registrado", db)
  end.

Definition obtener_usuario (db : DB) (usuario_id : Z)
    : Respuesta Usuario.t :=
  match get_usuario db usuario_id with
  | None => HTTPException HTTP_404_NOT_FOUND "Usuario no encontrado"
  | Some usuario => Exito HTTP_200_OK usuario
  end.

(** [usuario_update.model_dump(exclude_unset=True)]: the fields that
    were sent, each with the value to assign. *)
Inductive AsignaUsuario : Type :=
| set_nombre (v : option string)
| set_correo (v : option string).

Definition enviado {A B} (f : option A -> B) (c : Campo A) : list B :=
  match c with
  | Enviado v => [f v]
  | NoEnviado => []
  end.

Definition UsuarioUpdate_model_dump (u : UsuarioUpdate) : list AsignaUsuario :=
  enviado set_nombre (uu_nombre u) ++ enviado set_correo (uu_correo u).

Definition setattr_usuario (o : ObjUsuario) (a : AsignaUsuario) : ObjUsuario :=
  match a with
  | set_nombre v =>
      mkObjUsuario (ou_id o) v (ou_correo o) (ou_fecha_registro o)
  | set_correo v =>
      mkObjUsuario (ou_id o) (ou_nombre o) v (ou_fecha_registro o)
  end.

Definition actualizar_usuario (usuario_id : Z) (usuario_update : UsuarioUpdate)
    (db : DB) : Respuesta Usuario.t * DB :=
  match get_usuario db usuario_id with
  | None => (HTTPException HTTP_404_NOT_FOUND "Usuario no encontrado", db)
  | Some usuario =>
      let usuario_data := UsuarioUpdate_model_dump usuario_update in
      let usuario :=
        fold_left setattr_usuario usuario_data (cargar_usuario usuario) in
      match update_usuario db usuario with
      | Hecho (db', usuario) => (Exito HTTP_200_OK usuario, db')
      | Lanza IntegrityError =>
          (HTTPException HTTP_400_BAD_REQUEST
             "El correo electrónico ya está registrado", db)
      end
  end.

Definition eliminar_usuario (usuario_id : Z) (db : DB)
    : Respuesta unit * DB :=
  match get_usuario db usuario_id with
  | None => (HTTPException HTTP_404_NOT_FOUND "Usuario no encontrado", db)
  | Some usuario =>
      match delete_usuario db usuario with
      | Hecho db' => (Exito HTTP_204_NO_CONTENT tt, db')
      | Lanza e => (NoControlada e, db)
      end
  end.

(** The response model [UsuarioConFavoritos]: the user with the rows of
    its [favoritos] relationship. *)
Definition listar_favoritos_usuario (db : DB) (usuario_id : Z)
    : Respuesta (Usuario.t * list Favorito.t) :=
  match get_usuario db usuario_id with
  | None => HTTPException HTTP_404_NOT_FOUND "Usuario no encontrado"
  | Some usuario =>
      Exito HTTP_200_OK
        (usuario,
         filter (fun f => Favorito.id_usuario f =? Usuario.id usuario)
                (favoritos db))
  end.

(** ** [app/routers/canciones.py] *)

Definition listar_canciones (db : DB) (skip limit : option Z)
    : Respuesta (list Cancion.t) :=
  let skip := por_defecto 0 skip in
  let limit := por_defecto 100 limit in
  let limit := if limit >? 100 then 100 else limit in
  let canciones :=
    session_exec cumple_cancion (canciones db)
      (limit_ limit (offset_ skip select_)) in
  Exito HTTP_200_OK canciones.

Definition crear_cancion (ahora : datetime) (cancion : CancionCreate)
    (db : DB) : Respuesta Cancion.t * DB :=
  match add_cancion db cancion ahora with
  | Hecho (db', db_cancion) => (Exito HTTP_201_CREATED db_cancion, db')
  | Lanza e => (NoControlada e, db)
  end.

Definition buscar_canciones (db : DB) (titulo artista genero : option string)
    (año : option Z) (skip limit : option Z) : Respuesta (list Cancion.t) :=
  let skip := por_defecto 0 skip in
  let limit := por_defecto 100 limit in
  let limit := if limit >? 100 then 100 else limit in
  let query := select_ in
  let conditions := [] in
  let conditions :=
    match si_texto titulo with
    | Some titulo =>
        conditions ++ [col_ilike Cancion.titulo ("%" ++ titulo ++ "%")%string]
    | None => conditions
    end in
  let conditions :=
    match si_texto artista with
    | Some artista =>
        conditions
        ++ [col_ilike Cancion.artista ("%" ++ artista ++ "%")%string]
    | None => conditions
    end in
  let conditions :=
    match si_texto genero with
    | Some genero =>
        conditions ++ [col_ilike Cancion.genero ("%" ++ genero ++ "%")%string]
    | None => conditions
    end in
  let conditions :=
    match si_entero año with
    | Some año => conditions ++ [año_igual año]
    | None => conditions
    end in
  let query :=
    match conditions with
    | [] => query
    | _ :: _ => where_ conditions query
    end in
  let query := limit_ limit (offset_ skip query) in
  let canciones := session_exec cumple_cancion (canciones db) query in
  Exito HTTP_200_OK canciones.

Definition obtener_cancion (db : DB) (cancion_id : Z)
    : Respuesta Cancion.t :=
  match get_cancion db cancion_id with
  | None => HTTPException HTTP_404_NOT_FOUND "Canción no encontrada"
  | Some cancion => Exito HTTP_200_OK cancion
  end.

(** [cancion_update.model_dump(exclude_unset=True)] *)
Inductive AsignaCancion : Type :=
| set_titulo (v : option string)
| set_artista (v : option string)
| set_album (v : option string)
| set_duracion (v : option Z)
| set_año (v : option Z)
| set_genero (v : option string).

Definition CancionUpdate_model_dump (c : CancionUpdate) : list AsignaCancion :=
  enviado set_titulo (cu_titulo c)
  ++ enviado set_artista (cu_artista c)
  ++ enviado set_album (cu_album c)
  ++ enviado set_duracion (cu_duracion c)
  ++ enviado set_año (cu_año c)
  ++ enviado set_genero (cu_genero c).

Definition setattr_cancion (o : ObjCancion) (a : AsignaCancion) : ObjCancion :=
  match a with
  | set_titulo v =>
      mkObjCancion (oc_id o) v (oc_artista o) (oc_album o) (oc_duracion o)
        (oc_año o) (oc_genero o) (oc_fecha_creacion o)
  | set_artista v =>
      mkObjCancion (oc_id o) (oc_titulo o) v (oc_album o) (oc_duracion o)
        (oc_año o) (oc_genero o) (oc_fecha_creacion o)
  | set_album v =>
      mkObjCancion (oc_id o) (oc_titulo o) (oc_artista o) v (oc_duracion o)
        (oc_año o) (oc_genero o) (oc_fecha_creacion o)
  | set_duracion v =>
      mkObjCancion (oc_id o) (oc_titulo o) (oc_artista o) (oc_album o) v
        (oc_año o) (oc_genero o) (oc_fecha_creacion o)
  | set_año v =>
      mkObjCancion (oc_id o) (oc_titulo o) (oc_artista o) (oc_album o)
        (oc_duracion o) v (oc_genero o) (oc_fecha_creacion o)
  | set_genero v =>
      mkObjCancion (oc_id o) (oc_titulo o) (oc_artista o) (oc_album o)
        (oc_duracion o) (oc_año o) v (oc_fecha_creacion o)
  end.

Definition actualizar_cancion (cancion_id : Z) (cancion_update : CancionUpdate)
    (db : DB) : Respuesta Cancion.t * DB :=
  match get_cancion db cancion_id with
  | None => (HTTPException HTTP_404_NOT_FOUND "Canción no encontrada", db)
  | Some cancion =>
      let cancion_data := CancionUpdate_model_dump cancion_update in
      let cancion :=
        fold_left setattr_cancion cancion_data (cargar_cancion cancion) in
      match update_cancion db cancion with
      | Hecho (db', cancion) => (Exito HTTP_200_OK cancion, db')
      | Lanza e => (NoControlada e, db)
      end
  end.

Definition eliminar_cancion (cancion_id : Z) (db : DB)
    : Respuesta unit * DB :=
  match get_cancion db cancion_id with
  | None => (HTTPException HTTP_404_NOT_FOUND "Canción no encontrada", db)
  | Some cancion =>
      match delete_cancion db cancion with
      | Hecho db' => (Exito HTTP_204_NO_CONTENT tt, db')
      | Lanza e => (NoControlada e, db)
      end
  end.

(** ** [app/routers/favoritos.py] *)

Definition listar_favoritos (db : DB) (skip limit : option Z)
    : Respuesta (list Favorito.t) :=
  let skip := por_defecto 0 skip in
  let limit := por_defecto 100 limit in
  let limit := if limit >? 100 then 100 else limit in
  let favoritos :=
    session_exec cumple_favorito (favoritos db)
      (limit_ limit (offset_ skip select_)) in
  Exito HTTP_200_OK favoritos.

Definition crear_favorito (ahora : datetime) (favorito : FavoritoCreate)
    (db : DB) : Respuesta Favorito.t * DB :=
  match get_usuario db (fc_id_usuario favorito) with
  | None => (HTTPException HTTP_404_NOT_FOUND "Usuario no encontrado", db)
  | Some usuario =>
      match get_cancion db (fc_id_cancion favorito) with
      | None =>
          (HTTPException HTTP_404_NOT_FOUND "Canción no encontrada", db)
      | Some cancion =>
          let favorito_existente :=
            first
              (session_exec cumple_favorito (favoritos db)
                 (where_ [id_usuario_igual (fc_id_usuario favorito);
                          id_cancion_igual (fc_id_cancion favorito)]
                    select_)) in
          match favorito_existente with
          | Some _ =>
              (HTTPException HTTP_400_BAD_REQUEST
                 "Esta canción ya está marcada como favorita para este usuario",
               db)
          | None =>
              match add_favorito db (fc_id_usuario favorito)
                      (fc_id_cancion favorito) ahora with
              | Hecho (db', db_favorito) =>
                  (Exito HTTP_201_CREATED db_favorito, db')
              | Lanza e => (NoControlada e, db)
              end
          end
      end
  end.

Definition obtener_favorito (db : DB) (favorito_id : Z)
    : Respuesta Favorito.t :=
  match get_favorito db favorito_id with
  | None => HTTPException HTTP_404_NOT_FOUND "Favorito no encontrado"
  | Some favorito => Exito HTTP_200_OK favorito
  end.

Definition eliminar_favorito (favorito_id : Z) (db : DB)
    : Respuesta unit * DB :=
  match get_favorito db favorito_id with
  | None => (HTTPException HTTP_404_NOT_FOUND "Favorito no encontrado", db)
  | Some favorito =>
      match delete_favorito db favorito with
      | Hecho db' => (Exito HTTP_204_NO_CONTENT tt, db')
      | Lanza e => (NoControlada e, db)
      end
  end.

Definition marcar_favorito_especifico (ahora : datetime)
    (id_usuario id_cancion : Z) (db : DB) : Respuesta Favorito.t * DB :=
  match get_usuario db id_usuario with
  | None => (HTTPException HTTP_404_NOT_FOUND "Usuario no encontrado", db)
  | Some usuario =>
      match get_cancion db id_cancion with
      | None =>
          (HTTPException HTTP_404_NOT_FOUND "Canción no encontrada", db)
      | Some cancion =>
          let favorito_existente :=
            first
              (session_exec cumple_favorito (favoritos db)
                 (where_ [id_usuario_igual id_usuario;
                          id_cancion_igual id_cancion]
                    select_)) in
          match favorito_existente with
          | Some _ =>
              (HTTPException HTTP_400_BAD_REQUEST
                 "Esta canción ya está marcada como favorita para este usuario",
               db)
          | None =>
              let favorito_data := mkFavoritoCreate id_usuario id_cancion in
              match add_favorito db (fc_id_usuario favorito_data)
                      (fc_id_cancion favorito_data) ahora with
              | Hecho (db', db_favorito) =>
                  (Exito HTTP_201_CREATED db_favorito, db')
              | Lanza e => (NoControlada e, db)
              end
          end
      end
  end.

Definition eliminar_favorito_especifico (id_usuario id_cancion : Z) (db : DB)
    : Respuesta unit * DB :=
  let favorito :=
    first
      (session_exec cumple_favorito (favoritos db)
         (where_ [id_usuario_igual id_usuario; id_cancion_igual id_cancion]
            select_)) in
  match favorito with
  | None => (HTTPException HTTP_404_NOT_FOUND "Favorito no encontrado", db)
  | Some favorito =>
      match delete_favorito db favorito with
      | Hecho db' => (Exito HTTP_204_NO_CONTENT tt, db')
      | Lanza e => (NoControlada e, db)
      end
  end.

(** ** The routes that validate a body before the handler runs

    A body that fails the model's validation is answered 422 by the
    framework and the handler is not entered. *)

Definition POST_canciones (año_actual : Z) (ahora : datetime)
    (cuerpo : CancionCreate) (db : DB) : Respuesta Cancion.t * DB :=
  if CancionCreate_valida año_actual cuerpo
  then crear_cancion ahora cuerpo db
  else (HTTPException HTTP_422_UNPROCESSABLE_ENTITY "validation error", db).

Definition PUT_canciones (año_actual : Z) (cancion_id : Z)
    (cuerpo : CancionUpdate) (db : DB) : Respuesta Cancion.t * DB :=
  if CancionUpdate_valida año_actual cuerpo
  then actualizar_cancion cancion_id cuerpo db
  else (HTTPException HTTP_422_UNPROCESSABLE_ENTITY "validation error", db).

(** ** Requests that change the store, and the states they reach *)

Inductive Peticion : Type :=
| POST_usuario (ahora : datetime) (usuario : UsuarioCreate)
| PUT_usuario (usuario_id : Z) (usuario_update : UsuarioUpdate)
| DELETE_usuario (usuario_id : Z)
| POST_cancion (ahora : datetime) (cancion : CancionCreate)
| PUT_cancion (cancion_id : Z) (cancion_update : CancionUpdate)
| DELETE_cancion (cancion_id : Z)
| POST_favorito (ahora : datetime) (favorito : FavoritoCreate)
| POST_favorito_especifico (ahora : datetime) (id_usuario id_cancion : Z)
| DELETE_favorito (favorito_id : Z)
| DELETE_favorito_especifico (id_usuario id_cancion : Z).

(** The store after a request has been served. *)
Definition atender (p : Peticion) (db : DB) : DB :=
  match p with
  | POST_usuario ahora u => snd (crear_usuario ahora u db)
  | PUT_usuario k u => snd (actualizar_usuario k u db)
  | DELETE_usuario k => snd (eliminar_usuario k db)
  | POST_cancion ahora c => snd (crear_cancion ahora c db)
  | PUT_cancion k c => snd (actualizar_cancion k c db)
  | DELETE_cancion k => snd (eliminar_cancion k db)
  | POST_favorito ahora f => snd (crear_favorito ahora f db)
  | POST_favorito_especifico ahora u c =>
      snd (marcar_favorito_especifico ahora u c db)
  | DELETE_favorito k => snd (eliminar_favorito k db)
  | DELETE_favorito_especifico u c =>
      snd (eliminar_favorito_especifico u c db)
  end.

(** The states the handlers can bring an empty store to. *)
Inductive alcanzable : DB -> Prop :=
| alcanzable_vacia : alcanzable db_vacia
| alcanzable_paso db p : alcanzable db -> alcanzable (atender p db).

(** ** Properties of a store state *)

Definition par (f : Favorito.t) : Z * Z :=
  (Favorito.id_usuario f, Favorito.id_cancion f).

Definition correos_unicos (db : DB) : Prop :=
  NoDup (map Usuario.correo (usuarios db)).

Definition pares_unicos (db : DB) : Prop :=
  NoDup (map par (favoritos db)).

Definition ids_unicos (db : DB) : Prop :=
  NoDup (map Usuario.id (usuarios db)).

Definition correo_registrado (db : DB) (correo : string) : bool :=
  existsb (fun u => (Usuario.correo u =? correo)%string) (usuarios db).

Definition correo_de_otro (db : DB) (usuario_id : Z) (correo : string) : bool :=
  existsb (fun u => negb (Usuario.id u =? usuario_id)
                    && (Usuario.correo u =? correo)%string) (usuarios db).

Definition par_marcado (db : DB) (id_usuario id_cancion : Z) : bool :=
  existsb (fun f => (Favorito.id_usuario f =? id_usuario)
                    && (Favorito.id_cancion f =? id_cancion)) (favoritos db).

(** ** Partial update, as the specification words it

    A field that was supplied takes the supplied value; a field that
    was not keeps the stored one. *)

Definition campo_nuevo {A} (c : Campo A) (almacenado : A) : A :=
  match c with
  | Enviado (Some v) => v
  | Enviado None => almacenado
  | NoEnviado => almacenado
  end.

Definition sin_null {A} (c : Campo A) : bool :=
  match c with
  | Enviado None => false
  | Enviado (Some _) => true
  | NoEnviado => true
  end.

Definition UsuarioUpdate_sin_null (u : UsuarioUpdate) : bool :=
  sin_null (uu_nombre u) && sin_null (uu_correo u).

Definition CancionUpdate_sin_null (c : CancionUpdate) : bool :=
  sin_null (cu_titulo c) && sin_null (cu_artista c) && sin_null (cu_album c)
  && sin_null (cu_duracion c) && sin_null (cu_año c)
  && sin_null (cu_genero c).

Definition usuario_actualizado (u : Usuario.t) (up : UsuarioUpdate)
    : Usuario.t :=
  Usuario.mk (Usuario.id u)
    (campo_nuevo (uu_nombre up) (Usuario.nombre u))
    (campo_nuevo (uu_correo up) (Usuario.correo u))
    (Usuario.fecha_registro u).

Definition cancion_actualizada (c : Cancion.t) (up : CancionUpdate)
    : Cancion.t :=
  Cancion.mk (Cancion.id c)
    (campo_nuevo (cu_titulo up) (Cancion.titulo c))
    (campo_nuevo (cu_artista up) (Cancion.artista c))
    (campo_nuevo (cu_album up) (Cancion.album c))
    (campo_nuevo (cu_duracion up) (Cancion.duracion c))
    (campo_nuevo (cu_año up) (Cancion.año c))
    (campo_nuevo (cu_genero up) (Cancion.genero c))
    (Cancion.fecha_creacion c).

(** ** Song search, as the specification words it

    A conjunction of the supplied predicates: a supplied text matches
    when it occurs in the column without regard to case, a supplied
    year matches by equality, an absent parameter imposes nothing. *)

Fixpoint prefijo_c (p s : list string) : bool :=
  match p, s with
  | [], _ => true
  | a :: p', b :: s' => (a =? b)%string && prefijo_c p' s'
  | _ :: _, [] => false
  end.

Fixpoint contiene_c (sub s : list string) : bool :=
  prefijo_c sub s
  || match s with
     | [] => false
     | _ :: s' => contiene_c sub s'
     end.

(** One text occurs in another, character by character. *)
Definition contiene (sub s : string) : bool :=
  contiene_c (caracteres sub) (caracteres s).

Definition contiene_sin_caso (sub s : string) : bool :=
  contiene (lower sub) (lower s).

Definition coincide_texto (p : option string) (columna : string) : bool :=
  match p with
  | Some sub => contiene_sin_caso sub columna
  | None => true
  end.

Definition coincide_año (p : option Z) (columna : Z) : bool :=
  match p with
  | Some v => columna =? v
  | None => true
  end.

Definition coincide_busqueda (titulo artista genero : option string)
    (año : option Z) (c : Cancion.t) : bool :=
  coincide_texto titulo (Cancion.titulo c)
  && coincide_texto artista (Cancion.artista c)
  && coincide_texto genero (Cancion.genero c)
  && coincide_año año (Cancion.año c).

(** The page [(skip, limit)] of a list of rows, with the limit capped
    at 100. *)
Definition pagina {F} (skip limit : Z) (filas : list F) : list F :=
  aplicar_limit (Some (if limit >? 100 then 100 else limit))
    (aplicar_offset (Some skip) filas).

Definition busqueda_spec (db : DB) (titulo artista genero : option string)
    (año : option Z) (skip limit : Z) : list Cancion.t :=
  pagina skip limit
    (filter (coincide_busqueda titulo artista genero año) (canciones db)).

(** A text free of the two pattern characters of [LIKE]. *)
Definition sin_comodines_c (cs : list string) : bool :=
  forallb (fun c => negb (c =? "%")%string && negb (c =? "_")%string) cs.

Definition sin_comodines (s : string) : bool :=
  sin_comodines_c (caracteres s).

Definition texto_sin_comodines (p : option string) : bool :=
  match p with
  | Some s => sin_comodines s
  | None => true
  end.

(** ** Sample stores *)

Definition ana : Usuario.t := Usuario.mk 1 "Ana" "ana@x.com" 10.
Definition luis : Usuario.t := Usuario.mk 2 "Luis" "luis@x.com" 11.
Definition imagine : Cancion.t :=
  Cancion.mk 1 "Imagine" "John Lennon" "Imagine" 183 1971 "Rock" 20.
Definition abc : Cancion.t :=
  Cancion.mk 2 "abc" "Queen" "Al" 200 2000 "Pop" 21.
Definition ana_imagine : Favorito.t := Favorito.mk 1 1 1 30.

Definition db_ejemplo : DB := mkDB [ana; luis] [imagine; abc] [ana_imagine].

(** ** Auxiliary notions used in the statements *)

(** A response that is the one obtained with [limit=100] and holds at
    most 100 rows. *)
Definition capada {F} (r r100 : Respuesta (list F)) : Prop :=
  r = r100
  /\ exists filas, r = Exito HTTP_200_OK filas /\ (List.length filas <= 100)%nat.

(** The constraints of a song body on the fields other than [año]. *)
Definition CancionCreate_resto_valido (c : CancionCreate) : bool :=
  entre 1 200 (len (cc_titulo c))
  && entre 1 100 (len (cc_artista c))
  && entre 1 200 (len (cc_album c))
  && ((0 <? cc_duracion c) && (cc_duracion c <? 3600))
  && entre 1 50 (len (cc_genero c)).

Definition CancionUpdate_resto_valido (c : CancionUpdate) : bool :=
  campo_valido (fun s => entre 1 200 (len s)) (cu_titulo c)
  && campo_valido (fun s => entre 1 100 (len s)) (cu_artista c)
  && campo_valido (fun s => entre 1 200 (len s)) (cu_album c)
  && campo_valido (fun d => (0 <? d) && (d <? 3600)) (cu_duracion c)
  && campo_valido (fun s => entre 1 50 (len s)) (cu_genero c).

(** Rows of [favorito] that reference a user, a song. *)
Definition tiene_favoritos_usuario (db : DB) (usuario_id : Z) : bool :=
  existsb (fun f => Favorito.id_usuario f =? usuario_id) (favoritos db).

Definition tiene_favoritos_cancion (db : DB) (cancion_id : Z) : bool :=
  existsb (fun f => Favorito.id_cancion f =? cancion_id) (favoritos db).

(** What the handlers keep true of the store. *)
Definition invariante (db : DB) : Prop :=
  ids_unicos db /\ correos_unicos db /\ pares_unicos db.

(** The conditions the search adds for a text parameter and for the
    year. *)
Definition cond_texto (col : Cancion.t -> string) (p : option string)
    : list CondCancion :=
  match si_texto p with
  | Some s => [col_ilike col ("%" ++ s ++ "%")%string]
  | None => []
  end.

Definition cond_año (p : option Z) : list CondCancion :=
  match si_entero p with
  | Some v => [año_igual v]
  | None => []
  end.

(** ** Further properties of a store state *)

(** Keys grow along each table: a [select] without [ORDER BY] yields the
    rows by ascending key, and no key occurs twice. *)
Definition ids_crecientes (db : DB) : Prop :=
  StronglySorted Z.lt (map Usuario.id (usuarios db))
  /\ StronglySorted Z.lt (map Cancion.id (canciones db))
  /\ StronglySorted Z.lt (map Favorito.id (favoritos db)).

(** Every favourite references a stored user and a stored song. *)
Definition integridad_referencial (db : DB) : Prop :=
  forall f, In f (favoritos db) ->
    In (Favorito.id_usuario f) (map Usuario.id (usuarios db))
    /\ In (Favorito.id_cancion f) (map Cancion.id (canciones db)).

(** The bounds [CancionBase] puts on a song, read on a stored row, with
    the latest year [año_max] a validation may have seen. *)
Definition cancion_en_rango (año_max : Z) (c : Cancion.t) : bool :=
  entre 1 200 (len (Cancion.titulo c))
  && entre 1 100 (len (Cancion.artista c))
  && entre 1 200 (len (Cancion.album c))
  && ((0 <? Cancion.duracion c) && (Cancion.duracion c <? 3600))
  && (entre 1900 2100 (Cancion.año c) && (Cancion.año c <=? año_max))
  && entre 1 50 (len (Cancion.genero c)).

Definition canciones_en_rango (año_max : Z) (db : DB) : Prop :=
  Forall (fun c => cancion_en_rango año_max c = true) (canciones db).

(** The favourites of a user, as the relationship [Usuario.favoritos]
    loads them. *)
Definition favoritos_de (db : DB) (usuario_id : Z) : list Favorito.t :=
  filter (fun f => Favorito.id_usuario f =? usuario_id) (favoritos db).

(** An update body that sends nothing. *)
Definition UsuarioUpdate_vacio : UsuarioUpdate :=
  mkUsuarioUpdate NoEnviado NoEnviado.

Definition CancionUpdate_vacio : CancionUpdate :=
  mkCancionUpdate NoEnviado NoEnviado NoEnviado NoEnviado NoEnviado NoEnviado.

(** ** [musica_bd.py]: seeding the store *)

(** Several [session.add] followed by one [session.commit]: the rows
    are inserted in the order they were added, the [i]-th object having
    read the clock at [reloj i]; the first refusal undoes the whole
    transaction, so nothing of it is kept. *)
Fixpoint add_all_usuarios (db : DB) (nuevos : list UsuarioCreate)
    (reloj : nat -> datetime) : Resultado (DB * list Usuario.t) :=
  match nuevos with
  | [] => Hecho (db, [])
  | n :: resto =>
      match add_usuario db (uc_nombre n) (uc_correo n) (reloj 0%nat) with
      | Lanza e => Lanza e
      | Hecho (db1, u) =>
          match add_all_usuarios db1 resto (fun i => reloj (S i)) with
          | Lanza e => Lanza e
          | Hecho (db2, us) => Hecho (db2, u :: us)
          end
      end
  end.

Definition usuarios_de_ejemplo : list UsuarioCreate :=
  [ mkUsuarioCreate "Juan Alejandro Ramirez" "juan.ramirez@musica.com";
    mkUsuarioCreate "María García López" "maria.garcia@musica.com";
    mkUsuarioCreate "Carlos Rodríguez" "carlos.rodriguez@musica.com";
    mkUsuarioCreate "Ana Martín" "ana.martin@musica.com";
    mkUsuarioCreate "Luis Fernando Gómez" "luis.gomez@musica.com" ].

(** [poblar_usuarios(session)]: the five users, one commit; the refresh
    that follows reads back the rows with their keys. *)
Definition poblar_usuarios (reloj : nat -> datetime) (db : DB)
    : Resultado (DB * list Usuario.t) :=
  add_all_usuarios db usuarios_de_ejemplo reloj.

(** ** The shapes a served request can give the store

    Whatever the request, the store afterwards is the store before, or
    it differs from it in one table, by one of three changes: a row
    appended under the next key, the rows of one key replaced by a row
    of that key, the rows of one key removed. *)
Inductive transicion (db : DB) : DB -> Prop :=
| t_igual : transicion db db
| t_usuario_nuevo fila :
    Usuario.id fila = siguiente_id (map Usuario.id (usuarios db)) ->
    transicion db (con_usuarios db (usuarios db ++ [fila]))
| t_usuario_cambia k fila :
    Usuario.id fila = k ->
    transicion db
      (con_usuarios db
         (map (fun u => if Usuario.id u =? k then fila else u) (usuarios db)))
| t_usuario_borra k :
    tiene_favoritos_usuario db k = false ->
    transicion db
      (con_usuarios db
         (filter (fun r => negb (Usuario.id r =? k)) (usuarios db)))
| t_cancion_nueva fila :
    Cancion.id fila = siguiente_id (map Cancion.id (canciones db)) ->
    transicion db (con_canciones db (canciones db ++ [fila]))
| t_cancion_cambia k fila :
    Cancion.id fila = k ->
    transicion db
      (con_canciones db
         (map (fun c => if Cancion.id c =? k then fila else c)
              (canciones db)))
| t_cancion_borra k :
    tiene_favoritos_cancion db k = false ->
    transicion db
      (con_canciones db
         (filter (fun r => negb (Cancion.id r =? k)) (canciones db)))
| t_favorito_nuevo fila :
    Favorito.id fila = siguiente_id (map Favorito.id (favoritos db)) ->
    In (Favorito.id_usuario fila) (map Usuario.id (usuarios db)) ->
    In (Favorito.id_cancion fila) (map Cancion.id (canciones db)) ->
    transicion db (con_favoritos db (favoritos db ++ [fila]))
| t_favorito_borra k :
    transicion db
      (con_favoritos db
         (filter (fun r => negb (Favorito.id r =? k)) (favoritos db))).

(** ** A favourite creation, statement by statement

    The handler reads the store three times and then writes once.  Each
    request runs in a session of its own ([get_session]), so between
    the reads of one request and its write another request can write. *)

(** The reads of [crear_favorito]: the response they decide, or [None]
    when the user and the song exist and the pair was not found. *)
Definition crear_favorito_lee (favorito : FavoritoCreate) (db : DB)
    : option (Respuesta Favorito.t) :=
  match get_usuario db (fc_id_usuario favorito) with
  | None => Some (HTTPException HTTP_404_NOT_FOUND "Usuario no encontrado")
  | Some usuario =>
      match get_cancion db (fc_id_cancion favorito) with
      | None =>
          Some (HTTPException HTTP_404_NOT_FOUND "Canción no encontrada")
      | Some cancion =>
          match first
                  (session_exec cumple_favorito (favoritos db)
                     (where_ [id_usuario_igual (fc_id_usuario favorito);
                              id_cancion_igual (fc_id_cancion favorito)]
                        select_)) with
          | Some _ =>
              Some (HTTPException HTTP_400_BAD_REQUEST
                      "Esta canción ya está marcada como favorita para este usuario")
          | None => None
          end
      end
  end.

(** The write of [crear_favorito], on the store as it is when the
    request gets to it. *)
Definition crear_favorito_escribe (ahora : datetime)
    (favorito : FavoritoCreate) (db : DB) : Respuesta Favorito.t * DB :=
  match add_favorito db (fc_id_usuario favorito) (fc_id_cancion favorito)
          ahora with
  | Hecho (db', db_favorito) => (Exito HTTP_201_CREATED db_favorito, db')
  | Lanza e => (NoControlada e, db)
  end.

(** * Properties *)

(** ** The store *)

Lemma fold_max_cota (l : list Z) :
  forall d x, In x (d :: l) -> x <= fold_right Z.max d l.
Proof.
  induction l as [|a l IH]; intros d x Hin; simpl in *.
  - destruct Hin as [Hd|[]]. lia.
  - destruct Hin as [Hd|[Ha|Hin]].
    + specialize (IH d d (or_introl eq_refl)). lia.
    + lia.
    + specialize (IH d x (or_intror Hin)). lia.
Qed.

Lemma siguiente_id_mayor (ids : list Z) (x : Z) :
  In x ids -> x < siguiente_id ids.
Proof.
  destruct ids as [|a ids]; [intros [] |].
  intros Hin. unfold siguiente_id.
  pose proof (fold_max_cota ids a x Hin). lia.
Qed.

Lemma siguiente_id_nuevo (ids : list Z) : ~ In (siguiente_id ids) ids.
Proof.
  intros Hin. apply siguiente_id_mayor in Hin. lia.
Qed.

Lemma first_filter_None {F} (p : F -> bool) (l : list F) :
  first (filter p l) = None <-> existsb p l = false.
Proof.
  unfold first. induction l as [|a l IH]; simpl.
  - split; reflexivity.
  - destruct (p a); simpl; [split; discriminate | exact IH].
Qed.

Lemma get_usuario_id (db : DB) (k : Z) (u : Usuario.t) :
  get_usuario db k = Some u -> Usuario.id u = k /\ In u (usuarios db).
Proof.
  unfold get_usuario. intros H. apply find_some in H.
  destruct H as [Hin Heq]. apply Z.eqb_eq in Heq. auto.
Qed.

Lemma get_cancion_id (db : DB) (k : Z) (c : Cancion.t) :
  get_cancion db k = Some c -> Cancion.id c = k /\ In c (canciones db).
Proof.
  unfold get_cancion. intros H. apply find_some in H.
  destruct H as [Hin Heq]. apply Z.eqb_eq in Heq. auto.
Qed.

Lemma get_favorito_id (db : DB) (k : Z) (f : Favorito.t) :
  get_favorito db k = Some f -> Favorito.id f = k /\ In f (favoritos db).
Proof.
  unfold get_favorito. intros H. apply find_some in H.
  destruct H as [Hin Heq]. apply Z.eqb_eq in Heq. auto.
Qed.

(** The existence check both favourite routes run before inserting. *)
Lemma favorito_existente_None (db : DB) (u c : Z) :
  first (session_exec cumple_favorito (favoritos db)
           (where_ [id_usuario_igual u; id_cancion_igual c] select_)) = None
  <-> par_marcado db u c = false.
Proof.
  unfold session_exec, where_, select_, par_marcado; simpl.
  rewrite first_filter_None.
  assert (E : forall l,
             existsb (fun f => (Favorito.id_usuario f =? u)
                               && ((Favorito.id_cancion f =? c) && true)) l
             = existsb (fun f => (Favorito.id_usuario f =? u)
                                 && (Favorito.id_cancion f =? c)) l).
  { induction l as [|a l IH]; simpl; [reflexivity|].
    rewrite IH, andb_true_r. reflexivity. }
  rewrite E. reflexivity.
Qed.

(** Closes a goal of the form "the response is the expected error and
    the store is the one we started from" once the handler has been
    rewritten to its result. *)
Ltac error_sin_cambios := split; [eexists; reflexivity | reflexivity].

(** ** Favourites: creation *)

Lemma marcar_favorito_especifico_crear (ahora : datetime) (u c : Z) (db : DB) :
  marcar_favorito_especifico ahora u c db
  = crear_favorito ahora (mkFavoritoCreate u c) db.
Proof. reflexivity. Qed.

Lemma crear_favorito_sin_usuario (ahora : datetime) (u c : Z) (db : DB) :
  get_usuario db u = None ->
  crear_favorito ahora (mkFavoritoCreate u c) db
  = (HTTPException HTTP_404_NOT_FOUND "Usuario no encontrado", db).
Proof. unfold crear_favorito; simpl. intros ->. reflexivity. Qed.

Lemma crear_favorito_sin_cancion (ahora : datetime) (u c : Z) (db : DB) :
  get_usuario db u <> None ->
  get_cancion db c = None ->
  crear_favorito ahora (mkFavoritoCreate u c) db
  = (HTTPException HTTP_404_NOT_FOUND "Canción no encontrada", db).
Proof.
  unfold crear_favorito; simpl. intros Hu ->.
  destruct (get_usuario db u); [reflexivity | contradiction].
Qed.

Lemma crear_favorito_repetido (ahora : datetime) (u c : Z) (db : DB) :
  get_usuario db u <> None ->
  get_cancion db c <> None ->
  par_marcado db u c = true ->
  crear_favorito ahora (mkFavoritoCreate u c) db
  = (HTTPException HTTP_400_BAD_REQUEST
       "Esta canción ya está marcada como favorita para este usuario", db).
Proof.
  unfold crear_favorito; simpl. intros Hu Hc Hp.
  destruct (get_usuario db u); [|contradiction].
  destruct (get_cancion db c); [|contradiction].
  destruct (first _) eqn:E; [reflexivity|].
  apply favorito_existente_None in E. congruence.
Qed.

Lemma crear_favorito_nuevo (ahora : datetime) (u c : Z) (db : DB) :
  get_usuario db u <> None ->
  get_cancion db c <> None ->
  par_marcado db u c = false ->
  let fila :=
    Favorito.mk (siguiente_id (map Favorito.id (favoritos db))) u c ahora in
  crear_favorito ahora (mkFavoritoCreate u c) db
  = (Exito HTTP_201_CREATED fila, con_favoritos db (favoritos db ++ [fila])).
Proof.
  unfold crear_favorito; simpl. intros Hu Hc Hp.
  destruct (get_usuario db u); [|contradiction].
  destruct (get_cancion db c); [|contradiction].
  apply favorito_existente_None in Hp. rewrite Hp. reflexivity.
Qed.

Lemma par_marcado_app (db : DB) (u c : Z) (fila : Favorito.t) :
  par fila = (u, c) ->
  par_marcado (con_favoritos db (favoritos db ++ [fila])) u c = true.
Proof.
  unfold par, par_marcado; simpl. intros H. injection H as Hu Hc.
  rewrite existsb_app; simpl.
  rewrite Hu, Hc, !Z.eqb_refl. simpl. apply orb_true_r.
Qed.

(** C1.  Both favourite-creation routes: a missing user or song gives
    404 and leaves the store as it was; an already marked pair gives
    400; otherwise exactly one row, carrying the pair and a key not in
    use, is appended and returned with 201, and asking again for the
    same pair on the resulting store gives 400. *)
Theorem C1_crear_favorito_contrato :
  forall (ahora : datetime) (u c : Z) (db : DB)
         (R : Respuesta Favorito.t * DB),
    R = crear_favorito ahora (mkFavoritoCreate u c) db
    \/ R = marcar_favorito_especifico ahora u c db ->
    (get_usuario db u = None \/ get_cancion db c = None ->
       es_NotFound (fst R) /\ snd R = db)
    /\ (get_usuario db u <> None -> get_cancion db c <> None ->
        par_marcado db u c = true ->
        es_Conflict (fst R) /\ snd R = db)
    /\ (get_usuario db u <> None -> get_cancion db c <> None ->
        par_marcado db u c = false ->
        exists fila,
          fst R = Exito HTTP_201_CREATED fila
          /\ par fila = (u, c)
          /\ ~ In (Favorito.id fila) (map Favorito.id (favoritos db))
          /\ snd R = con_favoritos db (favoritos db ++ [fila])
          /\ forall ahora',
               es_Conflict
                 (fst (crear_favorito ahora' (mkFavoritoCreate u c) (snd R)))
               /\ es_Conflict
                    (fst (marcar_favorito_especifico ahora' u c (snd R)))).
Proof.
  intros ahora u c db R HR.
  assert (E : R = crear_favorito ahora (mkFavoritoCreate u c) db).
  { destruct HR as [->| ->]; [reflexivity|].
    apply marcar_favorito_especifico_crear. }
  clear HR. subst R. split; [|split].
  - intros [Hu|Hc].
    + rewrite crear_favorito_sin_usuario by assumption.
      error_sin_cambios.
    + destruct (get_usuario db u) eqn:Eu.
      * rewrite crear_favorito_sin_cancion by congruence.
        error_sin_cambios.
      * rewrite crear_favorito_sin_usuario by assumption.
        error_sin_cambios.
  - intros Hu Hc Hp. rewrite crear_favorito_repetido by assumption.
    error_sin_cambios.
  - intros Hu Hc Hp. rewrite crear_favorito_nuevo by assumption.
    eexists. split; [reflexivity|]. split; [reflexivity|].
    split; [apply siguiente_id_nuevo|]. split; [reflexivity|].
    intros ahora'. rewrite marcar_favorito_especifico_crear.
    cbn [snd].
    rewrite crear_favorito_repetido.
    + split; eexists; reflexivity.
    + exact Hu.
    + exact Hc.
    + apply par_marcado_app. reflexivity.
Qed.

Lemma C1_crear_favorito_contrato_witness :
  (es_NotFound (fst (crear_favorito 40 (mkFavoritoCreate 99 1) db_ejemplo))
   /\ snd (crear_favorito 40 (mkFavoritoCreate 99 1) db_ejemplo) = db_ejemplo)
  /\ (es_Conflict (fst (marcar_favorito_especifico 40 1 1 db_ejemplo))
      /\ snd (marcar_favorito_especifico 40 1 1 db_ejemplo) = db_ejemplo)
  /\ exists fila,
       fst (crear_favorito 40 (mkFavoritoCreate 2 1) db_ejemplo)
       = Exito HTTP_201_CREATED fila
       /\ par fila = (2, 1)
       /\ snd (crear_favorito 40 (mkFavoritoCreate 2 1) db_ejemplo)
          = con_favoritos db_ejemplo (favoritos db_ejemplo ++ [fila]).
Proof.
  split; [|split].
  - apply (proj1 (C1_crear_favorito_contrato 40 99 1 db_ejemplo _
                    (or_introl eq_refl))).
    left. reflexivity.
  - apply (proj1 (proj2 (C1_crear_favorito_contrato 40 1 1 db_ejemplo _
                           (or_intror eq_refl)))).
    + vm_compute. discriminate.
    + vm_compute. discriminate.
    + reflexivity.
  - destruct (C1_crear_favorito_contrato 40 2 1 db_ejemplo _
                (or_introl eq_refl)) as [_ [_ H]].
    destruct H as [fila [H1 [H2 [_ [H4 _]]]]].
    + vm_compute. discriminate.
    + vm_compute. discriminate.
    + reflexivity.
    + exists fila. auto.
Defined.

(** ** Users: creation *)

Lemma crear_usuario_repetido (ahora : datetime) (usuario : UsuarioCreate)
    (db : DB) :
  correo_registrado db (uc_correo usuario) = true ->
  crear_usuario ahora usuario db
  = (HTTPException HTTP_400_BAD_REQUEST
       "El correo electrónico ya está registrado", db).
Proof.
  unfold crear_usuario, add_usuario, correo_registrado. intros ->.
  reflexivity.
Qed.

Lemma crear_usuario_nuevo (ahora : datetime) (usuario : UsuarioCreate)
    (db : DB) :
  correo_registrado db (uc_correo usuario) = false ->
  let fila :=
    Usuario.mk (siguiente_id (map Usuario.id (usuarios db)))
      (uc_nombre usuario) (uc_correo usuario) ahora in
  crear_usuario ahora usuario db
  = (Exito HTTP_201_CREATED fila, con_usuarios db (usuarios db ++ [fila])).
Proof.
  unfold crear_usuario, add_usuario, correo_registrado. intros ->.
  reflexivity.
Qed.

Lemma correo_registrado_app (db : DB) (fila : Usuario.t) :
  correo_registrado (con_usuarios db (usuarios db ++ [fila]))
    (Usuario.correo fila) = true.
Proof.
  unfold correo_registrado; simpl. rewrite existsb_app; simpl.
  rewrite String.eqb_refl. simpl. apply orb_true_r.
Qed.

(** C7.  Creating a user whose [correo] is already stored gives 400 and
    leaves the store as it was; otherwise one row is appended and
    returned with 201, carrying the request's [nombre] and [correo], the
    time of creation and a key not in use.  Creating again with the
    same [correo] on the resulting store gives 400. *)
Theorem C7_crear_usuario_contrato :
  forall (ahora : datetime) (usuario : UsuarioCreate) (db : DB),
    (correo_registrado db (uc_correo usuario) = true ->
       es_Conflict (fst (crear_usuario ahora usuario db))
       /\ snd (crear_usuario ahora usuario db) = db)
    /\ (correo_registrado db (uc_correo usuario) = false ->
        exists fila,
          fst (crear_usuario ahora usuario db) = Exito HTTP_201_CREATED fila
          /\ Usuario.nombre fila = uc_nombre usuario
          /\ Usuario.correo fila = uc_correo usuario
          /\ Usuario.fecha_registro fila = ahora
          /\ ~ In (Usuario.id fila) (map Usuario.id (usuarios db))
          /\ snd (crear_usuario ahora usuario db)
             = con_usuarios db (usuarios db ++ [fila])
          /\ forall ahora' nombre',
               let otra := mkUsuarioCreate nombre' (uc_correo usuario) in
               let db' := snd (crear_usuario ahora usuario db) in
               es_Conflict (fst (crear_usuario ahora' otra db'))
               /\ snd (crear_usuario ahora' otra db') = db').
Proof.
  intros ahora usuario db. split.
  - intros H. rewrite crear_usuario_repetido by assumption.
    error_sin_cambios.
  - intros H. rewrite crear_usuario_nuevo by assumption.
    eexists. repeat (split; [reflexivity|]).
    split; [apply siguiente_id_nuevo|]. split; [reflexivity|].
    intros ahora' nombre'. cbn zeta. cbn [snd].
    rewrite crear_usuario_repetido.
    + error_sin_cambios.
    + apply correo_registrado_app.
Qed.

Lemma C7_crear_usuario_contrato_witness :
  (es_Conflict
     (fst (crear_usuario 50 (mkUsuarioCreate "Otra Ana" "ana@x.com")
             db_ejemplo))
   /\ snd (crear_usuario 50 (mkUsuarioCreate "Otra Ana" "ana@x.com")
             db_ejemplo) = db_ejemplo)
  /\ exists fila,
       fst (crear_usuario 50 (mkUsuarioCreate "Eva" "eva@x.com") db_ejemplo)
       = Exito HTTP_201_CREATED fila
       /\ Usuario.correo fila = "eva@x.com"
       /\ Usuario.fecha_registro fila = 50.
Proof.
  split.
  - apply (proj1 (C7_crear_usuario_contrato 50
                    (mkUsuarioCreate "Otra Ana" "ana@x.com") db_ejemplo)).
    vm_compute. reflexivity.
  - destruct (proj2 (C7_crear_usuario_contrato 50
                       (mkUsuarioCreate "Eva" "eva@x.com") db_ejemplo))
      as [fila [H1 [_ [H3 [H4 _]]]]].
    + vm_compute. reflexivity.
    + exists fila. auto.
Defined.

(** ** Pagination *)

Lemma session_exec_limit_100 {F C} (cumple : C -> F -> bool)
    (tabla : list F) (q : Consulta C) :
  (List.length (session_exec cumple tabla (limit_ 100 q)) <= 100)%nat.
Proof.
  unfold session_exec, limit_. cbn [q_limit q_offset q_where aplicar_limit].
  change (100 <? 0) with false. cbv iota.
  replace 100%nat with (Z.to_nat 100) at 2 by reflexivity.
  apply firstn_le_length.
Qed.

Lemma tope_mayor (limit : Z) :
  100 < limit -> (if limit >? 100 then 100 else limit) = 100.
Proof. intros H. destruct (Z.gtb_spec limit 100); [reflexivity | lia]. Qed.

Lemma tope_menor (limit : Z) :
  limit <= 100 -> (if limit >? 100 then 100 else limit) = limit.
Proof. intros H. destruct (Z.gtb_spec limit 100); [lia | reflexivity]. Qed.

(** C9.  On the four list and search endpoints an absent [skip] is 0, an
    absent [limit] is 100, and a [limit] above 100 gives the response of
    [limit=100], which holds at most 100 rows. *)
Theorem C9_limite_capado_a_100 :
  forall (db : DB),
    (forall skip limit,
        listar_usuarios db None limit = listar_usuarios db (Some 0) limit
        /\ listar_usuarios db skip None = listar_usuarios db skip (Some 100)
        /\ listar_canciones db None limit = listar_canciones db (Some 0) limit
        /\ listar_canciones db skip None
           = listar_canciones db skip (Some 100)
        /\ listar_favoritos db None limit = listar_favoritos db (Some 0) limit
        /\ listar_favoritos db skip None
           = listar_favoritos db skip (Some 100)
        /\ forall titulo artista genero año,
             buscar_canciones db titulo artista genero año None limit
             = buscar_canciones db titulo artista genero año (Some 0) limit
             /\ buscar_canciones db titulo artista genero año skip None
                = buscar_canciones db titulo artista genero año skip
                    (Some 100))
    /\ (forall skip limit,
          100 < limit ->
          capada (listar_usuarios db skip (Some limit))
                 (listar_usuarios db skip (Some 100))
          /\ capada (listar_canciones db skip (Some limit))
                    (listar_canciones db skip (Some 100))
          /\ capada (listar_favoritos db skip (Some limit))
                    (listar_favoritos db skip (Some 100))
          /\ forall titulo artista genero año,
               capada
                 (buscar_canciones db titulo artista genero año skip
                    (Some limit))
                 (buscar_canciones db titulo artista genero año skip
                    (Some 100))).
Proof.
  intros db. split.
  - intros skip limit. repeat split; reflexivity.
  - intros skip limit Hl.
    unfold capada, listar_usuarios, listar_canciones, listar_favoritos,
      buscar_canciones.
    cbn [por_defecto]. rewrite (tope_mayor limit Hl).
    change (if 100 >? 100 then 100 else 100) with 100.
    repeat split; try (eexists; split; [reflexivity|];
                       apply session_exec_limit_100).
Qed.

Lemma C9_limite_capado_a_100_witness :
  capada (listar_usuarios db_ejemplo None (Some 1000))
         (listar_usuarios db_ejemplo None (Some 100))
  /\ capada (buscar_canciones db_ejemplo None (Some "queen") None None
              (Some 0) (Some 1000))
            (buscar_canciones db_ejemplo None (Some "queen") None None
              (Some 0) (Some 100)).
Proof.
  split.
  - apply (proj2 (C9_limite_capado_a_100 db_ejemplo) None 1000). lia.
  - apply (proj2 (C9_limite_capado_a_100 db_ejemplo) (Some 0) 1000). lia.
Defined.

(** C10.  On the four list and search endpoints a [limit] of at most
    100, zero and negative values included, and any [skip], negative
    values included, reach the query as they were supplied, and the
    request is answered 200 with what the query yields.  For the search
    the query is the one whose conditions are those of the supplied
    parameters: the pattern of each non-empty text and the equality of
    a year other than 0. *)
Theorem C10_limite_y_skip_sin_cambios :
  forall (db : DB) (skip limit : Z),
    limit <= 100 ->
    listar_usuarios db (Some skip) (Some limit)
    = Exito HTTP_200_OK
        (session_exec cumple_nada (usuarios db)
           (mkConsulta [] (Some skip) (Some limit)))
    /\ listar_canciones db (Some skip) (Some limit)
       = Exito HTTP_200_OK
           (session_exec cumple_cancion (canciones db)
              (mkConsulta [] (Some skip) (Some limit)))
    /\ listar_favoritos db (Some skip) (Some limit)
       = Exito HTTP_200_OK
           (session_exec cumple_favorito (favoritos db)
              (mkConsulta [] (Some skip) (Some limit)))
    /\ forall titulo artista genero año,
         buscar_canciones db titulo artista genero año (Some skip)
           (Some limit)
         = Exito HTTP_200_OK
             (session_exec cumple_cancion (canciones db)
                (mkConsulta
                   (cond_texto Cancion.titulo titulo
                    ++ cond_texto Cancion.artista artista
                    ++ cond_texto Cancion.genero genero
                    ++ cond_año año)
                   (Some skip) (Some limit))).
Proof.
  intros db skip limit Hl.
  unfold listar_usuarios, listar_canciones, listar_favoritos,
    buscar_canciones.
  cbn [por_defecto]. rewrite (tope_menor limit Hl).
  repeat split. intros titulo artista genero año.
  unfold cond_texto, cond_año.
  destruct (si_texto titulo), (si_texto artista), (si_texto genero),
    (si_entero año); reflexivity.
Qed.

Lemma C10_limite_y_skip_sin_cambios_witness :
  listar_usuarios db_ejemplo (Some (-3)) (Some (-1))
  = Exito HTTP_200_OK
      (session_exec cumple_nada (usuarios db_ejemplo)
         (mkConsulta [] (Some (-3)) (Some (-1))))
  /\ buscar_canciones db_ejemplo None (Some "queen") None (Some 2000)
       (Some (-3)) (Some 0)
     = Exito HTTP_200_OK
         (session_exec cumple_cancion (canciones db_ejemplo)
            (mkConsulta
               [col_ilike Cancion.artista "%queen%"; año_igual 2000]
               (Some (-3)) (Some 0))).
Proof.
  split.
  - apply (C10_limite_y_skip_sin_cambios db_ejemplo (-3) (-1)). lia.
  - apply (proj2 (proj2 (proj2
             (C10_limite_y_skip_sin_cambios db_ejemplo (-3) 0
                ltac:(lia)))) None (Some "queen") None (Some 2000)).
Defined.

(** With the default store a negative [limit] lifts the bound and a
    negative [skip] skips nothing: every row is returned. *)
Lemma listar_usuarios_limit_negativo (db : DB) (skip limit : Z) :
  skip <= 0 -> limit < 0 ->
  listar_usuarios db (Some skip) (Some limit)
  = Exito HTTP_200_OK (usuarios db).
Proof.
  intros Hs Hl. unfold listar_usuarios. cbn [por_defecto].
  rewrite tope_menor by lia.
  unfold session_exec, limit_, offset_, select_; simpl.
  destruct (Z.ltb_spec limit 0); [|lia].
  replace (Z.to_nat skip) with 0%nat by lia. simpl.
  induction (usuarios db) as [|a l IH]; simpl; congruence.
Qed.

(** ** Song search *)

(** C5.  The search without search parameters is the unfiltered list,
    for every [skip] and [limit], supplied or not. *)
Theorem C5_buscar_sin_parametros_es_listar :
  forall (db : DB) (skip limit : option Z),
    buscar_canciones db None None None None skip limit
    = listar_canciones db skip limit.
Proof. intros db skip limit. reflexivity. Qed.

(** ** Songs: the year *)

Lemma CancionBase_año_valido_iff (año_actual v : Z) :
  CancionBase_año_valido año_actual v = true
  <-> 1900 <= v <= 2100 /\ v <= año_actual.
Proof.
  unfold CancionBase_año_valido, CancionBase_validar_año_no_futuro, entre.
  destruct (Z.gtb_spec v año_actual), (Z.leb_spec 1900 v),
    (Z.leb_spec v 2100); simpl; split; intros Hyp;
    try discriminate; try reflexivity; lia.
Qed.

Lemma CancionUpdate_año_valido_iff (año_actual v : Z) :
  CancionUpdate_año_valido año_actual (Enviado (Some v)) = true
  <-> 1900 <= v <= 2100 /\ v <= año_actual.
Proof.
  unfold CancionUpdate_año_valido, CancionUpdate_validar_año_no_futuro, entre.
  destruct (Z.gtb_spec v año_actual), (Z.leb_spec 1900 v),
    (Z.leb_spec v 2100); simpl; split; intros Hyp;
    try discriminate; try reflexivity; lia.
Qed.

Lemma CancionCreate_valida_partes (año_actual : Z) (c : CancionCreate) :
  CancionCreate_valida año_actual c
  = CancionCreate_resto_valido c
    && CancionBase_año_valido año_actual (cc_año c).
Proof.
  unfold CancionCreate_valida, CancionCreate_resto_valido.
  destruct (CancionBase_año_valido año_actual (cc_año c));
    rewrite ?andb_true_r, ?andb_false_r; simpl; reflexivity.
Qed.

Lemma CancionUpdate_valida_partes (año_actual : Z) (c : CancionUpdate) :
  CancionUpdate_valida año_actual c
  = CancionUpdate_resto_valido c
    && CancionUpdate_año_valido año_actual (cu_año c).
Proof.
  unfold CancionUpdate_valida, CancionUpdate_resto_valido.
  destruct (CancionUpdate_año_valido año_actual (cu_año c));
    rewrite ?andb_true_r, ?andb_false_r; simpl; reflexivity.
Qed.

(** C8.  A year after the current one is refused, at creation and at
    update, with a validation error and nothing is written; a year in
    [1900, 2100] that is not after the current one passes the year
    check, and the request reaches the handler when its other fields
    are valid. *)
Theorem C8_anio_no_futuro :
  forall (año_actual v : Z),
    (año_actual < v ->
       CancionBase_año_valido año_actual v = false
       /\ CancionUpdate_año_valido año_actual (Enviado (Some v)) = false
       /\ (forall ahora c db,
              cc_año c = v ->
              es_ValidationError (fst (POST_canciones año_actual ahora c db))
              /\ snd (POST_canciones año_actual ahora c db) = db)
       /\ (forall k c db,
              cu_año c = Enviado (Some v) ->
              es_ValidationError (fst (PUT_canciones año_actual k c db))
              /\ snd (PUT_canciones año_actual k c db) = db))
    /\ (1900 <= v <= 2100 -> v <= año_actual ->
        CancionBase_año_valido año_actual v = true
        /\ CancionUpdate_año_valido año_actual (Enviado (Some v)) = true
        /\ (forall ahora c db,
               cc_año c = v ->
               CancionCreate_resto_valido c = true ->
               POST_canciones año_actual ahora c db
               = crear_cancion ahora c db)
        /\ (forall k c db,
               cu_año c = Enviado (Some v) ->
               CancionUpdate_resto_valido c = true ->
               PUT_canciones año_actual k c db
               = actualizar_cancion k c db)).
Proof.
  intros año_actual v. split.
  - intros Hv.
    assert (Hb : CancionBase_año_valido año_actual v = false).
    { destruct (CancionBase_año_valido año_actual v) eqn:E;
        [|reflexivity].
      apply CancionBase_año_valido_iff in E. lia. }
    assert (Hu : CancionUpdate_año_valido año_actual (Enviado (Some v))
                 = false).
    { destruct (CancionUpdate_año_valido año_actual (Enviado (Some v)))
        eqn:E; [|reflexivity].
      apply CancionUpdate_año_valido_iff in E. lia. }
    split; [exact Hb|]. split; [exact Hu|]. split.
    + intros ahora c db Hc. unfold POST_canciones.
      rewrite CancionCreate_valida_partes, Hc, Hb, andb_false_r.
      error_sin_cambios.
    + intros k c db Hc. unfold PUT_canciones.
      rewrite CancionUpdate_valida_partes, Hc, Hu, andb_false_r.
      error_sin_cambios.
  - intros Hr Hv.
    assert (Hb : CancionBase_año_valido año_actual v = true)
      by (apply CancionBase_año_valido_iff; lia).
    assert (Hu : CancionUpdate_año_valido año_actual (Enviado (Some v))
                 = true)
      by (apply CancionUpdate_año_valido_iff; lia).
    split; [exact Hb|]. split; [exact Hu|]. split.
    + intros ahora c db Hc Hresto. unfold POST_canciones.
      rewrite CancionCreate_valida_partes, Hc, Hb, Hresto. reflexivity.
    + intros k c db Hc Hresto. unfold PUT_canciones.
      rewrite CancionUpdate_valida_partes, Hc, Hu, Hresto. reflexivity.
Qed.

Lemma C8_anio_no_futuro_witness :
  (es_ValidationError
     (fst (POST_canciones 2026 60
             (mkCancionCreate "Canción Futura" "Artista" "Album" 240 2030
                "Futurista") db_ejemplo))
   /\ CancionUpdate_año_valido 2026 (Enviado (Some 2030)) = false)
  /\ POST_canciones 2026 60
       (mkCancionCreate "T" "A" "Al" 200 2000 "Rock") db_ejemplo
     = crear_cancion 60 (mkCancionCreate "T" "A" "Al" 200 2000 "Rock")
         db_ejemplo.
Proof.
  split.
  - destruct (proj1 (C8_anio_no_futuro 2026 2030)) as [_ [H2 [H3 _]]].
    + lia.
    + split; [|exact H2]. apply (H3 60 _ db_ejemplo). reflexivity.
  - destruct (proj2 (C8_anio_no_futuro 2026 2000)) as [_ [_ [H3 _]]].
    + lia.
    + lia.
    + apply H3; reflexivity.
Defined.

(** ** Deletion of a user, of a song *)

Lemma eliminar_usuario_con_favoritos (db : DB) (k : Z) (u : Usuario.t) :
  get_usuario db k = Some u ->
  tiene_favoritos_usuario db k = true ->
  eliminar_usuario k db = (NoControlada IntegrityError, db).
Proof.
  intros Hg Hf. unfold eliminar_usuario, delete_usuario. rewrite Hg.
  destruct (get_usuario_id _ _ _ Hg) as [-> _].
  unfold tiene_favoritos_usuario in Hf. rewrite Hf. reflexivity.
Qed.

Lemma eliminar_cancion_con_favoritos (db : DB) (k : Z) (c : Cancion.t) :
  get_cancion db k = Some c ->
  tiene_favoritos_cancion db k = true ->
  eliminar_cancion k db = (NoControlada IntegrityError, db).
Proof.
  intros Hg Hf. unfold eliminar_cancion, delete_cancion. rewrite Hg.
  destruct (get_cancion_id _ _ _ Hg) as [-> _].
  unfold tiene_favoritos_cancion in Hf. rewrite Hf. reflexivity.
Qed.

Lemma find_filter_negb {F} (id : F -> Z) (k : Z) (l : list F) :
  find (fun r => id r =? k) (filter (fun r => negb (id r =? k)) l) = None.
Proof.
  induction l as [|a l IH]; simpl; [reflexivity|].
  destruct (id a =? k) eqn:E; simpl; [exact IH|].
  rewrite E. exact IH.
Qed.

(** A user nobody's favourite references is deleted, and is gone. *)
Lemma eliminar_usuario_sin_favoritos (db : DB) (k : Z) (u : Usuario.t) :
  get_usuario db k = Some u ->
  tiene_favoritos_usuario db k = false ->
  fst (eliminar_usuario k db) = Exito HTTP_204_NO_CONTENT tt
  /\ es_NotFound (obtener_usuario (snd (eliminar_usuario k db)) k).
Proof.
  intros Hg Hf. unfold eliminar_usuario, delete_usuario. rewrite Hg.
  destruct (get_usuario_id _ _ _ Hg) as [-> _].
  unfold tiene_favoritos_usuario in Hf. rewrite Hf.
  split; [reflexivity|].
  unfold obtener_usuario, get_usuario; simpl.
  rewrite (find_filter_negb Usuario.id). eexists; reflexivity.
Qed.

Lemma eliminar_cancion_sin_favoritos (db : DB) (k : Z) (c : Cancion.t) :
  get_cancion db k = Some c ->
  tiene_favoritos_cancion db k = false ->
  fst (eliminar_cancion k db) = Exito HTTP_204_NO_CONTENT tt
  /\ es_NotFound (obtener_cancion (snd (eliminar_cancion k db)) k).
Proof.
  intros Hg Hf. unfold eliminar_cancion, delete_cancion. rewrite Hg.
  destruct (get_cancion_id _ _ _ Hg) as [-> _].
  unfold tiene_favoritos_cancion in Hf. rewrite Hf.
  split; [reflexivity|].
  unfold obtener_cancion, get_cancion; simpl.
  rewrite (find_filter_negb Cancion.id). eexists; reflexivity.
Qed.

(** C2.  Deletion does not cascade: deleting a user, or a song, that
    some favourite references is not carried out.  The handler lets the
    store's error escape, nothing is removed, and the user (the song)
    and every favourite can still be fetched. *)
Theorem C2_eliminar_no_borra_favoritos :
  forall (db : DB) (k : Z),
    (forall u,
        get_usuario db k = Some u ->
        tiene_favoritos_usuario db k = true ->
        let R := eliminar_usuario k db in
        fst R = NoControlada IntegrityError
        /\ snd R = db
        /\ obtener_usuario (snd R) k = Exito HTTP_200_OK u
        /\ forall j, obtener_favorito (snd R) j = obtener_favorito db j)
    /\ (forall c,
          get_cancion db k = Some c ->
          tiene_favoritos_cancion db k = true ->
          let R := eliminar_cancion k db in
          fst R = NoControlada IntegrityError
          /\ snd R = db
          /\ obtener_cancion (snd R) k = Exito HTTP_200_OK c
          /\ forall j, obtener_favorito (snd R) j = obtener_favorito db j).
Proof.
  intros db k. split.
  - intros u Hg Hf. cbn zeta.
    rewrite (eliminar_usuario_con_favoritos db k u Hg Hf). cbn [fst snd].
    repeat split. unfold obtener_usuario. rewrite Hg. reflexivity.
  - intros c Hg Hf. cbn zeta.
    rewrite (eliminar_cancion_con_favoritos db k c Hg Hf). cbn [fst snd].
    repeat split. unfold obtener_cancion. rewrite Hg. reflexivity.
Qed.

Lemma C2_eliminar_no_borra_favoritos_witness :
  (fst (eliminar_usuario 1 db_ejemplo) = NoControlada IntegrityError
   /\ snd (eliminar_usuario 1 db_ejemplo) = db_ejemplo
   /\ obtener_usuario (snd (eliminar_usuario 1 db_ejemplo)) 1
      = Exito HTTP_200_OK ana
   /\ obtener_favorito (snd (eliminar_usuario 1 db_ejemplo)) 1
      = Exito HTTP_200_OK ana_imagine)
  /\ (fst (eliminar_cancion 1 db_ejemplo) = NoControlada IntegrityError
      /\ snd (eliminar_cancion 1 db_ejemplo) = db_ejemplo
      /\ obtener_cancion (snd (eliminar_cancion 1 db_ejemplo)) 1
         = Exito HTTP_200_OK imagine
      /\ obtener_favorito (snd (eliminar_cancion 1 db_ejemplo)) 1
         = Exito HTTP_200_OK ana_imagine).
Proof.
  split.
  - destruct (proj1 (C2_eliminar_no_borra_favoritos db_ejemplo 1) ana)
      as [H1 [H2 [H3 H4]]].
    + reflexivity.
    + reflexivity.
    + exact (conj H1 (conj H2 (conj H3 (H4 1)))).
  - destruct (proj2 (C2_eliminar_no_borra_favoritos db_ejemplo 1) imagine)
      as [H1 [H2 [H3 H4]]].
    + reflexivity.
    + reflexivity.
    + exact (conj H1 (conj H2 (conj H3 (H4 1)))).
Defined.

(** ** Partial update *)

Lemma fold_setattr_usuario (u : Usuario.t) (up : UsuarioUpdate) :
  UsuarioUpdate_sin_null up = true ->
  fold_left setattr_usuario (UsuarioUpdate_model_dump up) (cargar_usuario u)
  = cargar_usuario (usuario_actualizado u up).
Proof.
  destruct up as [[|[n|]] [|[c|]]]; unfold UsuarioUpdate_sin_null; simpl;
    intros H; try discriminate; reflexivity.
Qed.

Lemma fold_setattr_cancion (c : Cancion.t) (up : CancionUpdate) :
  CancionUpdate_sin_null up = true ->
  fold_left setattr_cancion (CancionUpdate_model_dump up) (cargar_cancion c)
  = cargar_cancion (cancion_actualizada c up).
Proof.
  destruct up as [[|[t|]] [|[a|]] [|[al|]] [|[d|]] [|[y|]] [|[g|]]];
    unfold CancionUpdate_sin_null; simpl;
    intros H; try discriminate; reflexivity.
Qed.

Lemma update_usuario_cargado (db : DB) (fila : Usuario.t) :
  update_usuario db (cargar_usuario fila)
  = if correo_de_otro db (Usuario.id fila) (Usuario.correo fila)
    then Lanza IntegrityError
    else Hecho (con_usuarios db
                  (map (fun u => if Usuario.id u =? Usuario.id fila
                                 then fila else u) (usuarios db)),
                fila).
Proof. destruct fila; reflexivity. Qed.

Lemma update_cancion_cargada (db : DB) (fila : Cancion.t) :
  update_cancion db (cargar_cancion fila)
  = Hecho (con_canciones db
             (map (fun c => if Cancion.id c =? Cancion.id fila
                            then fila else c) (canciones db)),
           fila).
Proof. destruct fila; reflexivity. Qed.

Lemma actualizar_usuario_hecho (db : DB) (k : Z) (u : Usuario.t)
    (up : UsuarioUpdate) :
  get_usuario db k = Some u ->
  UsuarioUpdate_sin_null up = true ->
  correo_de_otro db k (campo_nuevo (uu_correo up) (Usuario.correo u)) = false ->
  actualizar_usuario k up db
  = (Exito HTTP_200_OK (usuario_actualizado u up),
     con_usuarios db
       (map (fun r => if Usuario.id r =? k then usuario_actualizado u up
                      else r) (usuarios db))).
Proof.
  intros Hg Hn Hc. unfold actualizar_usuario. rewrite Hg.
  destruct (get_usuario_id _ _ _ Hg) as [Hk _].
  rewrite (fold_setattr_usuario u up Hn), update_usuario_cargado.
  cbn [usuario_actualizado Usuario.id Usuario.correo].
  rewrite Hk, Hc. reflexivity.
Qed.

Lemma actualizar_usuario_conflicto (db : DB) (k : Z) (u : Usuario.t)
    (up : UsuarioUpdate) :
  get_usuario db k = Some u ->
  UsuarioUpdate_sin_null up = true ->
  correo_de_otro db k (campo_nuevo (uu_correo up) (Usuario.correo u)) = true ->
  actualizar_usuario k up db
  = (HTTPException HTTP_400_BAD_REQUEST
       "El correo electrónico ya está registrado", db).
Proof.
  intros Hg Hn Hc. unfold actualizar_usuario. rewrite Hg.
  destruct (get_usuario_id _ _ _ Hg) as [Hk _].
  rewrite (fold_setattr_usuario u up Hn), update_usuario_cargado.
  cbn [usuario_actualizado Usuario.id Usuario.correo].
  rewrite Hk, Hc. reflexivity.
Qed.

Lemma actualizar_cancion_hecho (db : DB) (k : Z) (c : Cancion.t)
    (up : CancionUpdate) :
  get_cancion db k = Some c ->
  CancionUpdate_sin_null up = true ->
  actualizar_cancion k up db
  = (Exito HTTP_200_OK (cancion_actualizada c up),
     con_canciones db
       (map (fun r => if Cancion.id r =? k then cancion_actualizada c up
                      else r) (canciones db))).
Proof.
  intros Hg Hn. unfold actualizar_cancion. rewrite Hg.
  destruct (get_cancion_id _ _ _ Hg) as [Hk _].
  rewrite (fold_setattr_cancion c up Hn), update_cancion_cargada.
  cbn [cancion_actualizada Cancion.id]. rewrite Hk. reflexivity.
Qed.

Lemma actualizar_usuario_no_existe (db : DB) (k : Z) (up : UsuarioUpdate) :
  get_usuario db k = None ->
  actualizar_usuario k up db
  = (HTTPException HTTP_404_NOT_FOUND "Usuario no encontrado", db).
Proof. unfold actualizar_usuario. intros ->. reflexivity. Qed.

Lemma actualizar_cancion_no_existe (db : DB) (k : Z) (up : CancionUpdate) :
  get_cancion db k = None ->
  actualizar_cancion k up db
  = (HTTPException HTTP_404_NOT_FOUND "Canción no encontrada", db).
Proof. unfold actualizar_cancion. intros ->. reflexivity. Qed.

(** A supplied value replaces the stored one, an absent field keeps
    it. *)
Lemma campo_nuevo_enviado {A} (v almacenado : A) :
  campo_nuevo (Enviado (Some v)) almacenado = v.
Proof. reflexivity. Qed.

Lemma campo_nuevo_no_enviado {A} (almacenado : A) :
  campo_nuevo NoEnviado almacenado = almacenado.
Proof. reflexivity. Qed.

(** The update of a user whose new [correo] belongs to another user is
    refused: the row is not updated and not returned. *)
Lemma C6_counterexample_correo_de_otro :
  let up := mkUsuarioUpdate NoEnviado (Enviado (Some "ana@x.com")) in
  get_usuario db_ejemplo 2 = Some luis
  /\ actualizar_usuario 2 up db_ejemplo
     = (HTTPException HTTP_400_BAD_REQUEST
          "El correo electrónico ya está registrado", db_ejemplo)
  /\ fst (actualizar_usuario 2 up db_ejemplo)
     <> Exito HTTP_200_OK (usuario_actualizado luis up).
Proof.
  cbn zeta. split; [reflexivity|]. split; [reflexivity|].
  vm_compute. discriminate.
Qed.

(** An explicit [null] for a column of a song reaches the commit, which
    raises; the song handler does not catch it. *)
Lemma actualizar_cancion_null :
  actualizar_cancion 1
    (mkCancionUpdate (Enviado None) NoEnviado NoEnviado NoEnviado NoEnviado
       NoEnviado) db_ejemplo
  = (NoControlada IntegrityError, db_ejemplo).
Proof. reflexivity. Qed.

(** C6.  Partial update.  An update of a row that does not exist gives 404 and
    changes nothing.  For an existing row and a body without explicit
    nulls: a user whose resulting [correo] belongs to another user gives
    400 and changes nothing; otherwise the row takes the supplied
    values, keeps every other field, the key and the creation time
    included, is returned with 200, and no other row changes. *)
Theorem C6_actualizacion_parcial :
  forall (db : DB) (k : Z),
    (forall up,
        get_usuario db k = None ->
        es_NotFound (fst (actualizar_usuario k up db))
        /\ snd (actualizar_usuario k up db) = db)
    /\ (forall up,
          get_cancion db k = None ->
          es_NotFound (fst (actualizar_cancion k up db))
          /\ snd (actualizar_cancion k up db) = db)
    /\ (forall u up,
          get_usuario db k = Some u ->
          UsuarioUpdate_sin_null up = true ->
          (correo_de_otro db k
             (campo_nuevo (uu_correo up) (Usuario.correo u)) = true ->
           es_Conflict (fst (actualizar_usuario k up db))
           /\ snd (actualizar_usuario k up db) = db)
          /\ (correo_de_otro db k
                (campo_nuevo (uu_correo up) (Usuario.correo u)) = false ->
              actualizar_usuario k up db
              = (Exito HTTP_200_OK (usuario_actualizado u up),
                 con_usuarios db
                   (map (fun r => if Usuario.id r =? k
                                  then usuario_actualizado u up else r)
                        (usuarios db)))))
    /\ (forall c up,
          get_cancion db k = Some c ->
          CancionUpdate_sin_null up = true ->
          actualizar_cancion k up db
          = (Exito HTTP_200_OK (cancion_actualizada c up),
             con_canciones db
               (map (fun r => if Cancion.id r =? k
                              then cancion_actualizada c up else r)
                    (canciones db)))).
Proof.
  intros db k. split; [|split; [|split]].
  - intros up H. rewrite actualizar_usuario_no_existe by assumption.
    error_sin_cambios.
  - intros up H. rewrite actualizar_cancion_no_existe by assumption.
    error_sin_cambios.
  - intros u up Hg Hn. split; intros Hc.
    + rewrite (actualizar_usuario_conflicto db k u up Hg Hn Hc).
      error_sin_cambios.
    + exact (actualizar_usuario_hecho db k u up Hg Hn Hc).
  - intros c up Hg Hn. exact (actualizar_cancion_hecho db k c up Hg Hn).
Qed.

Lemma C6_actualizacion_parcial_witness :
  (es_NotFound
     (fst (actualizar_usuario 99 (mkUsuarioUpdate NoEnviado NoEnviado)
             db_ejemplo))
   /\ es_Conflict
        (fst (actualizar_usuario 2
                (mkUsuarioUpdate NoEnviado (Enviado (Some "ana@x.com")))
                db_ejemplo)))
  /\ actualizar_usuario 1
       (mkUsuarioUpdate (Enviado (Some "Usuario Actualizado")) NoEnviado)
       db_ejemplo
     = (Exito HTTP_200_OK (Usuario.mk 1 "Usuario Actualizado" "ana@x.com" 10),
        mkDB [Usuario.mk 1 "Usuario Actualizado" "ana@x.com" 10; luis]
             [imagine; abc] [ana_imagine])
  /\ actualizar_cancion 2
       (mkCancionUpdate (Enviado (Some "Canción Actualizada")) NoEnviado
          NoEnviado NoEnviado NoEnviado (Enviado (Some "Rock")))
       db_ejemplo
     = (Exito HTTP_200_OK
          (Cancion.mk 2 "Canción Actualizada" "Queen" "Al" 200 2000 "Rock" 21),
        mkDB [ana; luis]
          [imagine;
           Cancion.mk 2 "Canción Actualizada" "Queen" "Al" 200 2000 "Rock" 21]
          [ana_imagine]).
Proof.
  destruct (C6_actualizacion_parcial db_ejemplo 99) as [Hn _].
  destruct (C6_actualizacion_parcial db_ejemplo 1) as [_ [_ [Hu _]]].
  destruct (C6_actualizacion_parcial db_ejemplo 2) as [_ [_ [Hl Hc]]].
  split; [split|split].
  - apply Hn. reflexivity.
  - destruct (Hl luis
                (mkUsuarioUpdate NoEnviado (Enviado (Some "ana@x.com"))))
      as [H _].
    + reflexivity.
    + reflexivity.
    + apply H. reflexivity.
  - destruct (Hu ana
                (mkUsuarioUpdate (Enviado (Some "Usuario Actualizado"))
                   NoEnviado)) as [_ H].
    + reflexivity.
    + reflexivity.
    + apply H. reflexivity.
  - apply (Hc abc).
    + reflexivity.
    + reflexivity.
Defined.

(** ** What the handlers keep true of the store *)

Lemma NoDup_map_snoc {A B} (g : A -> B) (l : list A) (x : A) :
  NoDup (map g l) -> ~ In (g x) (map g l) -> NoDup (map g (l ++ [x])).
Proof.
  induction l as [|a l IH]; simpl; intros Hnd Hx.
  - constructor; [intros [] | constructor].
  - inversion Hnd as [|? ? Ha Hl]; subst. constructor.
    + rewrite map_app, in_app_iff; simpl. intros [H|[H|[]]].
      * contradiction.
      * apply Hx. left. symmetry. exact H.
    + apply IH; [exact Hl|]. intros H. apply Hx. right. exact H.
Qed.

Lemma NoDup_map_filter {A B} (g : A -> B) (p : A -> bool) (l : list A) :
  NoDup (map g l) -> NoDup (map g (filter p l)).
Proof.
  induction l as [|a l IH]; simpl; intros Hnd; [constructor|].
  inversion Hnd as [|? ? Ha Hl]; subst.
  destruct (p a); simpl; [|apply IH; exact Hl].
  constructor; [|apply IH; exact Hl].
  intros H. apply Ha. apply in_map_iff in H. destruct H as [y [Hy Hin]].
  apply filter_In in Hin. apply in_map_iff. exists y. tauto.
Qed.

Lemma correo_registrado_false (db : DB) (c : string) :
  correo_registrado db c = false ->
  ~ In c (map Usuario.correo (usuarios db)).
Proof.
  unfold correo_registrado. intros H Hin.
  apply in_map_iff in Hin. destruct Hin as [u [Hc Hu]].
  assert (E : existsb (fun u => (Usuario.correo u =? c)%string) (usuarios db)
              = true).
  { apply existsb_exists. exists u. split; [exact Hu|].
    apply String.eqb_eq. exact Hc. }
  congruence.
Qed.

Lemma par_marcado_false (db : DB) (u c : Z) :
  par_marcado db u c = false -> ~ In (u, c) (map par (favoritos db)).
Proof.
  unfold par_marcado. intros H Hin.
  apply in_map_iff in Hin. destruct Hin as [f [Hp Hf]].
  unfold par in Hp. injection Hp as Hu Hc.
  assert (E : existsb (fun f => (Favorito.id_usuario f =? u)
                                && (Favorito.id_cancion f =? c))
                (favoritos db) = true).
  { apply existsb_exists. exists f. split; [exact Hf|].
    rewrite Hu, Hc, !Z.eqb_refl. reflexivity. }
  congruence.
Qed.

Section Reemplazo.
Variable k : Z.
Variable fila : Usuario.t.
Hypothesis id_fila : Usuario.id fila = k.

Lemma reemplazo_ids (l : list Usuario.t) :
  map Usuario.id (map (fun u => if Usuario.id u =? k then fila else u) l)
  = map Usuario.id l.
Proof.
  induction l as [|a l IH]; simpl; [reflexivity|].
  rewrite IH. destruct (Z.eqb_spec (Usuario.id a) k).
  - rewrite id_fila. congruence.
  - reflexivity.
Qed.

Lemma reemplazo_sin_clave (l : list Usuario.t) :
  ~ In k (map Usuario.id l) ->
  map (fun u => if Usuario.id u =? k then fila else u) l = l.
Proof.
  induction l as [|a l IH]; simpl; intros H; [reflexivity|].
  rewrite IH by tauto.
  destruct (Z.eqb_spec (Usuario.id a) k); [|reflexivity].
  exfalso. apply H. left. assumption.
Qed.

Lemma reemplazo_correo_en (l : list Usuario.t) (x : string) :
  In x (map Usuario.correo
          (map (fun u => if Usuario.id u =? k then fila else u) l)) ->
  x = Usuario.correo fila
  \/ exists u, In u l /\ Usuario.id u <> k /\ Usuario.correo u = x.
Proof.
  induction l as [|a l IH]; simpl; [intros []|].
  intros [H|H].
  - cbn beta in H. destruct (Z.eqb_spec (Usuario.id a) k).
    + left. symmetry. exact H.
    + right. exists a. auto.
  - destruct (IH H) as [E|[u [Hu [Hk Hc]]]]; [left; exact E|].
    right. exists u. auto.
Qed.

Lemma reemplazo_correos (l : list Usuario.t) :
  NoDup (map Usuario.id l) ->
  NoDup (map Usuario.correo l) ->
  existsb (fun u => negb (Usuario.id u =? k)
                    && (Usuario.correo u =? Usuario.correo fila)%string) l
  = false ->
  NoDup (map Usuario.correo
           (map (fun u => if Usuario.id u =? k then fila else u) l)).
Proof.
  induction l as [|a l IH]; cbn [existsb map]; intros Hid Hco Hex;
    [constructor|].
  apply NoDup_cons_iff in Hid. destruct Hid as [Hida Hidl].
  apply NoDup_cons_iff in Hco. destruct Hco as [Hcoa Hcol].
  apply orb_false_iff in Hex. destruct Hex as [Ha Hl].
  cbn beta. destruct (Z.eqb_spec (Usuario.id a) k) as [E|E].
  - rewrite reemplazo_sin_clave by (rewrite <- E; exact Hida).
    constructor; [|exact Hcol].
    intros Hin. apply in_map_iff in Hin. destruct Hin as [u [Hc Hu]].
    assert (X : existsb
                  (fun u => negb (Usuario.id u =? k)
                            && (Usuario.correo u =? Usuario.correo fila)%string)
                  l = true).
    { apply existsb_exists. exists u. split; [exact Hu|].
      apply andb_true_iff. split.
      - apply negb_true_iff. apply Z.eqb_neq. intros Hk. apply Hida.
        apply in_map_iff. exists u. split; [congruence | exact Hu].
      - apply String.eqb_eq. exact Hc. }
    congruence.
  - constructor; [|apply IH; assumption].
    intros Hin. apply reemplazo_correo_en in Hin.
    destruct Hin as [Hc|[u [Hu [_ Hc]]]].
    + cbn [negb andb] in Ha. apply String.eqb_neq in Ha. contradiction.
    + apply Hcoa. apply in_map_iff. exists u. auto.
Qed.
End Reemplazo.

Lemma update_usuario_Hecho (db db' : DB) (o : ObjUsuario) (fila : Usuario.t) :
  update_usuario db o = Hecho (db', fila) ->
  Usuario.id fila = ou_id o
  /\ correo_de_otro db (ou_id o) (Usuario.correo fila) = false
  /\ db' = con_usuarios db
             (map (fun u => if Usuario.id u =? ou_id o then fila else u)
                  (usuarios db)).
Proof.
  unfold update_usuario, correo_de_otro.
  destruct (ou_nombre o) as [n|]; [|discriminate].
  destruct (ou_correo o) as [c|]; [|discriminate].
  destruct (existsb _ _) eqn:E; [discriminate|].
  intros H. injection H as <- <-. simpl. auto.
Qed.

Lemma invariante_crear_usuario (ahora : datetime) (usuario : UsuarioCreate)
    (db : DB) :
  invariante db -> invariante (snd (crear_usuario ahora usuario db)).
Proof.
  intros [Hid [Hco Hpa]].
  destruct (correo_registrado db (uc_correo usuario)) eqn:E.
  - rewrite crear_usuario_repetido by assumption. repeat split; assumption.
  - rewrite crear_usuario_nuevo by assumption. cbn [snd].
    repeat split.
    + unfold ids_unicos; simpl. apply NoDup_map_snoc; [exact Hid|].
      apply siguiente_id_nuevo.
    + unfold correos_unicos; simpl. apply NoDup_map_snoc; [exact Hco|].
      apply correo_registrado_false. exact E.
    + exact Hpa.
Qed.

Lemma invariante_actualizar_usuario (k : Z) (up : UsuarioUpdate) (db : DB) :
  invariante db -> invariante (snd (actualizar_usuario k up db)).
Proof.
  intros [Hid [Hco Hpa]]. unfold actualizar_usuario.
  destruct (get_usuario db k) as [u|]; [|repeat split; assumption].
  destruct (update_usuario db _) as [[db' fila]|[]] eqn:E;
    [|repeat split; assumption].
  apply update_usuario_Hecho in E. destruct E as [Hk [Hc ->]].
  cbn [snd]. repeat split.
  - unfold ids_unicos; simpl. rewrite reemplazo_ids; assumption.
  - unfold correos_unicos; simpl.
    apply reemplazo_correos; assumption.
  - exact Hpa.
Qed.

Lemma invariante_eliminar_usuario (k : Z) (db : DB) :
  invariante db -> invariante (snd (eliminar_usuario k db)).
Proof.
  intros [Hid [Hco Hpa]]. unfold eliminar_usuario, delete_usuario.
  destruct (get_usuario db k) as [u|]; [|repeat split; assumption].
  destruct (existsb _ _); [repeat split; assumption|].
  cbn [snd]. repeat split.
  - unfold ids_unicos; simpl. apply NoDup_map_filter. exact Hid.
  - unfold correos_unicos; simpl. apply NoDup_map_filter. exact Hco.
  - exact Hpa.
Qed.

Lemma invariante_crear_cancion (ahora : datetime) (c : CancionCreate)
    (db : DB) :
  invariante db -> invariante (snd (crear_cancion ahora c db)).
Proof. intros H. exact H. Qed.

Lemma update_cancion_Hecho (db db' : DB) (o : ObjCancion) (fila : Cancion.t) :
  update_cancion db o = Hecho (db', fila) ->
  usuarios db' = usuarios db /\ favoritos db' = favoritos db.
Proof.
  destruct o as [i [t|] [a|] [al|] [d|] [y|] [g|] fc]; simpl;
    intros H; try discriminate.
  injection H as <- <-. split; reflexivity.
Qed.

Lemma invariante_actualizar_cancion (k : Z) (up : CancionUpdate) (db : DB) :
  invariante db -> invariante (snd (actualizar_cancion k up db)).
Proof.
  intros H. unfold actualizar_cancion.
  destruct (get_cancion db k) as [c|]; [|exact H].
  destruct (update_cancion db _) as [[db' fila]|e] eqn:E; [|exact H].
  apply update_cancion_Hecho in E. destruct E as [Eu Ef].
  unfold invariante, ids_unicos, correos_unicos, pares_unicos in *.
  cbn [snd]. rewrite Eu, Ef. exact H.
Qed.

Lemma invariante_eliminar_cancion (k : Z) (db : DB) :
  invariante db -> invariante (snd (eliminar_cancion k db)).
Proof.
  intros H. unfold eliminar_cancion, delete_cancion.
  destruct (get_cancion db k) as [c|]; [|exact H].
  destruct (existsb _ _); exact H.
Qed.

Lemma invariante_crear_favorito (ahora : datetime) (f : FavoritoCreate)
    (db : DB) :
  invariante db -> invariante (snd (crear_favorito ahora f db)).
Proof.
  intros [Hid [Hco Hpa]]. destruct f as [u c].
  destruct (get_usuario db u) eqn:Eu;
    [|rewrite crear_favorito_sin_usuario by assumption;
      repeat split; assumption].
  destruct (get_cancion db c) eqn:Ec;
    [|rewrite crear_favorito_sin_cancion by congruence;
      repeat split; assumption].
  destruct (par_marcado db u c) eqn:Ep.
  - rewrite crear_favorito_repetido by congruence. repeat split; assumption.
  - rewrite crear_favorito_nuevo by congruence. cbn [snd].
    repeat split; try assumption.
    unfold pares_unicos; simpl. apply NoDup_map_snoc; [exact Hpa|].
    apply par_marcado_false. exact Ep.
Qed.

Lemma invariante_delete_favorito (f : Favorito.t) (db : DB) :
  invariante db ->
  invariante
    (con_favoritos db
       (filter (fun r => negb (Favorito.id r =? Favorito.id f))
               (favoritos db))).
Proof.
  intros [Hid [Hco Hpa]]. repeat split; try assumption.
  unfold pares_unicos; simpl. apply NoDup_map_filter. exact Hpa.
Qed.

Lemma invariante_atender (p : Peticion) (db : DB) :
  invariante db -> invariante (atender p db).
Proof.
  intros H. destruct p; cbn [atender].
  - apply invariante_crear_usuario, H.
  - apply invariante_actualizar_usuario, H.
  - apply invariante_eliminar_usuario, H.
  - apply invariante_crear_cancion, H.
  - apply invariante_actualizar_cancion, H.
  - apply invariante_eliminar_cancion, H.
  - apply invariante_crear_favorito, H.
  - rewrite marcar_favorito_especifico_crear.
    apply invariante_crear_favorito, H.
  - unfold eliminar_favorito.
    destruct (get_favorito db favorito_id) as [f|]; [|exact H].
    apply invariante_delete_favorito, H.
  - unfold eliminar_favorito_especifico.
    destruct (first _) as [f|]; [|exact H].
    apply invariante_delete_favorito, H.
Qed.

Lemma invariante_vacia : invariante db_vacia.
Proof. repeat split; constructor. Qed.

Lemma alcanzable_invariante (db : DB) : alcanzable db -> invariante db.
Proof.
  induction 1 as [|db p _ IH]; [apply invariante_vacia|].
  apply invariante_atender, IH.
Qed.

(** The store holds [ana]'s favourite [(1, 1)]; a second row for the
    same pair, added to the session and committed without the handlers'
    check, is accepted, and the table then holds the pair twice. *)
Lemma C3_counterexample_par_repetido :
  par_marcado db_ejemplo 1 1 = true
  /\ exists db' fila,
       add_favorito db_ejemplo 1 1 31 = Hecho (db', fila)
       /\ map par (favoritos db') = [(1, 1); (1, 1)]
       /\ ~ pares_unicos db'.
Proof.
  split; [reflexivity|].
  eexists. eexists. split; [reflexivity|]. split; [reflexivity|].
  unfold pares_unicos; simpl. intros H.
  apply NoDup_cons_iff in H. destruct H as [H _]. apply H. left. reflexivity.
Qed.

(** Served alone, a creation is its reads followed, when they decide
    nothing, by its write on the same store. *)
Lemma crear_favorito_lee_escribe (ahora : datetime)
    (favorito : FavoritoCreate) (db : DB) :
  crear_favorito ahora favorito db
  = match crear_favorito_lee favorito db with
    | Some r => (r, db)
    | None => crear_favorito_escribe ahora favorito db
    end.
Proof.
  unfold crear_favorito, crear_favorito_lee, crear_favorito_escribe.
  destruct (get_usuario db _); [|reflexivity].
  destruct (get_cancion db _); [|reflexivity].
  destruct (first _); reflexivity.
Qed.

(** The writes of the store on [usuario] keep keys and addresses
    unique, whoever issues them and in whatever order. *)
Lemma add_usuario_unicos (db db' : DB) (nombre correo : string)
    (ahora : datetime) (u : Usuario.t) :
  add_usuario db nombre correo ahora = Hecho (db', u) ->
  ids_unicos db -> correos_unicos db ->
  ids_unicos db' /\ correos_unicos db'.
Proof.
  unfold add_usuario. fold (correo_registrado db correo).
  destruct (correo_registrado db correo) eqn:E; [discriminate|].
  intros H Hid Hco. injection H as <- <-. split.
  - unfold ids_unicos; simpl. apply NoDup_map_snoc; [exact Hid|].
    apply siguiente_id_nuevo.
  - unfold correos_unicos; simpl. apply NoDup_map_snoc; [exact Hco|].
    apply correo_registrado_false. exact E.
Qed.

Lemma update_usuario_unicos (db db' : DB) (o : ObjUsuario) (u : Usuario.t) :
  update_usuario db o = Hecho (db', u) ->
  ids_unicos db -> correos_unicos db ->
  ids_unicos db' /\ correos_unicos db'.
Proof.
  intros H Hid Hco. apply update_usuario_Hecho in H.
  destruct H as [Hk [Hc ->]]. split.
  - unfold ids_unicos; simpl. rewrite reemplazo_ids; assumption.
  - unfold correos_unicos; simpl. apply reemplazo_correos; assumption.
Qed.

Lemma delete_usuario_unicos (db db' : DB) (u : Usuario.t) :
  delete_usuario db u = Hecho db' ->
  ids_unicos db -> correos_unicos db ->
  ids_unicos db' /\ correos_unicos db'.
Proof.
  unfold delete_usuario. destruct (existsb _ _); [discriminate|].
  intros H Hid Hco. injection H as <-. split.
  - unfold ids_unicos; simpl. apply NoDup_map_filter. exact Hid.
  - unfold correos_unicos; simpl. apply NoDup_map_filter. exact Hco.
Qed.

(** Two creations of one pair that both read before either writes:
    both answer 201 and the pair is stored twice. *)
Lemma crear_favorito_solapadas (ahora1 ahora2 : datetime)
    (favorito : FavoritoCreate) (db : DB) :
  let R1 := crear_favorito_escribe ahora1 favorito db in
  let R2 := crear_favorito_escribe ahora2 favorito (snd R1) in
  (exists f1 f2,
      fst R1 = Exito HTTP_201_CREATED f1
      /\ fst R2 = Exito HTTP_201_CREATED f2
      /\ par f1 = par f2
      /\ favoritos (snd R2) = favoritos db ++ [f1; f2])
  /\ ~ pares_unicos (snd R2).
Proof.
  cbn zeta. unfold crear_favorito_escribe, add_favorito. cbn [fst snd].
  split.
  - eexists _, _. split; [reflexivity|]. split; [reflexivity|].
    split; [reflexivity|]. cbn [favoritos con_favoritos].
    rewrite <- app_assoc. reflexivity.
  - unfold pares_unicos. cbn [favoritos con_favoritos].
    rewrite <- app_assoc, map_app. cbn [app map par Favorito.id_usuario
      Favorito.id_cancion].
    intros H. apply NoDup_remove_2 in H. apply H.
    apply in_or_app. right. left. reflexivity.
Qed.

(** C3.  Uniqueness.  The store refuses a second user with a stored
    [correo], at insertion and at update, whatever the caller checked
    before, and each of its writes on the user table keeps the
    addresses unique, in whatever order requests issue them.  For the
    pair of a favourite the store refuses nothing; only the reads that
    precede the write in the two creation handlers keep the pair
    unique.  So no state reached from the empty store by requests
    served one after another holds two users with one [correo] or two
    favourites with one pair; but when two creations of a pair overlap,
    each reading the store before the other has written, both are
    answered 201 and the pair is stored twice. *)
Theorem C3_unicidad_en_estados_alcanzables :
  (forall db nombre correo ahora,
      correo_registrado db correo = true ->
      add_usuario db nombre correo ahora = Lanza IntegrityError)
  /\ (forall db o correo,
        ou_correo o = Some correo ->
        correo_de_otro db (ou_id o) correo = true ->
        update_usuario db o = Lanza IntegrityError)
  /\ (forall db db',
        ids_unicos db -> correos_unicos db ->
        (exists nombre correo ahora u,
            add_usuario db nombre correo ahora = Hecho (db', u))
        \/ (exists o u, update_usuario db o = Hecho (db', u))
        \/ (exists u, delete_usuario db u = Hecho db') ->
        ids_unicos db' /\ correos_unicos db')
  /\ (forall db, alcanzable db -> correos_unicos db /\ pares_unicos db)
  /\ (forall ahora favorito db,
        crear_favorito ahora favorito db
        = match crear_favorito_lee favorito db with
          | Some r => (r, db)
          | None => crear_favorito_escribe ahora favorito db
          end)
  /\ (forall ahora1 ahora2 favorito db,
        crear_favorito_lee favorito db = None ->
        let R1 := crear_favorito_escribe ahora1 favorito db in
        let R2 := crear_favorito_escribe ahora2 favorito (snd R1) in
        (exists f1 f2,
            fst R1 = Exito HTTP_201_CREATED f1
            /\ fst R2 = Exito HTTP_201_CREATED f2
            /\ par f1 = par f2
            /\ favoritos (snd R2) = favoritos db ++ [f1; f2])
        /\ ~ pares_unicos (snd R2)).
Proof.
  split; [|split; [|split; [|split; [|split]]]].
  - intros db nombre correo ahora H. unfold add_usuario.
    unfold correo_registrado in H. rewrite H. reflexivity.
  - intros db o correo Ho H. unfold update_usuario. rewrite Ho.
    destruct (ou_nombre o); [|reflexivity].
    unfold correo_de_otro in H. rewrite H. reflexivity.
  - intros db db' Hid Hco [[n [c [t [u H]]]]|[[o [u H]]|[u H]]].
    + exact (add_usuario_unicos _ _ _ _ _ _ H Hid Hco).
    + exact (update_usuario_unicos _ _ _ _ H Hid Hco).
    + exact (delete_usuario_unicos _ _ _ H Hid Hco).
  - intros db H. apply alcanzable_invariante in H.
    destruct H as [_ [Hco Hpa]]. split; assumption.
  - apply crear_favorito_lee_escribe.
  - intros ahora1 ahora2 favorito db _.
    apply crear_favorito_solapadas.
Qed.

Lemma C3_unicidad_en_estados_alcanzables_witness :
  add_usuario db_ejemplo "Otra Ana" "ana@x.com" 50 = Lanza IntegrityError
  /\ update_usuario db_ejemplo
       (mkObjUsuario 2 (Some "Luis") (Some "ana@x.com") 11)
     = Lanza IntegrityError
  /\ correos_unicos
       (con_usuarios db_ejemplo
          (usuarios db_ejemplo ++ [Usuario.mk 3 "Eva" "eva@x.com" 50]))
  /\ (let db :=
        atender (POST_favorito 30 (mkFavoritoCreate 1 1))
          (atender (POST_favorito 30 (mkFavoritoCreate 1 1))
             (atender (POST_cancion 20
                         (mkCancionCreate "T" "A" "Al" 200 2000 "Rock"))
                (atender (POST_usuario 10 (mkUsuarioCreate "Ana" "ana@x.com"))
                   db_vacia))) in
      correos_unicos db /\ pares_unicos db)
  /\ ~ pares_unicos
        (snd (crear_favorito_escribe 41 (mkFavoritoCreate 2 1)
                (snd (crear_favorito_escribe 40 (mkFavoritoCreate 2 1)
                        db_ejemplo)))).
Proof.
  destruct C3_unicidad_en_estados_alcanzables
    as [Hadd [Hupd [Hst [Hreach [_ Hsol]]]]].
  split; [|split; [|split; [|split]]].
  - apply Hadd. reflexivity.
  - apply (Hupd db_ejemplo _ "ana@x.com").
    + reflexivity.
    + reflexivity.
  - apply (Hst db_ejemplo).
    + unfold ids_unicos. simpl.
      repeat (constructor; [simpl; intuition discriminate|]). constructor.
    + unfold correos_unicos. simpl.
      repeat (constructor; [simpl; intuition discriminate|]). constructor.
    + left. exists "Eva", "eva@x.com", 50, (Usuario.mk 3 "Eva" "eva@x.com" 50).
      reflexivity.
  - cbn zeta. apply Hreach.
    repeat apply alcanzable_paso. apply alcanzable_vacia.
  - apply (Hsol 40 41 (mkFavoritoCreate 2 1) db_ejemplo). reflexivity.
Defined.

(** ** Song search: the [LIKE] pattern against the substring *)

Lemma lower_ascii_idem (c : ascii) :
  lower_ascii (lower_ascii c) = lower_ascii c.
Proof.
  destruct c as [[] [] [] [] [] [] [] []]; vm_compute; reflexivity.
Qed.

Lemma lower_ascii_porcentaje (c : ascii) :
  Ascii.eqb (lower_ascii c) "%" = Ascii.eqb c "%".
Proof.
  destruct c as [[] [] [] [] [] [] [] []]; vm_compute; reflexivity.
Qed.

Lemma lower_ascii_guion_bajo (c : ascii) :
  Ascii.eqb (lower_ascii c) "_" = Ascii.eqb c "_".
Proof.
  destruct c as [[] [] [] [] [] [] [] []]; vm_compute; reflexivity.
Qed.

Lemma lower_append (a b : string) :
  lower (a ++ b) = (lower a ++ lower b)%string.
Proof.
  induction a as [|c a IH]; simpl; [reflexivity|]. rewrite IH. reflexivity.
Qed.

Lemma lower_idem (c : string) : lower (lower c) = lower c.
Proof.
  induction c as [|a c IH]; simpl; [reflexivity|].
  rewrite lower_ascii_idem, IH. reflexivity.
Qed.

Lemma lower_porcentaje (c : string) :
  (lower c =? "%")%string = (c =? "%")%string.
Proof.
  destruct c as [|a [|b r]]; [reflexivity| |].
  - cbn. rewrite lower_ascii_porcentaje. reflexivity.
  - cbn. rewrite lower_ascii_porcentaje.
    destruct (Ascii.eqb a "%"); reflexivity.
Qed.

Lemma lower_guion_bajo (c : string) :
  (lower c =? "_")%string = (c =? "_")%string.
Proof.
  destruct c as [|a [|b r]]; [reflexivity| |].
  - cbn. rewrite lower_ascii_guion_bajo. reflexivity.
  - cbn. rewrite lower_ascii_guion_bajo.
    destruct (Ascii.eqb a "_"); reflexivity.
Qed.

Lemma prefijo_c_iff (p s : list string) :
  prefijo_c p s = true <-> exists post, s = p ++ post.
Proof.
  revert s. induction p as [|a p IH]; intros s; simpl.
  - split; [intros _; exists s; reflexivity | reflexivity].
  - destruct s as [|b s].
    + split; [discriminate | intros [post H]; discriminate].
    + rewrite andb_true_iff, IH. split.
      * intros [Hab [post ->]]. apply String.eqb_eq in Hab. subst b.
        exists post. reflexivity.
      * intros [post H]. injection H as -> ->.
        split; [apply String.eqb_refl | exists post; reflexivity].
Qed.

Lemma contiene_c_iff (sub s : list string) :
  contiene_c sub s = true <-> exists pre post, s = pre ++ sub ++ post.
Proof.
  induction s as [|b s IH].
  - simpl. rewrite orb_false_r, prefijo_c_iff. split.
    + intros [post H]. exists [], post. exact H.
    + intros [[|c pre] [post H]]; [exists post; exact H | discriminate].
  - cbn [contiene_c]. rewrite orb_true_iff, prefijo_c_iff, IH. split.
    + intros [[post H]|[pre [post H]]].
      * exists [], post. exact H.
      * exists (b :: pre), post. simpl. rewrite H. reflexivity.
    + intros [[|c pre] [post H]].
      * left. exists post. exact H.
      * right. simpl in H. injection H as _ H. exists pre, post. exact H.
Qed.

(** [contiene] decides the occurrence of the characters of one text,
    in a row, among the characters of another. *)
Lemma contiene_iff (sub s : string) :
  contiene sub s = true
  <-> exists pre post, caracteres s = pre ++ caracteres sub ++ post.
Proof. apply contiene_c_iff. Qed.

Lemma like_c_porcentaje (q s : list string) :
  like_c ("%" :: q) s
  = like_c q s
    || match s with
       | [] => false
       | _ :: s' => like_c ("%" :: q) s'
       end.
Proof. destruct s; reflexivity. Qed.

Lemma like_c_solo_porcentaje (s : list string) : like_c ["%"] s = true.
Proof.
  induction s as [|c s IH]; [reflexivity|].
  rewrite like_c_porcentaje, IH. apply orb_true_r.
Qed.

Lemma like_c_prefijo (q t : list string) :
  sin_comodines_c q = true ->
  like_c (map lower q ++ ["%"]) (map lower t)
  = prefijo_c (map lower q) (map lower t).
Proof.
  revert t. induction q as [|a q IH]; intros t Hq.
  - simpl. apply like_c_solo_porcentaje.
  - unfold sin_comodines_c in Hq. cbn [forallb] in Hq.
    apply andb_true_iff in Hq. destruct Hq as [Hq Hq'].
    apply andb_true_iff in Hq. destruct Hq as [Hp Hg].
    apply negb_true_iff in Hp, Hg.
    cbn [map app like_c].
    rewrite lower_porcentaje, Hp, lower_guion_bajo, Hg.
    destruct t as [|b t]; [reflexivity|].
    cbn [map prefijo_c]. rewrite !lower_idem, (IH t Hq').
    reflexivity.
Qed.

Lemma like_c_contiene (q t : list string) :
  sin_comodines_c q = true ->
  like_c ("%" :: map lower q ++ ["%"]) (map lower t)
  = contiene_c (map lower q) (map lower t).
Proof.
  intros Hq. induction t as [|b t IH].
  - pose proof (like_c_prefijo q [] Hq) as H. cbn [map] in H.
    rewrite like_c_porcentaje. cbn [map contiene_c]. rewrite H.
    reflexivity.
  - pose proof (like_c_prefijo q (b :: t) Hq) as H. cbn [map] in H.
    cbn [map]. rewrite like_c_porcentaje. cbn [contiene_c].
    rewrite H, IH. reflexivity.
Qed.

Lemma cabecera_lower (b : ascii) : cabecera (lower_ascii b) = cabecera b.
Proof.
  destruct b as [[] [] [] [] [] [] [] []]; vm_compute; reflexivity.
Qed.

Lemma continuacion_lower (b : ascii) :
  continuacion (lower_ascii b) = continuacion b.
Proof.
  destruct b as [[] [] [] [] [] [] [] []]; vm_compute; reflexivity.
Qed.

Lemma es_continuacion_lower (c : string) :
  es_continuacion (lower c) = es_continuacion c.
Proof.
  destruct c as [|a [|b r]]; [reflexivity| |reflexivity].
  cbn. apply continuacion_lower.
Qed.

Lemma une_lower (cs : list string) :
  forall cab, une (lower cab) (map lower cs) = map lower (une cab cs).
Proof.
  induction cs as [|c cs IH]; intros cab; [reflexivity|].
  cbn [map une]. rewrite es_continuacion_lower.
  destruct (es_continuacion c); [|reflexivity].
  rewrite <- lower_append. apply IH.
Qed.

(** Folding the case of a text folds each of its characters. *)
Lemma caracteres_lower (s : string) :
  caracteres (lower s) = map lower (caracteres s).
Proof.
  induction s as [|b s IH]; [reflexivity|].
  cbn [lower caracteres]. rewrite cabecera_lower, IH.
  destruct (cabecera b); [|reflexivity].
  apply (une_lower _ (String b EmptyString)).
Qed.

Lemma une_snoc (cs : list string) :
  forall cab x,
    es_continuacion x = false -> une cab (cs ++ [x]) = une cab cs ++ [x].
Proof.
  induction cs as [|c cs IH]; intros cab x Hx.
  - cbn. rewrite Hx. reflexivity.
  - cbn [app une]. destruct (es_continuacion c); [|reflexivity].
    apply IH. exact Hx.
Qed.

Lemma caracteres_snoc_porcentaje (s : string) :
  caracteres (s ++ "%") = caracteres s ++ ["%"].
Proof.
  induction s as [|b s IH]; [reflexivity|].
  cbn [append caracteres]. rewrite IH.
  destruct (cabecera b); [|reflexivity].
  apply une_snoc. reflexivity.
Qed.

(** The characters of the pattern the search builds from a text. *)
Lemma caracteres_patron (p : string) :
  caracteres (lower ("%" ++ p ++ "%"))
  = "%" :: map lower (caracteres p) ++ ["%"].
Proof.
  rewrite caracteres_lower. cbn [append].
  change (caracteres (String "%" (p ++ "%")))
    with ("%" :: caracteres (p ++ "%")).
  rewrite caracteres_snoc_porcentaje, map_cons, map_app. reflexivity.
Qed.

(** On a text free of [%] and [_] the pattern the search builds matches
    exactly the rows whose column holds the text, case apart. *)
Lemma ilike_contiene (texto p : string) :
  sin_comodines p = true ->
  ilike texto ("%" ++ p ++ "%") = contiene_sin_caso p texto.
Proof.
  intros Hp. unfold ilike, like, contiene_sin_caso, contiene.
  rewrite caracteres_patron, !caracteres_lower.
  apply like_c_contiene. exact Hp.
Qed.

Lemma contiene_vacio (s : string) : contiene "" s = true.
Proof. unfold contiene. cbn. destruct (caracteres s); reflexivity. Qed.

Lemma cond_texto_coincide (col : Cancion.t -> string) (p : option string)
    (c : Cancion.t) :
  texto_sin_comodines p = true ->
  forallb (fun k => cumple_cancion k c) (cond_texto col p)
  = coincide_texto p (col c).
Proof.
  unfold cond_texto, si_texto, coincide_texto, texto_sin_comodines.
  destruct p as [s|]; [|reflexivity]. intros Hs.
  destruct (String.eqb_spec s "") as [->|_].
  - simpl. unfold contiene_sin_caso. rewrite contiene_vacio. reflexivity.
  - cbn [forallb cumple_cancion]. rewrite ilike_contiene by exact Hs.
    apply andb_true_r.
Qed.

Lemma cond_año_coincide (p : option Z) (c : Cancion.t) :
  p <> Some 0 ->
  forallb (fun k => cumple_cancion k c) (cond_año p)
  = coincide_año p (Cancion.año c).
Proof.
  unfold cond_año, si_entero, coincide_año.
  destruct p as [v|]; [|reflexivity]. intros Hv.
  destruct (Z.eqb_spec v 0) as [->|_]; [contradiction|].
  cbn [forallb cumple_cancion]. apply andb_true_r.
Qed.

(** The query the search runs. *)
Lemma buscar_canciones_consulta (db : DB) (titulo artista genero : option string)
    (año skip limit : option Z) :
  buscar_canciones db titulo artista genero año skip limit
  = Exito HTTP_200_OK
      (session_exec cumple_cancion (canciones db)
         (mkConsulta
            (cond_texto Cancion.titulo titulo
             ++ cond_texto Cancion.artista artista
             ++ cond_texto Cancion.genero genero
             ++ cond_año año)
            (Some (por_defecto 0 skip))
            (Some (let limit := por_defecto 100 limit in
                   if limit >? 100 then 100 else limit)))).
Proof.
  unfold buscar_canciones, cond_texto, cond_año.
  destruct (si_texto titulo), (si_texto artista), (si_texto genero),
    (si_entero año); reflexivity.
Qed.

(** For texts free of [%] and [_] and a year other than 0 the search
    returns the page of the rows that satisfy the conjunction of the
    supplied predicates. *)
Lemma buscar_canciones_sin_comodines (db : DB)
    (titulo artista genero : option string) (año skip limit : option Z) :
  texto_sin_comodines titulo = true ->
  texto_sin_comodines artista = true ->
  texto_sin_comodines genero = true ->
  año <> Some 0 ->
  buscar_canciones db titulo artista genero año skip limit
  = Exito HTTP_200_OK
      (busqueda_spec db titulo artista genero año
         (por_defecto 0 skip) (por_defecto 100 limit)).
Proof.
  intros Ht Ha Hg Hy. rewrite buscar_canciones_consulta.
  unfold busqueda_spec, pagina, session_exec.
  cbn [q_where q_offset q_limit]. cbv zeta. do 3 f_equal.
  apply filter_ext. intros c. unfold coincide_busqueda.
  rewrite !forallb_app, !cond_texto_coincide, cond_año_coincide
    by assumption.
  rewrite !andb_assoc. reflexivity.
Qed.

(** A partial, mixed-case piece of the artist finds the song. *)
Lemma buscar_artista_mezcla :
  buscar_canciones db_ejemplo None (Some "jOhN lEn") None None None None
  = Exito HTTP_200_OK [imagine].
Proof. reflexivity. Qed.

(** [_] stands for one character, of however many bytes, and a length
    is a number of characters. *)
Lemma like_un_caracter :
  ilike "año" "%A_O%" = true /\ like "__" "ñ" = false /\ len "Canción" = 7.
Proof. repeat split; reflexivity. Qed.

(** C4.  Where the search departs from the conjunction of substring and
    equality predicates.  A [_] in the supplied title stands for any
    character, so ["a_c"] finds the song titled ["abc"], which does not
    contain it; and a supplied year of 0 adds no condition, so every
    song is returned although none is of year 0. *)
Theorem C4_buscar_comodines_y_anio_cero :
  (buscar_canciones db_ejemplo (Some "a_c") None None None None None
   = Exito HTTP_200_OK [abc]
   /\ contiene_sin_caso "a_c" (Cancion.titulo abc) = false
   /\ busqueda_spec db_ejemplo (Some "a_c") None None None 0 100 = [])
  /\ (buscar_canciones db_ejemplo None None None (Some 0) None None
      = Exito HTTP_200_OK [imagine; abc]
      /\ busqueda_spec db_ejemplo None None None (Some 0) 0 100 = []).
Proof. repeat split; reflexivity. Qed.

(** * Further properties of the handlers *)

(** ** Lookups by key *)

Lemma find_id_None {F} (id : F -> Z) (k : Z) (l : list F) :
  find (fun r => id r =? k) l = None <-> ~ In k (map id l).
Proof.
  induction l as [|a l IH]; simpl.
  - split; [intros _ [] | reflexivity].
  - destruct (Z.eqb_spec (id a) k) as [E|E].
    + split; [discriminate | intros H; exfalso; apply H; left; exact E].
    + rewrite IH. tauto.
Qed.

Lemma find_id_Some {F} (id : F -> Z) (k : Z) (l : list F) :
  In k (map id l) ->
  exists r, find (fun r => id r =? k) l = Some r /\ id r = k /\ In r l.
Proof.
  intros Hin. destruct (find (fun r => id r =? k) l) as [r|] eqn:E.
  - exists r. apply find_some in E. destruct E as [Hr Hk].
    apply Z.eqb_eq in Hk. auto.
  - apply find_id_None in E. contradiction.
Qed.

Lemma find_snoc {F} (p : F -> bool) (l : list F) (x : F) :
  find p (l ++ [x])
  = match find p l with
    | Some y => Some y
    | None => if p x then Some x else None
    end.
Proof.
  induction l as [|a l IH]; simpl; [reflexivity|].
  destruct (p a); [reflexivity | exact IH].
Qed.

(** Appending a row under a key not in use: the new key finds the new
    row, every other key finds what it found before. *)
Lemma find_snoc_nuevo {F} (id : F -> Z) (l : list F) (x : F) :
  ~ In (id x) (map id l) ->
  find (fun r => id r =? id x) (l ++ [x]) = Some x
  /\ forall k, k <> id x ->
       find (fun r => id r =? k) (l ++ [x]) = find (fun r => id r =? k) l.
Proof.
  intros Hx. split.
  - rewrite find_snoc. apply find_id_None in Hx. rewrite Hx, Z.eqb_refl.
    reflexivity.
  - intros k Hk. rewrite find_snoc.
    destruct (find (fun r => id r =? k) l); [reflexivity|].
    destruct (Z.eqb_spec (id x) k); [congruence | reflexivity].
Qed.

Lemma find_filter_otro {F} (id : F -> Z) (k j : Z) (l : list F) :
  j <> k ->
  find (fun r => id r =? j) (filter (fun r => negb (id r =? k)) l)
  = find (fun r => id r =? j) l.
Proof.
  intros Hjk. induction l as [|a l IH]; simpl; [reflexivity|].
  destruct (Z.eqb_spec (id a) k) as [Ek|Ek]; simpl.
  - destruct (Z.eqb_spec (id a) j) as [Ej|Ej]; [congruence | exact IH].
  - destruct (id a =? j); [reflexivity | exact IH].
Qed.

(** X4.  A fetch by key answers 404 exactly when no row of the table
    carries the key; otherwise it answers 200 with a stored row that
    carries it.  The same for users, songs and favourites. *)
Theorem X4_obtener_por_clave :
  forall (db : DB) (k : Z),
    (~ In k (map Usuario.id (usuarios db)) ->
       obtener_usuario db k
       = HTTPException HTTP_404_NOT_FOUND "Usuario no encontrado")
    /\ (In k (map Usuario.id (usuarios db)) ->
        exists u, obtener_usuario db k = Exito HTTP_200_OK u
                  /\ Usuario.id u = k /\ In u (usuarios db))
    /\ (~ In k (map Cancion.id (canciones db)) ->
        obtener_cancion db k
        = HTTPException HTTP_404_NOT_FOUND "Canción no encontrada")
    /\ (In k (map Cancion.id (canciones db)) ->
        exists c, obtener_cancion db k = Exito HTTP_200_OK c
                  /\ Cancion.id c = k /\ In c (canciones db))
    /\ (~ In k (map Favorito.id (favoritos db)) ->
        obtener_favorito db k
        = HTTPException HTTP_404_NOT_FOUND "Favorito no encontrado")
    /\ (In k (map Favorito.id (favoritos db)) ->
        exists f, obtener_favorito db k = Exito HTTP_200_OK f
                  /\ Favorito.id f = k /\ In f (favoritos db)).
Proof.
  intros db k.
  unfold obtener_usuario, obtener_cancion, obtener_favorito,
    get_usuario, get_cancion, get_favorito.
  repeat split.
  - intros H. apply (find_id_None Usuario.id) in H. rewrite H. reflexivity.
  - intros H. destruct (find_id_Some Usuario.id k _ H) as [r [E [Hk Hr]]].
    rewrite E. exists r. auto.
  - intros H. apply (find_id_None Cancion.id) in H. rewrite H. reflexivity.
  - intros H. destruct (find_id_Some Cancion.id k _ H) as [r [E [Hk Hr]]].
    rewrite E. exists r. auto.
  - intros H. apply (find_id_None Favorito.id) in H. rewrite H. reflexivity.
  - intros H. destruct (find_id_Some Favorito.id k _ H) as [r [E [Hk Hr]]].
    rewrite E. exists r. auto.
Qed.

Lemma X4_obtener_por_clave_witness :
  obtener_usuario db_ejemplo 999
  = HTTPException HTTP_404_NOT_FOUND "Usuario no encontrado"
  /\ exists c, obtener_cancion db_ejemplo 2 = Exito HTTP_200_OK c
               /\ Cancion.id c = 2 /\ In c (canciones db_ejemplo).
Proof.
  split.
  - apply (proj1 (X4_obtener_por_clave db_ejemplo 999)).
    simpl. intros [H|[H|[]]]; discriminate.
  - apply (proj1 (proj2 (proj2 (proj2 (X4_obtener_por_clave db_ejemplo 2))))).
    simpl. right. left. reflexivity.
Defined.

(** ** Creation followed by a fetch *)

(** X1.  A user that was created is fetched back, under the key the
    creation returned, as the very row it returned; every other key
    fetches what it fetched before the creation. *)
Theorem X1_crear_y_obtener_usuario :
  forall (ahora : datetime) (usuario : UsuarioCreate) (db db' : DB)
         (fila : Usuario.t),
    crear_usuario ahora usuario db = (Exito HTTP_201_CREATED fila, db') ->
    obtener_usuario db' (Usuario.id fila) = Exito HTTP_200_OK fila
    /\ (forall k, k <> Usuario.id fila ->
          obtener_usuario db' k = obtener_usuario db k)
    /\ canciones db' = canciones db
    /\ favoritos db' = favoritos db.
Proof.
  intros ahora usuario db db' fila H.
  destruct (correo_registrado db (uc_correo usuario)) eqn:E.
  - rewrite crear_usuario_repetido in H by exact E. discriminate.
  - rewrite crear_usuario_nuevo in H by exact E.
    injection H as <- <-.
    set (fila := Usuario.mk _ _ _ _).
    assert (Hn : ~ In (Usuario.id fila) (map Usuario.id (usuarios db)))
      by apply siguiente_id_nuevo.
    destruct (find_snoc_nuevo Usuario.id (usuarios db) fila Hn) as [H1 H2].
    unfold obtener_usuario, get_usuario. cbn [usuarios con_usuarios].
    rewrite H1. repeat split. intros k Hk. rewrite (H2 k Hk). reflexivity.
Qed.

Lemma X1_crear_y_obtener_usuario_witness :
  let R := crear_usuario 50 (mkUsuarioCreate "Eva" "eva@x.com") db_ejemplo in
  obtener_usuario (snd R) 3 = Exito HTTP_200_OK (Usuario.mk 3 "Eva" "eva@x.com" 50)
  /\ obtener_usuario (snd R) 1 = obtener_usuario db_ejemplo 1.
Proof.
  cbn zeta.
  destruct (X1_crear_y_obtener_usuario 50 (mkUsuarioCreate "Eva" "eva@x.com")
              db_ejemplo _ _ eq_refl) as [H1 [H2 _]].
  split; [exact H1|]. apply H2. discriminate.
Defined.

(** X2.  A song is never refused by the handler: whatever the store
    holds, the row is appended under a key not in use, carries the six
    fields of the body and the time of creation, and is fetched back as
    returned.  Nothing makes songs unique: the same body a second time
    gives a second row under another key. *)
Theorem X2_crear_cancion_siempre :
  forall (ahora ahora' : datetime) (cancion : CancionCreate) (db : DB),
    exists fila fila',
      crear_cancion ahora cancion db
      = (Exito HTTP_201_CREATED fila,
         con_canciones db (canciones db ++ [fila]))
      /\ fila = Cancion.mk (Cancion.id fila) (cc_titulo cancion)
                  (cc_artista cancion) (cc_album cancion)
                  (cc_duracion cancion) (cc_año cancion)
                  (cc_genero cancion) ahora
      /\ ~ In (Cancion.id fila) (map Cancion.id (canciones db))
      /\ obtener_cancion (snd (crear_cancion ahora cancion db))
           (Cancion.id fila) = Exito HTTP_200_OK fila
      /\ fst (crear_cancion ahora' cancion
                (snd (crear_cancion ahora cancion db)))
         = Exito HTTP_201_CREATED fila'
      /\ Cancion.id fila' <> Cancion.id fila
      /\ Cancion.titulo fila' = Cancion.titulo fila
      /\ Cancion.artista fila' = Cancion.artista fila.
Proof.
  intros ahora ahora' cancion db.
  unfold crear_cancion, add_cancion. cbn [fst snd].
  set (fila := Cancion.mk (siguiente_id (map Cancion.id (canciones db)))
                 _ _ _ _ _ _ ahora).
  assert (Hn : ~ In (Cancion.id fila) (map Cancion.id (canciones db)))
    by apply siguiente_id_nuevo.
  eexists fila, _. split; [reflexivity|]. split; [reflexivity|].
  split; [exact Hn|]. split.
  - unfold obtener_cancion, get_cancion. cbn [canciones con_canciones].
    rewrite (proj1 (find_snoc_nuevo Cancion.id _ fila Hn)). reflexivity.
  - split; [reflexivity|]. cbn [canciones con_canciones Cancion.id].
    split; [|split; reflexivity].
    intros E.
    apply (siguiente_id_nuevo (map Cancion.id (canciones db ++ [fila]))).
    rewrite E, map_app, in_app_iff. right. left. reflexivity.
Qed.

(** X3.  A favourite that was created is fetched back, under the key
    the creation returned, as the row it returned; every other key
    fetches what it fetched before, and users and songs are untouched.
    The same holds for the route that takes the pair in the path. *)
Theorem X3_crear_y_obtener_favorito :
  forall (ahora : datetime) (u c : Z) (db db' : DB) (fila : Favorito.t),
    crear_favorito ahora (mkFavoritoCreate u c) db
      = (Exito HTTP_201_CREATED fila, db')
    \/ marcar_favorito_especifico ahora u c db
       = (Exito HTTP_201_CREATED fila, db') ->
    obtener_favorito db' (Favorito.id fila) = Exito HTTP_200_OK fila
    /\ (forall k, k <> Favorito.id fila ->
          obtener_favorito db' k = obtener_favorito db k)
    /\ usuarios db' = usuarios db
    /\ canciones db' = canciones db.
Proof.
  intros ahora u c db db' fila H.
  assert (E : crear_favorito ahora (mkFavoritoCreate u c) db
              = (Exito HTTP_201_CREATED fila, db')).
  { destruct H as [H|H]; [exact H|].
    rewrite marcar_favorito_especifico_crear in H. exact H. }
  clear H.
  destruct (get_usuario db u) eqn:Eu;
    [|rewrite crear_favorito_sin_usuario in E by exact Eu; discriminate].
  destruct (get_cancion db c) eqn:Ec;
    [|rewrite crear_favorito_sin_cancion in E by congruence; discriminate].
  destruct (par_marcado db u c) eqn:Ep;
    [rewrite crear_favorito_repetido in E by congruence; discriminate|].
  rewrite crear_favorito_nuevo in E by congruence.
  injection E as <- <-.
  set (fila := Favorito.mk _ _ _ _).
  assert (Hn : ~ In (Favorito.id fila) (map Favorito.id (favoritos db)))
    by apply siguiente_id_nuevo.
  destruct (find_snoc_nuevo Favorito.id (favoritos db) fila Hn) as [H1 H2].
  unfold obtener_favorito, get_favorito. cbn [favoritos con_favoritos].
  rewrite H1. repeat split. intros k Hk. rewrite (H2 k Hk). reflexivity.
Qed.

Lemma X3_crear_y_obtener_favorito_witness :
  let R := crear_favorito 40 (mkFavoritoCreate 2 1) db_ejemplo in
  obtener_favorito (snd R) 2 = Exito HTTP_200_OK (Favorito.mk 2 2 1 40)
  /\ obtener_favorito (snd R) 1 = obtener_favorito db_ejemplo 1.
Proof.
  cbn zeta.
  destruct (X3_crear_y_obtener_favorito 40 2 1 db_ejemplo _ _
              (or_introl eq_refl)) as [H1 [H2 _]].
  split; [exact H1|]. apply H2. discriminate.
Defined.

(** ** Removing a favourite *)

Lemma eliminar_favorito_existe (db : DB) (k : Z) (f : Favorito.t) :
  get_favorito db k = Some f ->
  eliminar_favorito k db
  = (Exito HTTP_204_NO_CONTENT tt,
     con_favoritos db
       (filter (fun r => negb (Favorito.id r =? k)) (favoritos db))).
Proof.
  intros Hg. unfold eliminar_favorito, delete_favorito. rewrite Hg.
  destruct (get_favorito_id _ _ _ Hg) as [-> _]. reflexivity.
Qed.

(** X5.  Removing a favourite by key: an unknown key gives 404 and
    changes nothing; a known key gives 204, after which that key is no
    longer found while every other favourite, every user and every song
    is as before. *)
Theorem X5_eliminar_favorito_contrato :
  forall (db : DB) (k : Z),
    (get_favorito db k = None ->
       eliminar_favorito k db
       = (HTTPException HTTP_404_NOT_FOUND "Favorito no encontrado", db))
    /\ (get_favorito db k <> None ->
        let R := eliminar_favorito k db in
        fst R = Exito HTTP_204_NO_CONTENT tt
        /\ es_NotFound (obtener_favorito (snd R) k)
        /\ (forall j, j <> k ->
              obtener_favorito (snd R) j = obtener_favorito db j)
        /\ usuarios (snd R) = usuarios db
        /\ canciones (snd R) = canciones db).
Proof.
  intros db k. split.
  - intros H. unfold eliminar_favorito. rewrite H. reflexivity.
  - intros H. destruct (get_favorito db k) as [f|] eqn:Hg; [|contradiction].
    cbn zeta. rewrite (eliminar_favorito_existe db k f Hg). cbn [fst snd].
    unfold obtener_favorito, get_favorito. cbn [favoritos con_favoritos].
    rewrite (find_filter_negb Favorito.id).
    repeat split; [eexists; reflexivity|].
    intros j Hj. rewrite (find_filter_otro Favorito.id) by exact Hj.
    reflexivity.
Qed.

Lemma X5_eliminar_favorito_contrato_witness :
  eliminar_favorito 7 db_ejemplo
  = (HTTPException HTTP_404_NOT_FOUND "Favorito no encontrado", db_ejemplo)
  /\ fst (eliminar_favorito 1 db_ejemplo) = Exito HTTP_204_NO_CONTENT tt
  /\ es_NotFound (obtener_favorito (snd (eliminar_favorito 1 db_ejemplo)) 1).
Proof.
  split.
  - apply (proj1 (X5_eliminar_favorito_contrato db_ejemplo 7)). reflexivity.
  - destruct (proj2 (X5_eliminar_favorito_contrato db_ejemplo 1))
      as [H1 [H2 _]].
    + vm_compute. discriminate.
    + split; [exact H1 | exact H2].
Defined.

Lemma first_filter_Some {F} (p : F -> bool) (l : list F) (x : F) :
  first (filter p l) = Some x -> In x l /\ p x = true.
Proof.
  unfold first. intros H.
  assert (Hin : In x (filter p l)).
  { destruct (filter p l) as [|y r]; [discriminate|].
    injection H as ->. left. reflexivity. }
  apply filter_In in Hin. exact Hin.
Qed.

Lemma favorito_existente_Some (db : DB) (u c : Z) (f : Favorito.t) :
  first (session_exec cumple_favorito (favoritos db)
           (where_ [id_usuario_igual u; id_cancion_igual c] select_)) = Some f
  -> In f (favoritos db) /\ par f = (u, c).
Proof.
  unfold session_exec, where_, select_; simpl. intros H.
  apply first_filter_Some in H. destruct H as [Hin Hp].
  split; [exact Hin|].
  apply andb_true_iff in Hp. destruct Hp as [Hu Hc].
  rewrite andb_true_r in Hc. apply Z.eqb_eq in Hu, Hc.
  unfold par. congruence.
Qed.

(** X6.  Removing a favourite by its pair: a pair that is not marked
    gives 404 and changes nothing; for a marked pair the request does
    what removing by key does for the key of a stored row that carries
    the pair, and answers 204. *)
Theorem X6_eliminar_favorito_especifico_contrato :
  forall (db : DB) (u c : Z),
    (par_marcado db u c = false ->
       eliminar_favorito_especifico u c db
       = (HTTPException HTTP_404_NOT_FOUND "Favorito no encontrado", db))
    /\ (par_marcado db u c = true ->
        exists f,
          In f (favoritos db) /\ par f = (u, c)
          /\ eliminar_favorito_especifico u c db
             = eliminar_favorito (Favorito.id f) db
          /\ fst (eliminar_favorito_especifico u c db)
             = Exito HTTP_204_NO_CONTENT tt).
Proof.
  intros db u c. split.
  - intros H. apply favorito_existente_None in H.
    unfold eliminar_favorito_especifico. rewrite H. reflexivity.
  - intros H. unfold eliminar_favorito_especifico.
    destruct (first _) as [f|] eqn:E.
    + destruct (favorito_existente_Some db u c f E) as [Hin Hp].
      exists f. split; [exact Hin|]. split; [exact Hp|].
      assert (Hk : In (Favorito.id f) (map Favorito.id (favoritos db)))
        by (apply in_map; exact Hin).
      destruct (find_id_Some Favorito.id _ _ Hk) as [g [Hg _]].
      rewrite (eliminar_favorito_existe db (Favorito.id f) g Hg).
      split; reflexivity.
    + apply favorito_existente_None in E. congruence.
Qed.

Lemma X6_eliminar_favorito_especifico_contrato_witness :
  eliminar_favorito_especifico 2 1 db_ejemplo
  = (HTTPException HTTP_404_NOT_FOUND "Favorito no encontrado", db_ejemplo)
  /\ exists f,
       par f = (1, 1)
       /\ eliminar_favorito_especifico 1 1 db_ejemplo
          = eliminar_favorito (Favorito.id f) db_ejemplo.
Proof.
  split.
  - apply (proj1 (X6_eliminar_favorito_especifico_contrato db_ejemplo 2 1)).
    reflexivity.
  - destruct (proj2 (X6_eliminar_favorito_especifico_contrato db_ejemplo 1 1))
      as [f [_ [H2 [H3 _]]]].
    + reflexivity.
    + exists f. split; [exact H2 | exact H3].
Defined.

Lemma NoDup_map_inyectiva {A B} (g : A -> B) (l : list A) (x y : A) :
  NoDup (map g l) -> In x l -> In y l -> g x = g y -> x = y.
Proof.
  induction l as [|a l IH]; simpl; intros Hnd Hx Hy E; [contradiction|].
  apply NoDup_cons_iff in Hnd. destruct Hnd as [Ha Hl].
  destruct Hx as [->|Hx], Hy as [->|Hy].
  - reflexivity.
  - exfalso. apply Ha. rewrite E. apply in_map. exact Hy.
  - exfalso. apply Ha. rewrite <- E. apply in_map. exact Hx.
  - apply IH; assumption.
Qed.

(** X7.  Where no pair is stored twice, unmarking a marked pair leaves
    the pair unmarked, so that marking it again succeeds with 201. *)
Theorem X7_desmarcar_y_volver_a_marcar :
  forall (ahora : datetime) (db : DB) (u c : Z),
    pares_unicos db ->
    get_usuario db u <> None ->
    get_cancion db c <> None ->
    par_marcado db u c = true ->
    let db' := snd (eliminar_favorito_especifico u c db) in
    par_marcado db' u c = false
    /\ exists fila,
         fst (crear_favorito ahora (mkFavoritoCreate u c) db')
         = Exito HTTP_201_CREATED fila
         /\ par fila = (u, c).
Proof.
  intros ahora db u c Hnd Hu Hc Hp. cbn zeta.
  unfold eliminar_favorito_especifico.
  destruct (first _) as [f|] eqn:E;
    [|apply favorito_existente_None in E; congruence].
  destruct (favorito_existente_Some db u c f E) as [Hin Hpar].
  unfold delete_favorito. cbn [snd].
  set (db' := con_favoritos db _).
  assert (Hp' : par_marcado db' u c = false).
  { destruct (par_marcado db' u c) eqn:Ep'; [|reflexivity]. exfalso.
    unfold par_marcado in Ep'. apply existsb_exists in Ep'.
    destruct Ep' as [g [Hg Hgp]]. unfold db' in Hg. cbn in Hg.
    apply filter_In in Hg. destruct Hg as [Hg Hne].
    apply andb_true_iff in Hgp. destruct Hgp as [Hgu Hgc].
    apply Z.eqb_eq in Hgu, Hgc.
    assert (Efg : f = g).
    { apply (NoDup_map_inyectiva par (favoritos db)); try assumption.
      rewrite Hpar. unfold par. congruence. }
    subst g. rewrite Z.eqb_refl in Hne. discriminate. }
  split; [exact Hp'|].
  rewrite crear_favorito_nuevo; [| exact Hu | exact Hc | exact Hp'].
  eexists. split; reflexivity.
Qed.

Lemma X7_desmarcar_y_volver_a_marcar_witness :
  par_marcado (snd (eliminar_favorito_especifico 1 1 db_ejemplo)) 1 1 = false
  /\ exists fila,
       fst (crear_favorito 41 (mkFavoritoCreate 1 1)
              (snd (eliminar_favorito_especifico 1 1 db_ejemplo)))
       = Exito HTTP_201_CREATED fila
       /\ par fila = (1, 1).
Proof.
  apply (X7_desmarcar_y_volver_a_marcar 41 db_ejemplo 1 1).
  - unfold pares_unicos. simpl. constructor; [intros [] | constructor].
  - vm_compute. discriminate.
  - vm_compute. discriminate.
  - reflexivity.
Defined.

(** ** Removing a user, a song, that no favourite references *)

(** X8.  Removing a user, or a song: an unknown key gives 404 and changes
    nothing; a row that no favourite references is removed with 204,
    after which its key is no longer found, every other row of the
    table is fetched as before and the other two tables are untouched. *)
Theorem X8_eliminar_sin_favoritos :
  forall (db : DB) (k : Z),
    (get_usuario db k = None ->
       eliminar_usuario k db
       = (HTTPException HTTP_404_NOT_FOUND "Usuario no encontrado", db))
    /\ (get_cancion db k = None ->
        eliminar_cancion k db
        = (HTTPException HTTP_404_NOT_FOUND "Canción no encontrada", db))
    /\ (get_usuario db k <> None ->
        tiene_favoritos_usuario db k = false ->
        let R := eliminar_usuario k db in
        fst R = Exito HTTP_204_NO_CONTENT tt
        /\ es_NotFound (obtener_usuario (snd R) k)
        /\ (forall j, j <> k ->
              obtener_usuario (snd R) j = obtener_usuario db j)
        /\ canciones (snd R) = canciones db
        /\ favoritos (snd R) = favoritos db)
    /\ (get_cancion db k <> None ->
        tiene_favoritos_cancion db k = false ->
        let R := eliminar_cancion k db in
        fst R = Exito HTTP_204_NO_CONTENT tt
        /\ es_NotFound (obtener_cancion (snd R) k)
        /\ (forall j, j <> k ->
              obtener_cancion (snd R) j = obtener_cancion db j)
        /\ usuarios (snd R) = usuarios db
        /\ favoritos (snd R) = favoritos db).
Proof.
  intros db k. split; [|split; [|split]].
  - intros H. unfold eliminar_usuario. rewrite H. reflexivity.
  - intros H. unfold eliminar_cancion. rewrite H. reflexivity.
  - intros Hg Hf. destruct (get_usuario db k) as [u|] eqn:E; [|contradiction].
    destruct (get_usuario_id _ _ _ E) as [Hk _].
    cbn zeta. unfold eliminar_usuario, delete_usuario. rewrite E, Hk.
    unfold tiene_favoritos_usuario in Hf. rewrite Hf. cbn [fst snd].
    unfold obtener_usuario, get_usuario. cbn [usuarios con_usuarios].
    rewrite (find_filter_negb Usuario.id).
    repeat split; [eexists; reflexivity|].
    intros j Hj. rewrite (find_filter_otro Usuario.id) by exact Hj.
    reflexivity.
  - intros Hg Hf. destruct (get_cancion db k) as [c|] eqn:E; [|contradiction].
    destruct (get_cancion_id _ _ _ E) as [Hk _].
    cbn zeta. unfold eliminar_cancion, delete_cancion. rewrite E, Hk.
    unfold tiene_favoritos_cancion in Hf. rewrite Hf. cbn [fst snd].
    unfold obtener_cancion, get_cancion. cbn [canciones con_canciones].
    rewrite (find_filter_negb Cancion.id).
    repeat split; [eexists; reflexivity|].
    intros j Hj. rewrite (find_filter_otro Cancion.id) by exact Hj.
    reflexivity.
Qed.

Lemma X8_eliminar_sin_favoritos_witness :
  (fst (eliminar_usuario 2 db_ejemplo) = Exito HTTP_204_NO_CONTENT tt
   /\ es_NotFound (obtener_usuario (snd (eliminar_usuario 2 db_ejemplo)) 2))
  /\ (fst (eliminar_cancion 2 db_ejemplo) = Exito HTTP_204_NO_CONTENT tt
      /\ es_NotFound
           (obtener_cancion (snd (eliminar_cancion 2 db_ejemplo)) 2))
  /\ eliminar_usuario 9 db_ejemplo
     = (HTTPException HTTP_404_NOT_FOUND "Usuario no encontrado", db_ejemplo).
Proof.
  destruct (X8_eliminar_sin_favoritos db_ejemplo 2) as [_ [_ [Hu Hc]]].
  split; [|split].
  - destruct Hu as [H1 [H2 _]].
    + vm_compute. discriminate.
    + reflexivity.
    + split; [exact H1 | exact H2].
  - destruct Hc as [H1 [H2 _]].
    + vm_compute. discriminate.
    + reflexivity.
    + split; [exact H1 | exact H2].
  - apply (proj1 (X8_eliminar_sin_favoritos db_ejemplo 9)). reflexivity.
Defined.

(** ** The favourites of a user *)

(** X9.  The favourites of a user: an unknown user gives 404; a known
    user is returned with the favourites that reference it, in store
    order.  A favourite created for the user is appended to that list,
    and the lists of the other users do not change. *)
Theorem X9_listar_favoritos_usuario_contrato :
  forall (db : DB) (k : Z),
    (get_usuario db k = None ->
       listar_favoritos_usuario db k
       = HTTPException HTTP_404_NOT_FOUND "Usuario no encontrado")
    /\ (forall u,
          get_usuario db k = Some u ->
          listar_favoritos_usuario db k
          = Exito HTTP_200_OK (u, favoritos_de db k))
    /\ (forall ahora c fila db',
          crear_favorito ahora (mkFavoritoCreate k c) db
          = (Exito HTTP_201_CREATED fila, db') ->
          exists u,
            listar_favoritos_usuario db' k
            = Exito HTTP_200_OK (u, favoritos_de db k ++ [fila])
            /\ forall j, j <> k ->
                 listar_favoritos_usuario db' j
                 = listar_favoritos_usuario db j).
Proof.
  intros db k. split; [|split].
  - intros H. unfold listar_favoritos_usuario. rewrite H. reflexivity.
  - intros u H. unfold listar_favoritos_usuario. rewrite H.
    destruct (get_usuario_id _ _ _ H) as [-> _]. reflexivity.
  - intros ahora c fila db' H.
    destruct (get_usuario db k) as [u|] eqn:Eu;
      [|rewrite crear_favorito_sin_usuario in H by exact Eu; discriminate].
    destruct (get_cancion db c) eqn:Ec;
      [|rewrite crear_favorito_sin_cancion in H by congruence; discriminate].
    destruct (par_marcado db k c) eqn:Ep;
      [rewrite crear_favorito_repetido in H by congruence; discriminate|].
    rewrite crear_favorito_nuevo in H by congruence.
    injection H as <- <-.
    destruct (get_usuario_id _ _ _ Eu) as [Hk _].
    exists u. unfold listar_favoritos_usuario, get_usuario, favoritos_de.
    cbn [usuarios favoritos con_favoritos].
    fold (get_usuario db k). rewrite Eu, Hk. split.
    + rewrite filter_app. cbn [filter Favorito.id_usuario].
      rewrite Z.eqb_refl. reflexivity.
    + intros j Hj. fold (get_usuario db j).
      destruct (get_usuario db j) as [v|] eqn:Ev; [|reflexivity].
      destruct (get_usuario_id _ _ _ Ev) as [Hv _].
      rewrite filter_app. cbn [filter Favorito.id_usuario]. rewrite Hv.
      destruct (Z.eqb_spec k j); [congruence|].
      rewrite app_nil_r. reflexivity.
Qed.

Lemma X9_listar_favoritos_usuario_contrato_witness :
  listar_favoritos_usuario db_ejemplo 9
  = HTTPException HTTP_404_NOT_FOUND "Usuario no encontrado"
  /\ listar_favoritos_usuario db_ejemplo 1
     = Exito HTTP_200_OK (ana, [ana_imagine])
  /\ exists u,
       listar_favoritos_usuario
         (snd (crear_favorito 40 (mkFavoritoCreate 1 2) db_ejemplo)) 1
       = Exito HTTP_200_OK (u, [ana_imagine; Favorito.mk 2 1 2 40]).
Proof.
  destruct (X9_listar_favoritos_usuario_contrato db_ejemplo 9) as [H9 _].
  destruct (X9_listar_favoritos_usuario_contrato db_ejemplo 1)
    as [_ [H1 Hc]].
  split; [|split].
  - apply H9. reflexivity.
  - apply (H1 ana). reflexivity.
  - destruct (Hc 40 2 _ _ eq_refl) as [u [Hu _]]. exists u. exact Hu.
Defined.

(** ** Updates that send [null], updates that send nothing *)

Lemma fold_setattr_cancion_null (c : Cancion.t) (up : CancionUpdate) (db : DB) :
  CancionUpdate_sin_null up = false ->
  update_cancion db
    (fold_left setattr_cancion (CancionUpdate_model_dump up)
       (cargar_cancion c))
  = Lanza IntegrityError.
Proof.
  destruct up as [[|[t|]] [|[a|]] [|[al|]] [|[d|]] [|[y|]] [|[g|]]];
    unfold CancionUpdate_sin_null; cbn [sin_null andb];
    intros H; try discriminate; reflexivity.
Qed.

Lemma fold_setattr_usuario_null (u : Usuario.t) (up : UsuarioUpdate) (db : DB) :
  UsuarioUpdate_sin_null up = false ->
  update_usuario db
    (fold_left setattr_usuario (UsuarioUpdate_model_dump up)
       (cargar_usuario u))
  = Lanza IntegrityError.
Proof.
  destruct up as [[|[n|]] [|[c|]]];
    unfold UsuarioUpdate_sin_null; cbn [sin_null andb];
    intros H; try discriminate; reflexivity.
Qed.

(** X10.  An update body that sends [null] for a field of an existing
    row is not applied: the commit refuses the empty column.  For a
    song the error leaves the handler uncaught; for a user it is
    answered 400 with the message of the duplicate [correo].  Nothing
    is written in either case. *)
Theorem X10_actualizar_con_null :
  forall (db : DB) (k : Z),
    (forall c up,
        get_cancion db k = Some c ->
        CancionUpdate_sin_null up = false ->
        actualizar_cancion k up db = (NoControlada IntegrityError, db))
    /\ (forall u up,
          get_usuario db k = Some u ->
          UsuarioUpdate_sin_null up = false ->
          actualizar_usuario k up db
          = (HTTPException HTTP_400_BAD_REQUEST
               "El correo electrónico ya está registrado", db)).
Proof.
  intros db k. split.
  - intros c up Hg Hn. unfold actualizar_cancion. rewrite Hg.
    rewrite (fold_setattr_cancion_null c up db Hn). reflexivity.
  - intros u up Hg Hn. unfold actualizar_usuario. rewrite Hg.
    rewrite (fold_setattr_usuario_null u up db Hn). reflexivity.
Qed.

Lemma X10_actualizar_con_null_witness :
  actualizar_cancion 2
    (mkCancionUpdate NoEnviado NoEnviado NoEnviado NoEnviado
       (Enviado None) (Enviado (Some "Jazz"))) db_ejemplo
  = (NoControlada IntegrityError, db_ejemplo)
  /\ actualizar_usuario 1
       (mkUsuarioUpdate (Enviado None) NoEnviado) db_ejemplo
     = (HTTPException HTTP_400_BAD_REQUEST
          "El correo electrónico ya está registrado", db_ejemplo).
Proof.
  destruct (X10_actualizar_con_null db_ejemplo 2) as [Hc _].
  destruct (X10_actualizar_con_null db_ejemplo 1) as [_ Hu].
  split.
  - apply (Hc abc); reflexivity.
  - apply (Hu ana); reflexivity.
Defined.

(** ** Pages *)

Lemma filter_sin_condiciones {F} (l : list F) :
  filter (fun _ => true) l = l.
Proof.
  induction l as [|a l IH]; simpl; [reflexivity|]. rewrite IH. reflexivity.
Qed.

Lemma firstn_suma {F} (n m : nat) (l : list F) :
  firstn (n + m) l = firstn n l ++ firstn m (skipn n l).
Proof.
  revert l. induction n as [|n IH]; intros l; [reflexivity|].
  destruct l as [|a l]; simpl.
  - destruct m; reflexivity.
  - rewrite IH. reflexivity.
Qed.

Lemma skipn_suma {F} (n m : nat) (l : list F) :
  skipn (n + m) l = skipn m (skipn n l).
Proof.
  revert l. induction n as [|n IH]; intros l; [reflexivity|].
  destruct l as [|a l]; simpl.
  - destruct m; reflexivity.
  - apply IH.
Qed.

Lemma skipn_todo {F} (n : nat) (l : list F) :
  (List.length l <= n)%nat -> skipn n l = [].
Proof.
  revert l. induction n as [|n IH]; intros [|a l] H; simpl in *;
    try reflexivity; try lia.
  apply IH. lia.
Qed.

(** A query with a limit that is not negative yields a window of the
    rows that satisfy its conditions. *)
Lemma session_exec_ventana {F C} (cumple : C -> F -> bool) (tabla : list F)
    (conds : list C) (skip limit : Z) :
  0 <= limit ->
  session_exec cumple tabla (mkConsulta conds (Some skip) (Some limit))
  = firstn (Z.to_nat limit)
      (skipn (Z.to_nat skip)
         (filter (fun f => forallb (fun c => cumple c f) conds) tabla)).
Proof.
  intros Hl. unfold session_exec, aplicar_limit, aplicar_offset.
  cbn [q_where q_offset q_limit].
  destruct (Z.ltb_spec limit 0); [lia | reflexivity].
Qed.

Lemma session_exec_paginas {F C} (cumple : C -> F -> bool) (tabla : list F)
    (conds : list C) (skip n m : Z) :
  0 <= skip -> 0 <= n -> 0 <= m ->
  session_exec cumple tabla (mkConsulta conds (Some skip) (Some (n + m)))
  = session_exec cumple tabla (mkConsulta conds (Some skip) (Some n))
    ++ session_exec cumple tabla (mkConsulta conds (Some (skip + n)) (Some m)).
Proof.
  intros Hs Hn Hm. rewrite !session_exec_ventana by lia.
  rewrite !Z2Nat.inj_add by lia. rewrite firstn_suma, skipn_suma.
  reflexivity.
Qed.

Lemma listar_usuarios_consulta (db : DB) (skip limit : Z) :
  limit <= 100 ->
  listar_usuarios db (Some skip) (Some limit)
  = Exito HTTP_200_OK
      (session_exec cumple_nada (usuarios db)
         (mkConsulta [] (Some skip) (Some limit))).
Proof.
  intros H. unfold listar_usuarios. cbn [por_defecto].
  rewrite (tope_menor limit H). reflexivity.
Qed.

Lemma listar_canciones_consulta (db : DB) (skip limit : Z) :
  limit <= 100 ->
  listar_canciones db (Some skip) (Some limit)
  = Exito HTTP_200_OK
      (session_exec cumple_cancion (canciones db)
         (mkConsulta [] (Some skip) (Some limit))).
Proof.
  intros H. unfold listar_canciones. cbn [por_defecto].
  rewrite (tope_menor limit H). reflexivity.
Qed.

Lemma listar_favoritos_consulta (db : DB) (skip limit : Z) :
  limit <= 100 ->
  listar_favoritos db (Some skip) (Some limit)
  = Exito HTTP_200_OK
      (session_exec cumple_favorito (favoritos db)
         (mkConsulta [] (Some skip) (Some limit))).
Proof.
  intros H. unfold listar_favoritos. cbn [por_defecto].
  rewrite (tope_menor limit H). reflexivity.
Qed.

Lemma buscar_canciones_consulta_menor (db : DB)
    (titulo artista genero : option string) (año : option Z) (skip limit : Z) :
  limit <= 100 ->
  buscar_canciones db titulo artista genero año (Some skip) (Some limit)
  = Exito HTTP_200_OK
      (session_exec cumple_cancion (canciones db)
         (mkConsulta
            (cond_texto Cancion.titulo titulo
             ++ cond_texto Cancion.artista artista
             ++ cond_texto Cancion.genero genero
             ++ cond_año año)
            (Some skip) (Some limit))).
Proof.
  intros H. rewrite buscar_canciones_consulta. cbn [por_defecto]. cbv zeta.
  rewrite (tope_menor limit H). reflexivity.
Qed.

(** X11.  Consecutive pages join: for a [skip] that is not negative and
    two page sizes whose sum is at most 100, the page of size [n] at
    [skip] followed by the page of size [m] at [skip + n] is the page of
    size [n + m] at [skip].  This holds for the three lists and for the
    search under any fixed search parameters. *)
Theorem X11_paginas_consecutivas :
  forall (db : DB) (skip n m : Z),
    0 <= skip -> 0 <= n -> 0 <= m -> n + m <= 100 ->
    (exists a b,
        listar_usuarios db (Some skip) (Some n) = Exito HTTP_200_OK a
        /\ listar_usuarios db (Some (skip + n)) (Some m) = Exito HTTP_200_OK b
        /\ listar_usuarios db (Some skip) (Some (n + m))
           = Exito HTTP_200_OK (a ++ b))
    /\ (exists a b,
          listar_canciones db (Some skip) (Some n) = Exito HTTP_200_OK a
          /\ listar_canciones db (Some (skip + n)) (Some m)
             = Exito HTTP_200_OK b
          /\ listar_canciones db (Some skip) (Some (n + m))
             = Exito HTTP_200_OK (a ++ b))
    /\ (exists a b,
          listar_favoritos db (Some skip) (Some n) = Exito HTTP_200_OK a
          /\ listar_favoritos db (Some (skip + n)) (Some m)
             = Exito HTTP_200_OK b
          /\ listar_favoritos db (Some skip) (Some (n + m))
             = Exito HTTP_200_OK (a ++ b))
    /\ (forall titulo artista genero año,
          exists a b,
            buscar_canciones db titulo artista genero año (Some skip) (Some n)
            = Exito HTTP_200_OK a
            /\ buscar_canciones db titulo artista genero año
                 (Some (skip + n)) (Some m) = Exito HTTP_200_OK b
            /\ buscar_canciones db titulo artista genero año (Some skip)
                 (Some (n + m)) = Exito HTTP_200_OK (a ++ b)).
Proof.
  intros db skip n m Hs Hn Hm Hnm. split; [|split; [|split]].
  - rewrite !listar_usuarios_consulta by lia.
    eexists _, _. split; [reflexivity|]. split; [reflexivity|].
    rewrite session_exec_paginas by lia. reflexivity.
  - rewrite !listar_canciones_consulta by lia.
    eexists _, _. split; [reflexivity|]. split; [reflexivity|].
    rewrite session_exec_paginas by lia. reflexivity.
  - rewrite !listar_favoritos_consulta by lia.
    eexists _, _. split; [reflexivity|]. split; [reflexivity|].
    rewrite session_exec_paginas by lia. reflexivity.
  - intros titulo artista genero año.
    rewrite !buscar_canciones_consulta_menor by lia.
    eexists _, _. split; [reflexivity|]. split; [reflexivity|].
    rewrite session_exec_paginas by lia. reflexivity.
Qed.

Lemma X11_paginas_consecutivas_witness :
  exists a b,
    listar_canciones db_ejemplo (Some 0) (Some 1) = Exito HTTP_200_OK a
    /\ listar_canciones db_ejemplo (Some (0 + 1)) (Some 1)
       = Exito HTTP_200_OK b
    /\ listar_canciones db_ejemplo (Some 0) (Some (1 + 1))
       = Exito HTTP_200_OK (a ++ b).
Proof.
  apply (X11_paginas_consecutivas db_ejemplo 0 1 1); lia.
Defined.

(** X12.  For a [limit] from 0 to 100 a list endpoint returns the window
    of the table that starts after [skip] rows (after none when [skip]
    is negative) and holds at most [limit] rows, in table order.  So
    [limit = 0], or a [skip] that reaches the end of the table, gives
    200 with an empty list. *)
Theorem X12_ventana_de_la_tabla :
  forall (db : DB) (skip limit : Z),
    0 <= limit <= 100 ->
    (listar_usuarios db (Some skip) (Some limit)
     = Exito HTTP_200_OK
         (firstn (Z.to_nat limit) (skipn (Z.to_nat skip) (usuarios db)))
     /\ listar_canciones db (Some skip) (Some limit)
        = Exito HTTP_200_OK
            (firstn (Z.to_nat limit) (skipn (Z.to_nat skip) (canciones db)))
     /\ listar_favoritos db (Some skip) (Some limit)
        = Exito HTTP_200_OK
            (firstn (Z.to_nat limit) (skipn (Z.to_nat skip) (favoritos db))))
    /\ (limit = 0 ->
        listar_usuarios db (Some skip) (Some limit) = Exito HTTP_200_OK []
        /\ listar_canciones db (Some skip) (Some limit) = Exito HTTP_200_OK []
        /\ listar_favoritos db (Some skip) (Some limit)
           = Exito HTTP_200_OK [])
    /\ (Z.of_nat (List.length (usuarios db)) <= skip ->
        listar_usuarios db (Some skip) (Some limit) = Exito HTTP_200_OK [])
    /\ (Z.of_nat (List.length (canciones db)) <= skip ->
        listar_canciones db (Some skip) (Some limit) = Exito HTTP_200_OK [])
    /\ (Z.of_nat (List.length (favoritos db)) <= skip ->
        listar_favoritos db (Some skip) (Some limit) = Exito HTTP_200_OK []).
Proof.
  intros db skip limit Hl.
  rewrite listar_usuarios_consulta, listar_canciones_consulta,
    listar_favoritos_consulta by lia.
  rewrite !session_exec_ventana by lia.
  cbn [forallb]. rewrite !filter_sin_condiciones.
  split; [repeat split|]. split; [|repeat split].
  - intros ->. repeat split.
  - intros H. rewrite skipn_todo by lia. rewrite firstn_nil. reflexivity.
  - intros H. rewrite skipn_todo by lia. rewrite firstn_nil. reflexivity.
  - intros H. rewrite skipn_todo by lia. rewrite firstn_nil. reflexivity.
Qed.

Lemma X12_ventana_de_la_tabla_witness :
  listar_usuarios db_ejemplo (Some 1) (Some 5) = Exito HTTP_200_OK [luis]
  /\ listar_canciones db_ejemplo (Some 2) (Some 5) = Exito HTTP_200_OK [].
Proof.
  destruct (X12_ventana_de_la_tabla db_ejemplo 1 5) as [[H1 _] _]; [lia|].
  destruct (X12_ventana_de_la_tabla db_ejemplo 2 5) as [_ [_ [_ [H2 _]]]];
    [lia|].
  split; [exact H1|]. apply H2. simpl. lia.
Defined.

(** ** Search: the case of the parameters *)

Lemma lower_vacio (t : string) : lower t = "" -> t = "".
Proof. destruct t; [reflexivity | discriminate]. Qed.

Lemma cond_texto_lower (col : Cancion.t -> string) (p p' : option string)
    (c : Cancion.t) :
  option_map lower p = option_map lower p' ->
  forallb (fun k => cumple_cancion k c) (cond_texto col p)
  = forallb (fun k => cumple_cancion k c) (cond_texto col p').
Proof.
  destruct p as [t|], p' as [t'|]; simpl; intros H;
    try discriminate; [|reflexivity].
  injection H as H. unfold cond_texto, si_texto.
  destruct (String.eqb_spec t "") as [Et|Et],
           (String.eqb_spec t' "") as [Et'|Et'].
  - reflexivity.
  - exfalso. apply Et'. apply lower_vacio. rewrite <- H, Et. reflexivity.
  - exfalso. apply Et. apply lower_vacio. rewrite H, Et'. reflexivity.
  - cbn [forallb cumple_cancion]. unfold ilike.
    cbn [append lower]. rewrite !lower_append, H. reflexivity.
Qed.

(** X13.  The search does not look at the case of its text parameters:
    two requests whose titles, artists and genres differ only in the
    case of ASCII letters get the same answer, whatever else the texts
    contain. *)
Theorem X13_buscar_sin_distinguir_mayusculas :
  forall (db : DB) (titulo titulo' artista artista' genero genero'
            : option string) (año skip limit : option Z),
    option_map lower titulo = option_map lower titulo' ->
    option_map lower artista = option_map lower artista' ->
    option_map lower genero = option_map lower genero' ->
    buscar_canciones db titulo artista genero año skip limit
    = buscar_canciones db titulo' artista' genero' año skip limit.
Proof.
  intros db titulo titulo' artista artista' genero genero' año skip limit
    Ht Ha Hg.
  rewrite !buscar_canciones_consulta. unfold session_exec.
  cbn [q_where q_offset q_limit]. do 3 f_equal.
  apply filter_ext. intros c. rewrite !forallb_app.
  rewrite (cond_texto_lower _ titulo titulo' c Ht),
    (cond_texto_lower _ artista artista' c Ha),
    (cond_texto_lower _ genero genero' c Hg).
  reflexivity.
Qed.

Lemma X13_buscar_sin_distinguir_mayusculas_witness :
  buscar_canciones db_ejemplo None (Some "QUEEN") (Some "pOp") None None None
  = buscar_canciones db_ejemplo None (Some "queen") (Some "POP") None None
      None.
Proof.
  apply X13_buscar_sin_distinguir_mayusculas; reflexivity.
Defined.

(** ** Update followed by a fetch *)

Lemma fold_setattr_usuario_id (l : list AsignaUsuario) (o : ObjUsuario) :
  ou_id (fold_left setattr_usuario l o) = ou_id o.
Proof.
  revert o. induction l as [|a l IH]; intros o; [reflexivity|].
  simpl. rewrite IH. destruct a; reflexivity.
Qed.

Lemma fold_setattr_cancion_id (l : list AsignaCancion) (o : ObjCancion) :
  oc_id (fold_left setattr_cancion l o) = oc_id o.
Proof.
  revert o. induction l as [|a l IH]; intros o; [reflexivity|].
  simpl. rewrite IH. destruct a; reflexivity.
Qed.

Lemma update_cancion_Hecho_forma (db db' : DB) (o : ObjCancion)
    (fila : Cancion.t) :
  update_cancion db o = Hecho (db', fila) ->
  Cancion.id fila = oc_id o
  /\ db' = con_canciones db
             (map (fun c => if Cancion.id c =? oc_id o then fila else c)
                  (canciones db)).
Proof.
  destruct o as [i [t|] [a|] [al|] [d|] [y|] [g|] fc]; simpl;
    intros H; try discriminate.
  injection H as <- <-. split; reflexivity.
Qed.

(** Replacing, in a table, the rows under one key by a row under the
    same key: that key now finds the new row, if it found any, and the
    other keys find what they found. *)
Lemma find_reemplazo {F} (id : F -> Z) (k : Z) (fila : F) (l : list F) :
  id fila = k ->
  (In k (map id l) ->
   find (fun r => id r =? k) (map (fun r => if id r =? k then fila else r) l)
   = Some fila)
  /\ forall j, j <> k ->
       find (fun r => id r =? j)
         (map (fun r => if id r =? k then fila else r) l)
       = find (fun r => id r =? j) l.
Proof.
  intros Hk. split.
  - induction l as [|a l IH]; simpl; [intros []|].
    intros Hin. destruct (Z.eqb_spec (id a) k) as [E|E].
    + rewrite Hk, Z.eqb_refl. reflexivity.
    + apply Z.eqb_neq in E. rewrite E. apply IH.
      destruct Hin as [Hin|Hin]; [|exact Hin].
      apply Z.eqb_neq in E. contradiction.
  - intros j Hj. induction l as [|a l IH]; simpl; [reflexivity|].
    destruct (Z.eqb_spec (id a) k) as [E|E].
    + rewrite Hk. destruct (Z.eqb_spec k j) as [E'|E']; [congruence|].
      destruct (Z.eqb_spec (id a) j) as [E''|E'']; [congruence|]. exact IH.
    + destruct (id a =? j); [reflexivity | exact IH].
Qed.

(** X14.  A user or a song that was updated with 200 is fetched back,
    under its key, as the row the update returned; every other key
    fetches what it fetched before the update, and the other tables are
    untouched. *)
Theorem X14_actualizar_y_obtener :
  forall (db db' : DB) (k : Z),
    (forall up fila,
        actualizar_usuario k up db = (Exito HTTP_200_OK fila, db') ->
        obtener_usuario db' k = Exito HTTP_200_OK fila
        /\ (forall j, j <> k -> obtener_usuario db' j = obtener_usuario db j)
        /\ canciones db' = canciones db /\ favoritos db' = favoritos db)
    /\ (forall up fila,
          actualizar_cancion k up db = (Exito HTTP_200_OK fila, db') ->
          obtener_cancion db' k = Exito HTTP_200_OK fila
          /\ (forall j, j <> k ->
                obtener_cancion db' j = obtener_cancion db j)
          /\ usuarios db' = usuarios db /\ favoritos db' = favoritos db).
Proof.
  intros db db' k. split.
  - intros up fila H. unfold actualizar_usuario in H.
    destruct (get_usuario db k) as [u|] eqn:Eg; [|discriminate].
    destruct (update_usuario db _) as [[db1 fila1]|[]] eqn:Eu;
      [|discriminate].
    injection H as -> ->.
    apply update_usuario_Hecho in Eu. destruct Eu as [Hid [_ ->]].
    rewrite fold_setattr_usuario_id in Hid |- *.
    destruct (get_usuario_id _ _ _ Eg) as [Hk Hin].
    cbn [cargar_usuario ou_id] in Hid |- *. rewrite Hk in Hid |- *.
    destruct (find_reemplazo Usuario.id k fila (usuarios db) Hid)
      as [H1 H2].
    unfold obtener_usuario, get_usuario. cbn [usuarios con_usuarios].
    rewrite H1 by (rewrite <- Hk; apply in_map; exact Hin).
    repeat split. intros j Hj. rewrite (H2 j Hj). reflexivity.
  - intros up fila H. unfold actualizar_cancion in H.
    destruct (get_cancion db k) as [c|] eqn:Eg; [|discriminate].
    destruct (update_cancion db _) as [[db1 fila1]|e] eqn:Eu;
      [|discriminate].
    injection H as -> ->.
    apply update_cancion_Hecho_forma in Eu. destruct Eu as [Hid ->].
    rewrite fold_setattr_cancion_id in Hid |- *.
    destruct (get_cancion_id _ _ _ Eg) as [Hk Hin].
    cbn [cargar_cancion oc_id] in Hid |- *. rewrite Hk in Hid |- *.
    destruct (find_reemplazo Cancion.id k fila (canciones db) Hid)
      as [H1 H2].
    unfold obtener_cancion, get_cancion. cbn [canciones con_canciones].
    rewrite H1 by (rewrite <- Hk; apply in_map; exact Hin).
    repeat split. intros j Hj. rewrite (H2 j Hj). reflexivity.
Qed.

Lemma X14_actualizar_y_obtener_witness :
  let up := mkCancionUpdate NoEnviado NoEnviado NoEnviado (Enviado (Some 210))
              NoEnviado NoEnviado in
  obtener_cancion (snd (actualizar_cancion 2 up db_ejemplo)) 2
  = Exito HTTP_200_OK (Cancion.mk 2 "abc" "Queen" "Al" 210 2000 "Pop" 21)
  /\ obtener_cancion (snd (actualizar_cancion 2 up db_ejemplo)) 1
     = obtener_cancion db_ejemplo 1.
Proof.
  cbn zeta.
  destruct (proj2 (X14_actualizar_y_obtener db_ejemplo
                     (snd (actualizar_cancion 2
                             (mkCancionUpdate NoEnviado NoEnviado NoEnviado
                                (Enviado (Some 210)) NoEnviado NoEnviado)
                             db_ejemplo)) 2)
              (mkCancionUpdate NoEnviado NoEnviado NoEnviado
                 (Enviado (Some 210)) NoEnviado NoEnviado)
              (Cancion.mk 2 "abc" "Queen" "Al" 210 2000 "Pop" 21) eq_refl)
    as [H1 [H2 _]].
  split; [exact H1|]. apply H2. discriminate.
Defined.

(** ** What every served request does to the store *)

Lemma crear_usuario_transicion (ahora : datetime) (usuario : UsuarioCreate)
    (db : DB) :
  transicion db (snd (crear_usuario ahora usuario db)).
Proof.
  destruct (correo_registrado db (uc_correo usuario)) eqn:E.
  - rewrite crear_usuario_repetido by exact E. apply t_igual.
  - rewrite crear_usuario_nuevo by exact E. apply t_usuario_nuevo.
    reflexivity.
Qed.

Lemma actualizar_usuario_transicion (k : Z) (up : UsuarioUpdate) (db : DB) :
  transicion db (snd (actualizar_usuario k up db)).
Proof.
  unfold actualizar_usuario.
  destruct (get_usuario db k) as [u|]; [|apply t_igual].
  destruct (update_usuario db _) as [[db' fila]|[]] eqn:E; [|apply t_igual].
  apply update_usuario_Hecho in E. destruct E as [Hid [_ ->]].
  apply t_usuario_cambia. exact Hid.
Qed.

Lemma eliminar_usuario_transicion (k : Z) (db : DB) :
  transicion db (snd (eliminar_usuario k db)).
Proof.
  unfold eliminar_usuario, delete_usuario.
  destruct (get_usuario db k) as [u|]; [|apply t_igual].
  destruct (existsb _ _) eqn:E; [apply t_igual|].
  apply t_usuario_borra. exact E.
Qed.

Lemma crear_cancion_transicion (ahora : datetime) (c : CancionCreate)
    (db : DB) :
  transicion db (snd (crear_cancion ahora c db)).
Proof. apply t_cancion_nueva. reflexivity. Qed.

Lemma actualizar_cancion_transicion (k : Z) (up : CancionUpdate) (db : DB) :
  transicion db (snd (actualizar_cancion k up db)).
Proof.
  unfold actualizar_cancion.
  destruct (get_cancion db k) as [c|]; [|apply t_igual].
  destruct (update_cancion db _) as [[db' fila]|e] eqn:E; [|apply t_igual].
  apply update_cancion_Hecho_forma in E. destruct E as [Hid ->].
  apply t_cancion_cambia. exact Hid.
Qed.

Lemma eliminar_cancion_transicion (k : Z) (db : DB) :
  transicion db (snd (eliminar_cancion k db)).
Proof.
  unfold eliminar_cancion, delete_cancion.
  destruct (get_cancion db k) as [c|]; [|apply t_igual].
  destruct (existsb _ _) eqn:E; [apply t_igual|].
  apply t_cancion_borra. exact E.
Qed.

Lemma crear_favorito_transicion (ahora : datetime) (f : FavoritoCreate)
    (db : DB) :
  transicion db (snd (crear_favorito ahora f db)).
Proof.
  destruct f as [u c].
  destruct (get_usuario db u) as [fu|] eqn:Eu;
    [|rewrite crear_favorito_sin_usuario by exact Eu; apply t_igual].
  destruct (get_cancion db c) as [fc|] eqn:Ec;
    [|rewrite crear_favorito_sin_cancion by congruence; apply t_igual].
  destruct (par_marcado db u c) eqn:Ep.
  - rewrite crear_favorito_repetido by congruence. apply t_igual.
  - rewrite crear_favorito_nuevo by congruence.
    destruct (get_usuario_id _ _ _ Eu) as [Hu Hinu].
    destruct (get_cancion_id _ _ _ Ec) as [Hc Hinc].
    apply t_favorito_nuevo; cbn.
    + reflexivity.
    + rewrite <- Hu. apply in_map. exact Hinu.
    + rewrite <- Hc. apply in_map. exact Hinc.
Qed.

(** Every request leaves the store in one of the shapes of
    [transicion]. *)
Lemma atender_transicion (p : Peticion) (db : DB) :
  transicion db (atender p db).
Proof.
  destruct p; cbn [atender].
  - apply crear_usuario_transicion.
  - apply actualizar_usuario_transicion.
  - apply eliminar_usuario_transicion.
  - apply crear_cancion_transicion.
  - apply actualizar_cancion_transicion.
  - apply eliminar_cancion_transicion.
  - apply crear_favorito_transicion.
  - rewrite marcar_favorito_especifico_crear. apply crear_favorito_transicion.
  - unfold eliminar_favorito, delete_favorito.
    destruct (get_favorito db favorito_id); [apply t_favorito_borra|].
    apply t_igual.
  - unfold eliminar_favorito_especifico, delete_favorito.
    destruct (first _); [apply t_favorito_borra | apply t_igual].
Qed.

Lemma en_firstn {F} (n : nat) (l : list F) (x : F) :
  In x (firstn n l) -> In x l.
Proof.
  revert l. induction n as [|n IH]; intros [|a l]; simpl; try tauto.
  intros [H|H]; [left; exact H | right; apply IH; exact H].
Qed.

Lemma creciente_snoc (l : list Z) :
  StronglySorted Z.lt l -> StronglySorted Z.lt (l ++ [siguiente_id l]).
Proof.
  assert (G : forall l y, StronglySorted Z.lt l ->
                (forall x, In x l -> x < y) ->
                StronglySorted Z.lt (l ++ [y])).
  { clear l. induction l as [|a l IH]; intros y Hs Hy; simpl.
    - constructor; constructor.
    - apply StronglySorted_inv in Hs. destruct Hs as [Hs Ha].
      constructor.
      + apply IH; [exact Hs|]. intros x Hx. apply Hy. right. exact Hx.
      + apply Forall_app. split; [exact Ha|].
        constructor; [|constructor]. apply Hy. left. reflexivity. }
  intros Hs. apply G; [exact Hs|]. intros x Hx.
  apply siguiente_id_mayor. exact Hx.
Qed.

Lemma creciente_filter {F} (id : F -> Z) (p : F -> bool) (l : list F) :
  StronglySorted Z.lt (map id l) ->
  StronglySorted Z.lt (map id (filter p l)).
Proof.
  induction l as [|a l IH]; simpl; intros Hs; [constructor|].
  apply StronglySorted_inv in Hs. destruct Hs as [Hs Ha].
  destruct (p a); simpl; [|apply IH; exact Hs].
  constructor; [apply IH; exact Hs|].
  rewrite Forall_forall in *. intros x Hx. apply Ha.
  apply in_map_iff in Hx. destruct Hx as [r [Hr Hin]].
  apply filter_In in Hin. apply in_map_iff. exists r. tauto.
Qed.

Lemma map_id_reemplazo {F} (id : F -> Z) (k : Z) (fila : F) (l : list F) :
  id fila = k ->
  map id (map (fun r => if id r =? k then fila else r) l) = map id l.
Proof.
  intros Hk. induction l as [|a l IH]; simpl; [reflexivity|].
  rewrite IH. destruct (Z.eqb_spec (id a) k); congruence.
Qed.

Lemma StronglySorted_NoDup (l : list Z) :
  StronglySorted Z.lt l -> NoDup l.
Proof.
  induction l as [|a l IH]; intros Hs; [constructor|].
  apply StronglySorted_inv in Hs. destruct Hs as [Hs Ha].
  constructor; [|apply IH; exact Hs].
  intros Hin. rewrite Forall_forall in Ha. specialize (Ha a Hin). lia.
Qed.

Lemma transicion_ids_crecientes (db db' : DB) :
  transicion db db' -> ids_crecientes db -> ids_crecientes db'.
Proof.
  intros Ht [Hu [Hc Hf]].
  destruct Ht as [ |fila Hid|k fila Hid|k _|fila Hid|k fila Hid|k _
                  |fila Hid _ _|k];
    unfold ids_crecientes; cbn [usuarios canciones favoritos con_usuarios
                                con_canciones con_favoritos];
    repeat split; try assumption.
  - rewrite map_app. cbn [map]. rewrite Hid. apply creciente_snoc, Hu.
  - rewrite map_id_reemplazo by exact Hid. exact Hu.
  - apply creciente_filter, Hu.
  - rewrite map_app. cbn [map]. rewrite Hid. apply creciente_snoc, Hc.
  - rewrite map_id_reemplazo by exact Hid. exact Hc.
  - apply creciente_filter, Hc.
  - rewrite map_app. cbn [map]. rewrite Hid. apply creciente_snoc, Hf.
  - apply creciente_filter, Hf.
Qed.

Lemma creciente_skipn {F} (id : F -> Z) (n : nat) (l : list F) :
  StronglySorted Z.lt (map id l) ->
  StronglySorted Z.lt (map id (skipn n l)).
Proof.
  revert l. induction n as [|n IHn]; intros [|a l] Hs; simpl;
    try assumption.
  apply IHn. simpl in Hs. apply StronglySorted_inv in Hs. tauto.
Qed.

Lemma creciente_firstn {F} (id : F -> Z) (n : nat) (l : list F) :
  StronglySorted Z.lt (map id l) ->
  StronglySorted Z.lt (map id (firstn n l)).
Proof.
  revert l. induction n as [|n IHn]; intros [|a l] Hs; simpl;
    try constructor.
  - apply IHn. simpl in Hs. apply StronglySorted_inv in Hs. tauto.
  - simpl in Hs. apply StronglySorted_inv in Hs. destruct Hs as [_ Ha].
    rewrite Forall_forall in *. intros x Hx. apply Ha.
    apply in_map_iff in Hx. destruct Hx as [r [Hr Hin]].
    apply en_firstn in Hin. apply in_map_iff. exists r. tauto.
Qed.

(** What a query yields from a table read by ascending key is again by
    ascending key. *)
Lemma creciente_session_exec {F C} (id : F -> Z) (cumple : C -> F -> bool)
    (tabla : list F) (q : Consulta C) :
  StronglySorted Z.lt (map id tabla) ->
  StronglySorted Z.lt (map id (session_exec cumple tabla q)).
Proof.
  intros Hs. unfold session_exec, aplicar_limit, aplicar_offset.
  assert (H1 : StronglySorted Z.lt
                 (map id (filter (fun f => forallb (fun c => cumple c f)
                                              (q_where q)) tabla)))
    by (apply creciente_filter; exact Hs).
  destruct (q_offset q) as [n|].
  - apply (creciente_skipn id (Z.to_nat n)) in H1.
    destruct (q_limit q) as [m|]; [|exact H1].
    destruct (m <? 0); [exact H1 | apply creciente_firstn; exact H1].
  - destruct (q_limit q) as [m|]; [|exact H1].
    destruct (m <? 0); [exact H1 | apply creciente_firstn; exact H1].
Qed.

(** X15.  In every state the handlers reach from the empty store the
    keys of each table grow along the table: no key occurs twice, and
    the three lists and the search, which read the table in order,
    return their rows by ascending key. *)
Theorem X15_claves_crecientes :
  forall (db : DB),
    alcanzable db ->
    ids_crecientes db
    /\ NoDup (map Usuario.id (usuarios db))
    /\ NoDup (map Cancion.id (canciones db))
    /\ NoDup (map Favorito.id (favoritos db))
    /\ (forall skip limit filas,
          listar_usuarios db skip limit = Exito HTTP_200_OK filas ->
          StronglySorted Z.lt (map Usuario.id filas))
    /\ (forall skip limit filas,
          listar_canciones db skip limit = Exito HTTP_200_OK filas ->
          StronglySorted Z.lt (map Cancion.id filas))
    /\ (forall skip limit filas,
          listar_favoritos db skip limit = Exito HTTP_200_OK filas ->
          StronglySorted Z.lt (map Favorito.id filas))
    /\ (forall titulo artista genero año skip limit filas,
          buscar_canciones db titulo artista genero año skip limit
          = Exito HTTP_200_OK filas ->
          StronglySorted Z.lt (map Cancion.id filas)).
Proof.
  intros db H.
  assert (Hc : ids_crecientes db).
  { induction H as [|db p _ IH].
    - repeat split; constructor.
    - apply (transicion_ids_crecientes db); [apply atender_transicion|].
      exact IH. }
  split; [exact Hc|]. destruct Hc as [Hu [Hc Hf]].
  repeat split; try (apply StronglySorted_NoDup; assumption).
  - intros skip limit filas Hl. unfold listar_usuarios in Hl.
    injection Hl as <-. apply creciente_session_exec. exact Hu.
  - intros skip limit filas Hl. unfold listar_canciones in Hl.
    injection Hl as <-. apply creciente_session_exec. exact Hc.
  - intros skip limit filas Hl. unfold listar_favoritos in Hl.
    injection Hl as <-. apply creciente_session_exec. exact Hf.
  - intros titulo artista genero año skip limit filas Hl.
    rewrite buscar_canciones_consulta in Hl.
    injection Hl as <-. apply creciente_session_exec. exact Hc.
Qed.

Lemma X15_claves_crecientes_witness :
  ids_crecientes
    (atender (POST_usuario 11 (mkUsuarioCreate "Luis" "luis@x.com"))
       (atender (DELETE_usuario 1)
          (atender (POST_usuario 10 (mkUsuarioCreate "Ana" "ana@x.com"))
             db_vacia))).
Proof.
  apply X15_claves_crecientes.
  repeat apply alcanzable_paso. apply alcanzable_vacia.
Defined.

Lemma transicion_integridad (db db' : DB) :
  transicion db db' -> integridad_referencial db -> integridad_referencial db'.
Proof.
  intros Ht Hi.
  destruct Ht as [ |fila Hid|k fila Hid|k Hk|fila Hid|k fila Hid|k Hk
                  |fila Hid Hfu Hfc|k];
    unfold integridad_referencial;
    cbn [usuarios canciones favoritos con_usuarios con_canciones
         con_favoritos]; intros f Hf.
  - apply Hi, Hf.
  - destruct (Hi f Hf) as [H1 H2]. split; [|exact H2].
    rewrite map_app, in_app_iff. left. exact H1.
  - rewrite map_id_reemplazo by exact Hid. apply Hi, Hf.
  - destruct (Hi f Hf) as [H1 H2]. split; [|exact H2].
    apply in_map_iff in H1. destruct H1 as [r [Hr Hin]].
    apply in_map_iff. exists r. split; [exact Hr|].
    apply filter_In. split; [exact Hin|].
    apply negb_true_iff. apply Z.eqb_neq. intros E.
    unfold tiene_favoritos_usuario in Hk.
    assert (X : existsb (fun f => Favorito.id_usuario f =? k) (favoritos db)
                = true).
    { apply existsb_exists. exists f. split; [exact Hf|].
      apply Z.eqb_eq. congruence. }
    congruence.
  - destruct (Hi f Hf) as [H1 H2]. split; [exact H1|].
    rewrite map_app, in_app_iff. left. exact H2.
  - rewrite map_id_reemplazo by exact Hid. apply Hi, Hf.
  - destruct (Hi f Hf) as [H1 H2]. split; [exact H1|].
    apply in_map_iff in H2. destruct H2 as [r [Hr Hin]].
    apply in_map_iff. exists r. split; [exact Hr|].
    apply filter_In. split; [exact Hin|].
    apply negb_true_iff. apply Z.eqb_neq. intros E.
    unfold tiene_favoritos_cancion in Hk.
    assert (X : existsb (fun f => Favorito.id_cancion f =? k) (favoritos db)
                = true).
    { apply existsb_exists. exists f. split; [exact Hf|].
      apply Z.eqb_eq. congruence. }
    congruence.
  - apply in_app_iff in Hf. destruct Hf as [Hf|[<-|[]]].
    + apply Hi, Hf.
    + split; assumption.
  - apply filter_In in Hf. apply Hi. tauto.
Qed.

(** X16.  In every state the handlers reach from the empty store each
    favourite references a stored user and a stored song: a favourite
    is only created for rows that exist, and a referenced row is never
    removed.  So the user and the song of every listed favourite can be
    fetched. *)
Theorem X16_favoritos_sin_huerfanos :
  forall (db : DB),
    alcanzable db ->
    integridad_referencial db
    /\ forall f, In f (favoritos db) ->
         (exists u, obtener_usuario db (Favorito.id_usuario f)
                    = Exito HTTP_200_OK u)
         /\ (exists c, obtener_cancion db (Favorito.id_cancion f)
                       = Exito HTTP_200_OK c).
Proof.
  intros db H.
  assert (Hi : integridad_referencial db).
  { induction H as [|db p _ IH].
    - intros f [].
    - apply (transicion_integridad db); [apply atender_transicion|].
      exact IH. }
  split; [exact Hi|]. intros f Hf. destruct (Hi f Hf) as [Hu Hc].
  unfold obtener_usuario, obtener_cancion, get_usuario, get_cancion.
  destruct (find_id_Some Usuario.id _ _ Hu) as [u [Eu _]].
  destruct (find_id_Some Cancion.id _ _ Hc) as [c [Ec _]].
  rewrite Eu, Ec. split; eexists; reflexivity.
Qed.

Lemma X16_favoritos_sin_huerfanos_witness :
  integridad_referencial
    (atender (DELETE_usuario 1)
       (atender (POST_favorito 30 (mkFavoritoCreate 1 1))
          (atender (POST_cancion 20
                      (mkCancionCreate "T" "A" "Al" 200 2000 "Rock"))
             (atender (POST_usuario 10 (mkUsuarioCreate "Ana" "ana@x.com"))
                db_vacia)))).
Proof.
  apply X16_favoritos_sin_huerfanos.
  repeat apply alcanzable_paso. apply alcanzable_vacia.
Defined.

(** ** The bounds of a stored song *)

Lemma entre_iff (lo hi v : Z) : entre lo hi v = true <-> lo <= v <= hi.
Proof.
  unfold entre. rewrite andb_true_iff, !Z.leb_le. tauto.
Qed.

(** Splits a conjunction of six boolean checks, as the validations of
    the song models are. *)
Ltac partir_seis :=
  apply andb_true_iff; split;
  [apply andb_true_iff; split;
   [apply andb_true_iff; split;
    [apply andb_true_iff; split;
     [apply andb_true_iff; split | ] | ] | ] | ].

Lemma campo_nuevo_valido {A} (ok : A -> bool) (c : Campo A) (almacenado : A) :
  campo_valido ok c = true ->
  ok almacenado = true ->
  ok (campo_nuevo c almacenado) = true.
Proof. destruct c as [|[v|]]; simpl; auto. Qed.

Lemma campo_nuevo_año_valido (año_actual año_max : Z) (c : Campo Z)
    (almacenado : Z) :
  año_actual <= año_max ->
  CancionUpdate_año_valido año_actual c = true ->
  entre 1900 2100 almacenado && (almacenado <=? año_max) = true ->
  entre 1900 2100 (campo_nuevo c almacenado)
  && (campo_nuevo c almacenado <=? año_max) = true.
Proof.
  intros Hy Hv Ha. destruct c as [|[v|]]; simpl; try exact Ha.
  apply CancionUpdate_año_valido_iff in Hv.
  unfold entre. apply andb_true_iff. split.
  - apply andb_true_iff. split; apply Z.leb_le; lia.
  - apply Z.leb_le. lia.
Qed.

Lemma cancion_actualizada_en_rango (año_actual año_max : Z) (c : Cancion.t)
    (up : CancionUpdate) :
  año_actual <= año_max ->
  CancionUpdate_valida año_actual up = true ->
  cancion_en_rango año_max c = true ->
  cancion_en_rango año_max (cancion_actualizada c up) = true.
Proof.
  intros Hy Hv Hc. unfold CancionUpdate_valida in Hv.
  unfold cancion_en_rango in *. cbn [cancion_actualizada Cancion.titulo
    Cancion.artista Cancion.album Cancion.duracion Cancion.año
    Cancion.genero].
  do 5 (apply andb_true_iff in Hv; destruct Hv as [Hv ?]).
  apply andb_true_iff in Hc. destruct Hc as [Hc R6].
  apply andb_true_iff in Hc. destruct Hc as [Hc R5].
  apply andb_true_iff in Hc. destruct Hc as [Hc R4].
  apply andb_true_iff in Hc. destruct Hc as [Hc R3].
  apply andb_true_iff in Hc. destruct Hc as [R1 R2].
  partir_seis.
  - apply (campo_nuevo_valido (fun s => entre 1 200 (len s))); assumption.
  - apply (campo_nuevo_valido (fun s => entre 1 100 (len s))); assumption.
  - apply (campo_nuevo_valido (fun s => entre 1 200 (len s))); assumption.
  - apply (campo_nuevo_valido (fun d => (0 <? d) && (d <? 3600)));
      assumption.
  - apply (campo_nuevo_año_valido año_actual); assumption.
  - apply (campo_nuevo_valido (fun s => entre 1 50 (len s))); assumption.
Qed.

Lemma CancionCreate_valida_en_rango (año_actual año_max : Z)
    (c : CancionCreate) (k : Z) (ahora : datetime) :
  año_actual <= año_max ->
  CancionCreate_valida año_actual c = true ->
  cancion_en_rango año_max
    (Cancion.mk k (cc_titulo c) (cc_artista c) (cc_album c) (cc_duracion c)
       (cc_año c) (cc_genero c) ahora) = true.
Proof.
  intros Hy Hv. unfold CancionCreate_valida in Hv. unfold cancion_en_rango.
  cbn [Cancion.titulo Cancion.artista Cancion.album Cancion.duracion
       Cancion.año Cancion.genero].
  do 5 (apply andb_true_iff in Hv; destruct Hv as [Hv ?]).
  partir_seis; try assumption.
  match goal with
  | H : CancionBase_año_valido _ _ = true |- _ =>
      apply CancionBase_año_valido_iff in H
  end.
  apply andb_true_iff. split; [apply entre_iff | apply Z.leb_le]; lia.
Qed.

(** X17.  The bounds of the song model hold of what is stored: if every
    stored song is within them, with a year no later than [año_max],
    then so is every stored song after a creation or an update
    validated in a year up to [año_max], and after a deletion. *)
Theorem X17_canciones_almacenadas_en_rango :
  forall (año_max año_actual : Z) (db : DB),
    año_actual <= año_max ->
    canciones_en_rango año_max db ->
    (forall ahora cuerpo,
        canciones_en_rango año_max
          (snd (POST_canciones año_actual ahora cuerpo db)))
    /\ (forall k cuerpo,
          canciones_en_rango año_max
            (snd (PUT_canciones año_actual k cuerpo db)))
    /\ (forall k, canciones_en_rango año_max (snd (eliminar_cancion k db))).
Proof.
  intros año_max año_actual db Hy Hdb. split; [|split].
  - intros ahora cuerpo. unfold POST_canciones.
    destruct (CancionCreate_valida año_actual cuerpo) eqn:V; [|exact Hdb].
    unfold crear_cancion, add_cancion, canciones_en_rango.
    cbn [snd canciones con_canciones].
    apply Forall_app. split; [exact Hdb|].
    constructor; [|constructor].
    apply (CancionCreate_valida_en_rango año_actual); assumption.
  - intros k cuerpo. unfold PUT_canciones.
    destruct (CancionUpdate_valida año_actual cuerpo) eqn:V; [|exact Hdb].
    destruct (get_cancion db k) as [c|] eqn:Eg;
      [|rewrite actualizar_cancion_no_existe by exact Eg; exact Hdb].
    destruct (CancionUpdate_sin_null cuerpo) eqn:N.
    + rewrite (actualizar_cancion_hecho db k c cuerpo Eg N).
      unfold canciones_en_rango in *. cbn [snd canciones con_canciones].
      destruct (get_cancion_id _ _ _ Eg) as [_ Hin].
      rewrite Forall_forall in *. intros x Hx.
      apply in_map_iff in Hx. destruct Hx as [r [Hr Hrin]].
      destruct (Cancion.id r =? k); subst x.
      * apply (cancion_actualizada_en_rango año_actual); try assumption.
        apply Hdb. exact Hin.
      * apply Hdb. exact Hrin.
    + unfold actualizar_cancion. rewrite Eg.
      rewrite (fold_setattr_cancion_null c cuerpo db N). exact Hdb.
  - intros k. unfold eliminar_cancion, delete_cancion.
    destruct (get_cancion db k) as [c|]; [|exact Hdb].
    destruct (existsb _ _); [exact Hdb|].
    unfold canciones_en_rango in *. cbn [snd canciones con_canciones].
    rewrite Forall_forall in *. intros x Hx. apply filter_In in Hx.
    apply Hdb. tauto.
Qed.

Lemma X17_canciones_almacenadas_en_rango_witness :
  canciones_en_rango 2026
    (snd (PUT_canciones 2026 2
            (mkCancionUpdate NoEnviado NoEnviado NoEnviado
               (Enviado (Some 3599)) (Enviado (Some 2026)) NoEnviado)
            db_ejemplo)).
Proof.
  apply (X17_canciones_almacenadas_en_rango 2026 2026 db_ejemplo).
  - lia.
  - unfold canciones_en_rango. simpl.
    constructor; [reflexivity|]. constructor; [reflexivity|]. constructor.
Defined.

(** X18.  A song body reaches the creation handler exactly when all its
    fields are within the bounds of the model: texts of 1 to 200
    (title, album), 1 to 100 (artist) and 1 to 50 (genre) characters, a
    duration from 1 to 3599 seconds, a year from 1900 to 2100 and not
    after the current one.  Any other body is answered 422 and nothing
    is written. *)
Theorem X18_cuerpo_de_cancion_en_rango :
  forall (año_actual : Z) (ahora : datetime) (c : CancionCreate) (db : DB),
    let en_rango :=
      1 <= len (cc_titulo c) <= 200
      /\ 1 <= len (cc_artista c) <= 100
      /\ 1 <= len (cc_album c) <= 200
      /\ 0 < cc_duracion c < 3600
      /\ 1900 <= cc_año c <= 2100
      /\ cc_año c <= año_actual
      /\ 1 <= len (cc_genero c) <= 50 in
    (en_rango ->
       POST_canciones año_actual ahora c db = crear_cancion ahora c db)
    /\ (~ en_rango ->
        es_ValidationError (fst (POST_canciones año_actual ahora c db))
        /\ snd (POST_canciones año_actual ahora c db) = db).
Proof.
  intros año_actual ahora c db. cbn zeta.
  assert (R : CancionCreate_valida año_actual c = true
              <-> (1 <= len (cc_titulo c) <= 200
                   /\ 1 <= len (cc_artista c) <= 100
                   /\ 1 <= len (cc_album c) <= 200
                   /\ 0 < cc_duracion c < 3600
                   /\ 1900 <= cc_año c <= 2100
                   /\ cc_año c <= año_actual
                   /\ 1 <= len (cc_genero c) <= 50)).
  { unfold CancionCreate_valida.
    rewrite !andb_true_iff, !entre_iff, CancionBase_año_valido_iff,
      !Z.ltb_lt. tauto. }
  unfold POST_canciones. split.
  - intros H. apply R in H. rewrite H. reflexivity.
  - intros H. destruct (CancionCreate_valida año_actual c) eqn:V.
    + exfalso. apply H. apply R. reflexivity.
    + error_sin_cambios.
Qed.

Lemma X18_cuerpo_de_cancion_en_rango_witness :
  POST_canciones 2026 60 (mkCancionCreate "T" "A" "Al" 3599 1900 "Rock")
    db_ejemplo
  = crear_cancion 60 (mkCancionCreate "T" "A" "Al" 3599 1900 "Rock")
      db_ejemplo
  /\ es_ValidationError
       (fst (POST_canciones 2026 60
               (mkCancionCreate "T" "A" "Al" 3600 1900 "Rock") db_ejemplo))
  /\ POST_canciones 2026 60
       (mkCancionCreate "Canción" "Ñu" "Al" 240 2020
          "ññññññññññññññññññññññññññññññ") db_ejemplo
     = crear_cancion 60
         (mkCancionCreate "Canción" "Ñu" "Al" 240 2020
            "ññññññññññññññññññññññññññññññ") db_ejemplo.
Proof.
  split; [|split].
  - apply (proj1 (X18_cuerpo_de_cancion_en_rango 2026 60
                    (mkCancionCreate "T" "A" "Al" 3599 1900 "Rock")
                    db_ejemplo)).
    vm_compute. repeat split; discriminate.
  - apply (proj2 (X18_cuerpo_de_cancion_en_rango 2026 60
                    (mkCancionCreate "T" "A" "Al" 3600 1900 "Rock")
                    db_ejemplo)).
    cbn. lia.
  - apply (proj1 (X18_cuerpo_de_cancion_en_rango 2026 60
                    (mkCancionCreate "Canción" "Ñu" "Al" 240 2020
                       "ññññññññññññññññññññññññññññññ") db_ejemplo)).
    vm_compute. repeat split; discriminate.
Defined.

(** ** Sending the same update twice *)

Lemma alcanzable_ids_crecientes (db : DB) :
  alcanzable db -> ids_crecientes db.
Proof.
  induction 1 as [|db p _ IH].
  - repeat split; constructor.
  - apply (transicion_ids_crecientes db); [apply atender_transicion|].
    exact IH.
Qed.

Lemma reemplazo_propio {F} (id : F -> Z) (k : Z) (fila : F) (l : list F) :
  NoDup (map id l) -> In fila l -> id fila = k ->
  map (fun r => if id r =? k then fila else r) l = l.
Proof.
  intros Hnd Hin Hk. rewrite <- (map_id l) at 2.
  apply map_ext_in. intros r Hr.
  destruct (Z.eqb_spec (id r) k) as [E|E]; [|reflexivity].
  apply (NoDup_map_inyectiva id l); try assumption. congruence.
Qed.

Lemma correo_de_otro_propio (db : DB) (u : Usuario.t) :
  correos_unicos db -> In u (usuarios db) ->
  correo_de_otro db (Usuario.id u) (Usuario.correo u) = false.
Proof.
  intros Hnd Hin. unfold correo_de_otro.
  destruct (existsb _ _) eqn:E; [|reflexivity]. exfalso.
  apply existsb_exists in E. destruct E as [r [Hr Hp]].
  apply andb_true_iff in Hp. destruct Hp as [Hid Hco].
  apply String.eqb_eq in Hco.
  assert (Er : r = u)
    by (apply (NoDup_map_inyectiva Usuario.correo (usuarios db));
        assumption).
  subst r. rewrite Z.eqb_refl in Hid. discriminate.
Qed.

Lemma usuario_actualizado_idem (u : Usuario.t) (up : UsuarioUpdate) :
  usuario_actualizado (usuario_actualizado u up) up = usuario_actualizado u up.
Proof. destruct up as [[|[n|]] [|[c|]]]; reflexivity. Qed.

Lemma cancion_actualizada_idem (c : Cancion.t) (up : CancionUpdate) :
  cancion_actualizada (cancion_actualizada c up) up = cancion_actualizada c up.
Proof.
  destruct up as [[|[t|]] [|[a|]] [|[al|]] [|[d|]] [|[y|]] [|[g|]]];
    reflexivity.
Qed.

Lemma con_usuarios_mismo (db : DB) : con_usuarios db (usuarios db) = db.
Proof. destruct db; reflexivity. Qed.

Lemma con_canciones_mismo (db : DB) : con_canciones db (canciones db) = db.
Proof. destruct db; reflexivity. Qed.

Lemma actualizar_usuario_get (db db' : DB) (k : Z) (up : UsuarioUpdate)
    (fila : Usuario.t) :
  actualizar_usuario k up db = (Exito HTTP_200_OK fila, db') ->
  get_usuario db' k = Some fila.
Proof.
  intros H. unfold actualizar_usuario in H.
  destruct (get_usuario db k) as [u|] eqn:Eg; [|discriminate].
  destruct (update_usuario db _) as [[db1 fila1]|[]] eqn:Eu; [|discriminate].
  injection H as -> ->.
  apply update_usuario_Hecho in Eu. destruct Eu as [Hid [_ ->]].
  rewrite fold_setattr_usuario_id in Hid |- *.
  destruct (get_usuario_id _ _ _ Eg) as [Hk Hin].
  cbn [cargar_usuario ou_id] in Hid |- *. rewrite Hk in Hid |- *.
  unfold get_usuario. cbn [usuarios con_usuarios].
  apply (find_reemplazo Usuario.id k fila (usuarios db) Hid).
  rewrite <- Hk. apply in_map. exact Hin.
Qed.

Lemma actualizar_cancion_get (db db' : DB) (k : Z) (up : CancionUpdate)
    (fila : Cancion.t) :
  actualizar_cancion k up db = (Exito HTTP_200_OK fila, db') ->
  get_cancion db' k = Some fila.
Proof.
  intros H. unfold actualizar_cancion in H.
  destruct (get_cancion db k) as [c|] eqn:Eg; [|discriminate].
  destruct (update_cancion db _) as [[db1 fila1]|e] eqn:Eu; [|discriminate].
  injection H as -> ->.
  apply update_cancion_Hecho_forma in Eu. destruct Eu as [Hid ->].
  rewrite fold_setattr_cancion_id in Hid |- *.
  destruct (get_cancion_id _ _ _ Eg) as [Hk Hin].
  cbn [cargar_cancion oc_id] in Hid |- *. rewrite Hk in Hid |- *.
  unfold get_cancion. cbn [canciones con_canciones].
  apply (find_reemplazo Cancion.id k fila (canciones db) Hid).
  rewrite <- Hk. apply in_map. exact Hin.
Qed.

(** An update of a user that succeeded had a body without [null] and
    gave the row the values of the body. *)
Lemma actualizar_usuario_Exito (db db' : DB) (k : Z) (up : UsuarioUpdate)
    (fila : Usuario.t) :
  actualizar_usuario k up db = (Exito HTTP_200_OK fila, db') ->
  exists u,
    get_usuario db k = Some u
    /\ UsuarioUpdate_sin_null up = true
    /\ fila = usuario_actualizado u up.
Proof.
  intros H. destruct (get_usuario db k) as [u|] eqn:Eg;
    [|rewrite actualizar_usuario_no_existe in H by exact Eg; discriminate].
  exists u. split; [reflexivity|].
  destruct (UsuarioUpdate_sin_null up) eqn:N.
  - split; [reflexivity|].
    destruct (correo_de_otro db k
                (campo_nuevo (uu_correo up) (Usuario.correo u))) eqn:Ec.
    + rewrite (actualizar_usuario_conflicto db k u up Eg N Ec) in H.
      discriminate.
    + rewrite (actualizar_usuario_hecho db k u up Eg N Ec) in H.
      injection H as <- _. reflexivity.
  - unfold actualizar_usuario in H. rewrite Eg in H.
    rewrite (fold_setattr_usuario_null u up db N) in H. discriminate.
Qed.

Lemma actualizar_cancion_Exito (db db' : DB) (k : Z) (up : CancionUpdate)
    (fila : Cancion.t) :
  actualizar_cancion k up db = (Exito HTTP_200_OK fila, db') ->
  exists c,
    get_cancion db k = Some c
    /\ CancionUpdate_sin_null up = true
    /\ fila = cancion_actualizada c up.
Proof.
  intros H. destruct (get_cancion db k) as [c|] eqn:Eg;
    [|rewrite actualizar_cancion_no_existe in H by exact Eg; discriminate].
  exists c. split; [reflexivity|].
  destruct (CancionUpdate_sin_null up) eqn:N.
  - split; [reflexivity|].
    rewrite (actualizar_cancion_hecho db k c up Eg N) in H.
    injection H as <- _. reflexivity.
  - unfold actualizar_cancion in H. rewrite Eg in H.
    rewrite (fold_setattr_cancion_null c up db N) in H. discriminate.
Qed.

(** X20.  In a state the handlers reach, an update that succeeded can be
    sent again: the second request is answered 200 with the same row
    and leaves the store as the first one left it.  This holds for
    users and for songs. *)
Theorem X20_actualizar_dos_veces :
  forall (db db' : DB) (k : Z),
    alcanzable db ->
    (forall up fila,
        actualizar_usuario k up db = (Exito HTTP_200_OK fila, db') ->
        actualizar_usuario k up db' = (Exito HTTP_200_OK fila, db'))
    /\ (forall up fila,
          actualizar_cancion k up db = (Exito HTTP_200_OK fila, db') ->
          actualizar_cancion k up db' = (Exito HTTP_200_OK fila, db')).
Proof.
  intros db db' k Hdb. split.
  - intros up fila H.
    assert (Hdb' : alcanzable db').
    { replace db' with (atender (PUT_usuario k up) db)
        by (cbn [atender]; rewrite H; reflexivity).
      apply alcanzable_paso. exact Hdb. }
    pose proof (alcanzable_invariante db' Hdb') as [Hid [Hco _]].
    destruct (actualizar_usuario_Exito db db' k up fila H)
      as [u [_ [N Hfila]]].
    assert (Hget : get_usuario db' k = Some fila)
      by exact (actualizar_usuario_get db db' k up fila H).
    destruct (get_usuario_id _ _ _ Hget) as [Hk Hin].
    assert (Hact : usuario_actualizado fila up = fila)
      by (rewrite Hfila; apply usuario_actualizado_idem).
    rewrite (actualizar_usuario_hecho db' k fila up Hget N).
    + rewrite Hact. rewrite (reemplazo_propio Usuario.id k fila);
        try assumption. rewrite con_usuarios_mismo. reflexivity.
    + replace (campo_nuevo (uu_correo up) (Usuario.correo fila))
        with (Usuario.correo (usuario_actualizado fila up)) by reflexivity.
      rewrite Hact, <- Hk. apply correo_de_otro_propio; assumption.
  - intros up fila H.
    assert (Hdb' : alcanzable db').
    { replace db' with (atender (PUT_cancion k up) db)
        by (cbn [atender]; rewrite H; reflexivity).
      apply alcanzable_paso. exact Hdb. }
    pose proof (alcanzable_ids_crecientes db' Hdb') as [_ [Hc _]].
    apply StronglySorted_NoDup in Hc.
    destruct (actualizar_cancion_Exito db db' k up fila H)
      as [c [_ [N Hfila]]].
    assert (Hget : get_cancion db' k = Some fila)
      by exact (actualizar_cancion_get db db' k up fila H).
    destruct (get_cancion_id _ _ _ Hget) as [Hk Hin].
    assert (Hact : cancion_actualizada fila up = fila)
      by (rewrite Hfila; apply cancion_actualizada_idem).
    rewrite (actualizar_cancion_hecho db' k fila up Hget N).
    rewrite Hact. rewrite (reemplazo_propio Cancion.id k fila);
      try assumption. rewrite con_canciones_mismo. reflexivity.
Qed.

Lemma X20_actualizar_dos_veces_witness :
  let up := mkUsuarioUpdate (Enviado (Some "Ana María")) NoEnviado in
  let db0 :=
    atender (POST_usuario 10 (mkUsuarioCreate "Ana" "ana@x.com")) db_vacia in
  actualizar_usuario 1 up (snd (actualizar_usuario 1 up db0))
  = actualizar_usuario 1 up db0.
Proof.
  cbn zeta.
  apply (proj1 (X20_actualizar_dos_veces
                  (atender (POST_usuario 10
                              (mkUsuarioCreate "Ana" "ana@x.com")) db_vacia)
                  (snd (actualizar_usuario 1
                          (mkUsuarioUpdate (Enviado (Some "Ana María"))
                             NoEnviado)
                          (atender (POST_usuario 10
                                      (mkUsuarioCreate "Ana" "ana@x.com"))
                             db_vacia)))
                  1
                  (alcanzable_paso _ _ alcanzable_vacia))
           (mkUsuarioUpdate (Enviado (Some "Ana María")) NoEnviado)
           (Usuario.mk 1 "Ana María" "ana@x.com" 10)).
  reflexivity.
Defined.

(** ** Seeding the users *)

Lemma correo_registrado_snoc (db : DB) (u : Usuario.t) (c : string) :
  correo_registrado (con_usuarios db (usuarios db ++ [u])) c
  = correo_registrado db c || (Usuario.correo u =? c)%string.
Proof.
  unfold correo_registrado. cbn [usuarios con_usuarios].
  rewrite existsb_app. cbn [existsb]. rewrite orb_false_r. reflexivity.
Qed.

(** One stored [correo] among those to add undoes the whole commit. *)
Lemma add_all_usuarios_registrado (nuevos : list UsuarioCreate) :
  forall (db : DB) (reloj : nat -> datetime),
    (exists n, In n nuevos /\ correo_registrado db (uc_correo n) = true) ->
    add_all_usuarios db nuevos reloj = Lanza IntegrityError.
Proof.
  induction nuevos as [|a nuevos IH]; intros db reloj [n [Hin Hn]];
    [destruct Hin|].
  cbn [add_all_usuarios]. unfold add_usuario.
  fold (correo_registrado db (uc_correo a)).
  destruct (correo_registrado db (uc_correo a)) eqn:Ea; [reflexivity|].
  destruct Hin as [->|Hin]; [congruence|].
  rewrite IH; [reflexivity|].
  exists n. split; [exact Hin|].
  rewrite correo_registrado_snoc, Hn. reflexivity.
Qed.

(** Distinct addresses, none of them stored: all the rows are added, in
    order, after the rows of the table. *)
Lemma add_all_usuarios_nuevos (nuevos : list UsuarioCreate) :
  forall (db : DB) (reloj : nat -> datetime),
    NoDup (map uc_correo nuevos) ->
    (forall n, In n nuevos -> correo_registrado db (uc_correo n) = false) ->
    exists db' filas,
      add_all_usuarios db nuevos reloj = Hecho (db', filas)
      /\ db' = con_usuarios db (usuarios db ++ filas)
      /\ map Usuario.nombre filas = map uc_nombre nuevos
      /\ map Usuario.correo filas = map uc_correo nuevos.
Proof.
  induction nuevos as [|a nuevos IH]; intros db reloj Hnd Hno.
  - exists db, []. cbn. rewrite app_nil_r, con_usuarios_mismo. auto.
  - cbn [add_all_usuarios]. unfold add_usuario.
    fold (correo_registrado db (uc_correo a)).
    rewrite (Hno a (or_introl eq_refl)).
    cbn [map] in Hnd. apply NoDup_cons_iff in Hnd. destruct Hnd as [Ha Hnd].
    set (u := Usuario.mk _ _ _ _).
    destruct (IH (con_usuarios db (usuarios db ++ [u]))
                (fun i => reloj (S i)) Hnd) as [db' [filas [E [Hdb [Hn Hc]]]]].
    + intros n Hin. rewrite correo_registrado_snoc.
      rewrite (Hno n (or_intror Hin)). cbn [orb Usuario.correo u].
      apply String.eqb_neq. intros Eq. apply Ha. rewrite Eq.
      apply in_map. exact Hin.
    + rewrite E. exists db', (u :: filas). split; [reflexivity|].
      split; [|split].
      * rewrite Hdb. cbn [usuarios con_usuarios]. unfold con_usuarios.
        cbn [canciones favoritos]. rewrite <- app_assoc. reflexivity.
      * cbn [map]. rewrite Hn. reflexivity.
      * cbn [map]. rewrite Hc. reflexivity.
Qed.

(** X19.  Seeding the five sample users is all or nothing.  If one of
    their addresses is already stored the commit raises and no user is
    added.  Otherwise the five rows are appended after the stored
    users, in the order of the script, and the other tables are
    untouched; seeding the users once more then raises. *)
Theorem X19_poblar_usuarios_todo_o_nada :
  forall (reloj : nat -> datetime) (db : DB),
    ((exists n, In n usuarios_de_ejemplo
                /\ correo_registrado db (uc_correo n) = true) ->
     poblar_usuarios reloj db = Lanza IntegrityError)
    /\ ((forall n, In n usuarios_de_ejemplo ->
                   correo_registrado db (uc_correo n) = false) ->
        exists db' filas,
          poblar_usuarios reloj db = Hecho (db', filas)
          /\ db' = con_usuarios db (usuarios db ++ filas)
          /\ map Usuario.nombre filas = map uc_nombre usuarios_de_ejemplo
          /\ map Usuario.correo filas = map uc_correo usuarios_de_ejemplo
          /\ forall reloj',
               poblar_usuarios reloj' db' = Lanza IntegrityError).
Proof.
  intros reloj db. unfold poblar_usuarios. split.
  - apply add_all_usuarios_registrado.
  - intros Hno.
    destruct (add_all_usuarios_nuevos usuarios_de_ejemplo db reloj)
      as [db' [filas [E [Hdb [Hn Hc]]]]].
    + cbn. repeat (constructor; [cbn; intuition discriminate|]).
      constructor.
    + exact Hno.
    + exists db', filas. repeat (split; [assumption|]).
      intros reloj'. apply add_all_usuarios_registrado.
      exists (mkUsuarioCreate "Juan Alejandro Ramirez"
                "juan.ramirez@musica.com").
      split; [left; reflexivity|].
      rewrite Hdb. unfold correo_registrado. cbn [usuarios con_usuarios].
      rewrite existsb_app. apply orb_true_iff. right.
      destruct filas as [|f filas]; [discriminate|].
      cbn [map] in Hc. injection Hc as Hf _.
      cbn [existsb uc_correo]. rewrite Hf. reflexivity.
Qed.

Lemma X19_poblar_usuarios_todo_o_nada_witness :
  poblar_usuarios (fun i => Z.of_nat i)
    (snd (crear_usuario 5
            (mkUsuarioCreate "Ana" "ana.martin@musica.com") db_vacia))
  = Lanza IntegrityError
  /\ exists db' filas,
       poblar_usuarios (fun i => Z.of_nat i) db_ejemplo = Hecho (db', filas)
       /\ map Usuario.correo filas = map uc_correo usuarios_de_ejemplo.
Proof.
  split.
  - apply (proj1 (X19_poblar_usuarios_todo_o_nada _ _)).
    exists (mkUsuarioCreate "Ana Martín" "ana.martin@musica.com").
    split; [right; right; right; left; reflexivity | reflexivity].
  - destruct (proj2 (X19_poblar_usuarios_todo_o_nada
                       (fun i => Z.of_nat i) db_ejemplo))
      as [db' [filas [E [_ [_ [Hc _]]]]]].
    + intros n Hn. cbn in Hn.
      repeat (destruct Hn as [<-|Hn]; [reflexivity|]). destruct Hn.
    + exists db', filas. split; [exact E | exact Hc].
Defined.

(** ** A row that was just created *)

Lemma alcanzable_integridad (db : DB) :
  alcanzable db -> integridad_referencial db.
Proof.
  induction 1 as [|db p _ IH].
  - intros f [].
  - apply (transicion_integridad db); [apply atender_transicion|].
    exact IH.
Qed.

Lemma existsb_false_todos {F} (p : F -> bool) (l : list F) :
  (forall x, In x l -> p x = false) -> existsb p l = false.
Proof.
  induction l as [|a l IH]; intros H; simpl; [reflexivity|].
  rewrite (H a (or_introl eq_refl)), IH; [reflexivity|].
  intros x Hx. apply H. right. exact Hx.
Qed.

Lemma filter_ninguno {F} (p : F -> bool) (l : list F) :
  existsb p l = false -> filter p l = [].
Proof.
  induction l as [|a l IH]; simpl; [reflexivity|].
  destruct (p a); simpl; [discriminate | exact IH].
Qed.

Lemma filter_quita_nuevo {F} (id : F -> Z) (l : list F) (x : F) :
  ~ In (id x) (map id l) ->
  filter (fun r => negb (id r =? id x)) (l ++ [x]) = l.
Proof.
  intros Hx. rewrite filter_app. cbn [filter]. rewrite Z.eqb_refl.
  cbn [negb]. rewrite app_nil_r.
  induction l as [|a l IH]; simpl; [reflexivity|].
  destruct (Z.eqb_spec (id a) (id x)) as [E|E].
  - exfalso. apply Hx. left. exact E.
  - cbn [negb]. rewrite IH; [reflexivity|].
    intros H. apply Hx. right. exact H.
Qed.

(** X21.  In a state the handlers reach, a user that was just created
    has no favourites, and a song that was just created is nobody's
    favourite; so either can be removed at once, with 204, and the
    store is then the one before the creation. *)
Theorem X21_crear_y_eliminar :
  forall (db : DB),
    alcanzable db ->
    (forall ahora usuario fila db',
        crear_usuario ahora usuario db = (Exito HTTP_201_CREATED fila, db') ->
        listar_favoritos_usuario db' (Usuario.id fila)
        = Exito HTTP_200_OK (fila, [])
        /\ eliminar_usuario (Usuario.id fila) db'
           = (Exito HTTP_204_NO_CONTENT tt, db))
    /\ (forall ahora cancion fila db',
          crear_cancion ahora cancion db = (Exito HTTP_201_CREATED fila, db') ->
          tiene_favoritos_cancion db' (Cancion.id fila) = false
          /\ eliminar_cancion (Cancion.id fila) db'
             = (Exito HTTP_204_NO_CONTENT tt, db)).
Proof.
  intros db Hdb. pose proof (alcanzable_integridad db Hdb) as Hi. split.
  - intros ahora usuario fila db' H.
    destruct (correo_registrado db (uc_correo usuario)) eqn:E;
      [rewrite crear_usuario_repetido in H by exact E; discriminate|].
    rewrite crear_usuario_nuevo in H by exact E. injection H as <- <-.
    set (fila := Usuario.mk _ _ _ _).
    assert (Hn : ~ In (Usuario.id fila) (map Usuario.id (usuarios db)))
      by apply siguiente_id_nuevo.
    assert (Hf : existsb (fun f => Favorito.id_usuario f =? Usuario.id fila)
                   (favoritos db) = false).
    { apply existsb_false_todos. intros f Hin. apply Z.eqb_neq.
      intros Eq. apply Hn. rewrite <- Eq. apply (Hi f Hin). }
    pose proof (proj1 (find_snoc_nuevo Usuario.id (usuarios db) fila Hn))
      as Hg.
    unfold listar_favoritos_usuario, eliminar_usuario, delete_usuario,
      get_usuario. cbn [usuarios favoritos con_usuarios].
    rewrite Hg, Hf, (filter_ninguno _ _ Hf).
    split; [reflexivity|].
    rewrite (filter_quita_nuevo Usuario.id _ fila Hn).
    destruct db; reflexivity.
  - intros ahora cancion fila db' H.
    unfold crear_cancion, add_cancion in H. injection H as <- <-.
    set (fila := Cancion.mk _ _ _ _ _ _ _ _).
    assert (Hn : ~ In (Cancion.id fila) (map Cancion.id (canciones db)))
      by apply siguiente_id_nuevo.
    assert (Hf : existsb (fun f => Favorito.id_cancion f =? Cancion.id fila)
                   (favoritos db) = false).
    { apply existsb_false_todos. intros f Hin. apply Z.eqb_neq.
      intros Eq. apply Hn. rewrite <- Eq. apply (Hi f Hin). }
    pose proof (proj1 (find_snoc_nuevo Cancion.id (canciones db) fila Hn))
      as Hg.
    unfold tiene_favoritos_cancion, eliminar_cancion, delete_cancion,
      get_cancion. cbn [canciones favoritos con_canciones].
    rewrite Hg, Hf. split; [reflexivity|].
    rewrite (filter_quita_nuevo Cancion.id _ fila Hn).
    destruct db; reflexivity.
Qed.

Lemma X21_crear_y_eliminar_witness :
  let db0 :=
    atender (POST_usuario 10 (mkUsuarioCreate "Ana" "ana@x.com")) db_vacia in
  eliminar_usuario 2
    (snd (crear_usuario 11 (mkUsuarioCreate "Luis" "luis@x.com") db0))
  = (Exito HTTP_204_NO_CONTENT tt, db0).
Proof.
  cbn zeta.
  apply (proj1 (X21_crear_y_eliminar
                  (atender (POST_usuario 10
                              (mkUsuarioCreate "Ana" "ana@x.com")) db_vacia)
                  (alcanzable_paso _ _ alcanzable_vacia))
           11 (mkUsuarioCreate "Luis" "luis@x.com")
           (Usuario.mk 2 "Luis" "luis@x.com" 11)).
  reflexivity.
Defined.
